(** * dnf/modules.py: module registry, stream enablement and transaction bookkeeping

    A shallow embedding of [dnf/modules.py].  Python objects that are shared
    and mutated (the [RepoModule] objects of a [RepoModuleDict], the
    [ModuleTransactionProgress] callback) live in an explicit [World]; a
    reference to a [RepoModule] is the key under which the registry holds it.
    The collaborators that are not part of the file (hawkey's NEVRA parser,
    the [ModuleConf] constructor, the confirmation prompt, the callback
    constants) are the fields of the class [Collaborators], with what the
    run of the interpreter decides (the order in which a set is visited,
    the limit on the digits of a number, the Unicode database). *)

From Stdlib Require Import ZArith Lia Ascii String DecimalString DecimalZ DecimalPos.
From stdpp Require Import base strings list sorting gmap.

Local Open Scope Z_scope.
Local Open Scope string_scope.

(** ** Python builtins used by the module *)

Module Py.

(** Exceptions that the modelled code can raise.  [Error] is
    [dnf.exceptions.Error]; its payload is the message, kept as the
    template and the arguments handed to [str.format]. *)
Inductive FmtArg :=
| ANone
| AStr (s : string)
| AList (l : list string).

Record Message := { template : string; fmt_args : list FmtArg }.

Inductive Exception :=
| Error (msg : Message)
| KeyError
| ValueError
| AssertionError
| AttributeError
| IndexError
| RecursionError.

Inductive Result (A : Type) :=
| Return (a : A)
| Raise (e : Exception).
Arguments Return {A} a.
Arguments Raise {A} e.

Definition rbind {A B} (r : Result A) (k : A -> Result B) : Result B :=
  match r with
  | Return a => k a
  | Raise e => Raise e
  end.

(** [try: body  except KeyError: pass] followed by [handler]. *)
Definition except_KeyError {A} (body : Result A) (handler : Result A) : Result A :=
  match body with
  | Raise KeyError => handler
  | r => r
  end.

(** [str(x)] / ["%s" % x] of a value that is a string or [None]. *)
Definition str_opt (o : option string) : string :=
  match o with
  | Some s => s
  | None => "None"
  end.

Definition arg_of_opt (o : option string) : FmtArg :=
  match o with
  | Some s => AStr s
  | None => ANone
  end.

(** Truth value of [None]/[str] and of [None]/[int]. *)
Definition truthy_str (o : option string) : bool :=
  match o with
  | Some s => negb (bool_decide (s = EmptyString))
  | None => false
  end.

(** The string of [if x: ...] in its true branch. *)
Definition nonempty (o : option string) : option string :=
  if truthy_str o then o else None.

Definition truthy_int (o : option Z) : bool :=
  match o with
  | Some z => negb (z =? 0)%Z
  | None => false
  end.

(** *** Strings

    A [str] is kept as the bytes of its UTF-8 encoding, a lone surrogate
    encoded like any other code point, so that every [str] has exactly one
    encoding.  Equality, concatenation, the order of [sorted] and the
    search for an ASCII character are then those of the bytes; [strip] and
    [int] read code points. *)

(** The bytes [10xxxxxx], which continue a code point. *)
Definition continuation (c : ascii) : bool :=
  let n := N_of_ascii c in ((128 <=? n) && (n <? 192))%N.

(** The characters of a string, each as the bytes that encode it: a byte
    with the continuation bytes that follow it. *)
Fixpoint chars (s : string) : list string :=
  match s with
  | EmptyString => []
  | String a r =>
      match chars r with
      | String b c :: cs =>
          if continuation b then String a (String b c) :: cs
          else String a EmptyString :: String b c :: cs
      | cs => String a EmptyString :: cs
      end
  end.

(** The code point of a character; [None] for bytes that encode none. *)
Definition ord (c : string) : option N :=
  match N_of_ascii <$> list_ascii_of_string c with
  | [a] => if (a <? 128)%N then Some a else None
  | [a; b] =>
      let n := ((a - 192) * 64 + (b - 128))%N in
      if ((192 <=? a) && (a <? 224) && (128 <=? n))%N then Some n else None
  | [a; b; c] =>
      let n := (((a - 224) * 64 + (b - 128)) * 64 + (c - 128))%N in
      if ((224 <=? a) && (a <? 240) && (2048 <=? n))%N then Some n else None
  | [a; b; c; d] =>
      let n :=
        ((((a - 240) * 64 + (b - 128)) * 64 + (c - 128)) * 64 + (d - 128))%N in
      if ((240 <=? a) && (a <? 248) && (65536 <=? n) && (n <? 1114112))%N
      then Some n else None
  | _ => None
  end.

(** The code points for which [str.isspace] holds (Unicode 14.0; the
    same since Unicode 6.3). *)
Definition whitespace : list N :=
  [
   9; 10; 11; 12; 13; 28; 29; 30; 31; 32; 133; 160; 5760; 8192; 8193; 8194;
   8195; 8196; 8197; 8198; 8199; 8200; 8201; 8202; 8232; 8233; 8239; 8287;
   12288 ]%N.

Definition isspace (c : string) : bool :=
  match ord c with
  | Some n => bool_decide (n ∈ whitespace)
  | None => false
  end.

(** The code points of the digit zero of every script in Unicode 14.0
    (general category Nd); the digits one to nine follow each of them. *)
Definition decimal_zeros : list N :=
  [
   48; 1632; 1776; 1984; 2406; 2534; 2662; 2790; 2918; 3046; 3174; 3302;
   3430; 3558; 3664; 3792; 3872; 4160; 4240; 6112; 6160; 6470; 6608; 6784;
   6800; 6992; 7088; 7232; 7248; 42528; 43216; 43264; 43472; 43504; 43600;
   44016; 65296; 66720; 68912; 69734; 69872; 69942; 70096; 70384; 70736;
   70864; 71248; 71360; 71472; 71904; 72016; 72784; 73040; 73120; 92768;
   92864; 93008; 120782; 120792; 120802; 120812; 120822; 123200; 123632;
   125264; 130032 ]%N.

(** The value of a code point as a decimal digit in Unicode 14.0. *)
Definition decimal_14 (n : N) : option N :=
  z ← List.find (fun z => ((z <=? n) && (n <? z + 10))%N) decimal_zeros;
  Some (n - z)%N.

Fixpoint lstrip_chars (l : list string) : list string :=
  match l with
  | [] => []
  | c :: r => if isspace c then lstrip_chars r else l
  end.

(** [s.strip()] *)
Definition str_strip (s : string) : string :=
  foldr String.append EmptyString
    (reverse (lstrip_chars (reverse (lstrip_chars (chars s))))).

(** Characters skipped by [int()] around the digits, once the string is
    in ASCII. *)
Definition int_space (c : ascii) : bool :=
  let n := nat_of_ascii c in
  ((9 <=? n) && (n <=? 13) || (n =? 32))%nat.

Fixpoint lstrip (ws : ascii -> bool) (s : string) : string :=
  match s with
  | EmptyString => EmptyString
  | String c r => if ws c then lstrip ws r else s
  end.

Fixpoint rstrip (ws : ascii -> bool) (s : string) : string :=
  match s with
  | EmptyString => EmptyString
  | String c r =>
      match rstrip ws r with
      | EmptyString => if ws c then EmptyString else String c EmptyString
      | r' => String c r'
      end
  end.

Definition strip (ws : ascii -> bool) (s : string) : string :=
  rstrip ws (lstrip ws s).

(** [c in s] for a one-character needle. *)
Fixpoint contains (c : ascii) (s : string) : bool :=
  match s with
  | EmptyString => false
  | String a r => bool_decide (a = c) || contains c r
  end.

(** [s.rsplit(c, 1)]: split at the last occurrence of [c], if any. *)
Fixpoint rsplit1 (c : ascii) (s : string) : list string :=
  match s with
  | EmptyString => [EmptyString]
  | String a r =>
      match rsplit1 c r with
      | [x; y] => [String a x; y]
      | _ => if bool_decide (a = c) then [EmptyString; r] else [s]
      end
  end.

(** *** [int(str)] and [str(int)] *)

(** Underscores may separate digits, one at a time. *)
Fixpoint digit_groups (after_digit : bool) (s : string) : option string :=
  match s with
  | EmptyString => if after_digit then Some EmptyString else None
  | String c r =>
      if bool_decide (c = "_"%char)
      then (if after_digit then digit_groups false r else None)
      else String c <$> digit_groups true r
  end.

(** What the run of the interpreter decides. *)
Class Interpreter := {
  (** [sys.get_int_max_str_digits()]: the longest string of digits that
      [int] reads and [str] writes, zero for no limit. *)
  int_max_str_digits : nat;
  (** The value as a decimal digit of a code point beyond the ASCII
      range, in the Unicode database of the interpreter. *)
  unicode_decimal : N -> option N;
  (** The order in which a loop visits the members of a [set] of strings
      that was filled in the given order.  It depends on the hashes of the
      members, which change from run to run; every member is visited
      once. *)
  set_iter : list string -> list string;
  set_iter_NoDup : forall l, NoDup (set_iter l);
  set_iter_elem_of : forall l x, x ∈ set_iter l <-> x ∈ l }.

Section builtins.
Context `{Interpreter}.

(** The number of digits is over the limit of the run. *)
Definition over_limit (digits : nat) : bool :=
  ((0 <? int_max_str_digits) && (int_max_str_digits <? digits))%nat.

Definition int_of_digits (neg : bool) (s : string) : option Z :=
  ds ← digit_groups false s;
  u ← NilZero.uint_of_string ds;
  if over_limit (Decimal.nb_digits u) then None
  else Some (Z.of_int (if neg then Decimal.Neg u else Decimal.Pos u)).

(** What [int] makes of one character before it reads the number: a
    character of the ASCII range stays, other white space becomes a
    blank, a decimal digit of any script the ASCII digit of its value, and
    anything else a character that no number contains. *)
Definition ascii_of_char (c : string) : ascii :=
  match c with
  | String a EmptyString => if (N_of_ascii a <? 128)%N then a else "?"%char
  | _ =>
      if isspace c then " "%char
      else
        match ord c ≫= unicode_decimal with
        | Some d => if (d <? 10)%N then ascii_of_N (48 + d) else "?"%char
        | None => "?"%char
        end
  end.

Definition to_ascii (s : string) : string :=
  string_of_list_ascii (ascii_of_char <$> chars s).

(** [int(s)], base ten; [None] stands for [ValueError]. *)
Definition int (s : string) : option Z :=
  match strip int_space (to_ascii s) with
  | String "-" r => int_of_digits true r
  | String "+" r => int_of_digits false r
  | body => int_of_digits false body
  end.

(** [str(z)]; [None] stands for the [ValueError] of a number with more
    digits than the limit. *)
Definition str_int (z : Z) : option string :=
  let d := Z.to_int z in
  let digits := match d with Decimal.Pos u | Decimal.Neg u => u end in
  if over_limit (Decimal.nb_digits digits) then None
  else Some (NilZero.string_of_int d).

End builtins.

(** *** [sorted] on strings *)

Fixpoint insert_sorted (x : string) (l : list string) : list string :=
  match l with
  | [] => [x]
  | y :: r => if String.leb x y then x :: l else y :: insert_sorted x r
  end.

Definition sorted (l : list string) : list string :=
  foldr insert_sorted [] l.

(** [sorted(set(l))] *)
Definition sorted_set (l : list string) : list string :=
  sorted (remove_dups l).

(** *** [OrderedDict] *)

Section odict.
Context {K V : Type} `{EqDecision K}.

Fixpoint get (d : list (K * V)) (k : K) : option V :=
  match d with
  | [] => None
  | (k', v) :: r => if decide (k = k') then Some v else get r k
  end.

(** [d[k] = v]: an existing key keeps its position. *)
Fixpoint set (d : list (K * V)) (k : K) (v : V) : list (K * V) :=
  match d with
  | [] => [(k, v)]
  | (k', v') :: r =>
      if decide (k = k') then (k, v) :: r else (k', v') :: set r k v
  end.

Definition mem (d : list (K * V)) (k : K) : bool :=
  match get d k with
  | Some _ => true
  | None => false
  end.

(** [d[k]] *)
Definition getitem (d : list (K * V)) (k : K) : Result V :=
  match get d k with
  | Some v => Return v
  | None => Raise KeyError
  end.

Definition values (d : list (K * V)) : list V := d.*2.
Definition keys (d : list (K * V)) : list K := d.*1.
End odict.

End Py.

Notation "x <-? r ; k" := (Py.rbind r (fun x => k))
  (at level 100, r at next level, right associativity, only parsing).

Import Py.

(** ** Messages *)

Inductive ModuleErrorCode :=
| LOAD_CACHE_ERR
| MISSING_YAML_ERR
| NO_METADATA_ERR
| NO_MODULE_OR_STREAM_ERR
| NO_MODULE_ERR
| NO_PROFILE_ERR
| NO_STREAM_ERR
| NO_ACTIVE_STREAM_ERR
| STREAM_NOT_ENABLED_ERR
| DIFFERENT_STREAM_INFO
| INVALID_MODULE_ERR
| LOWER_VERSION_INFO
| NOTHING_TO_SHOW
| PARSING_ERR
| PROFILE_NOT_INSTALLED.

Definition module_errors (code : ModuleErrorCode) : string :=
  match code with
  | LOAD_CACHE_ERR => "Cannot load from cache dir: {}"
  | MISSING_YAML_ERR => "Missing file *modules.yaml in metadata cache dir: {}"
  | NO_METADATA_ERR => "No available metadata for module: {}"
  | NO_MODULE_OR_STREAM_ERR =>
      "No such module: {} or active stream (enable a stream first)"
  | NO_MODULE_ERR => "No such module: {}"
  | NO_PROFILE_ERR => "No such profile: {}. Possible profiles: {}"
  | NO_STREAM_ERR => "No such stream {} in {}"
  | NO_ACTIVE_STREAM_ERR => "No active stream for module: {}"
  | STREAM_NOT_ENABLED_ERR => "Stream not enabled. Skipping {}"
  | DIFFERENT_STREAM_INFO => "Enabling different stream for {}"
  | INVALID_MODULE_ERR => "Not a valid module: {}"
  | LOWER_VERSION_INFO =>
      "Using lower version due to missing profile in latest version"
  | NOTHING_TO_SHOW => "Nothing to show"
  | PARSING_ERR =>
      "Probable parsing problem of {}, try specifying MODULE-STREAM-VERSION"
  | PROFILE_NOT_INSTALLED => "Profile not installed: {}"
  end.

(** [module_errors[code].format( *args )] *)
Definition format (code : ModuleErrorCode) (args : list FmtArg) : Message :=
  {| template := module_errors code; fmt_args := args |}.

(** ** Data model *)

(** [dnf.conf.ModuleConf]: the persisted configuration of one module. *)
Module ModuleConf.
Record t := mk {
  name : option string;
  stream : option string;
  version : option Z;
  enabled : bool;
  locked : bool;
  profiles : list string }.

Definition set_name (c : t) (x : option string) : t :=
  mk x (stream c) (version c) (enabled c) (locked c) (profiles c).
Definition set_stream (c : t) (x : option string) : t :=
  mk (name c) x (version c) (enabled c) (locked c) (profiles c).
Definition set_version (c : t) (x : option Z) : t :=
  mk (name c) (stream c) x (enabled c) (locked c) (profiles c).
Definition set_enabled (c : t) (x : bool) : t :=
  mk (name c) (stream c) (version c) x (locked c) (profiles c).
Definition set_profiles (c : t) (x : list string) : t :=
  mk (name c) (stream c) (version c) (enabled c) (locked c) x.
End ModuleConf.

(** [modulemd.ModuleMetadata], the fields that [dnf/modules.py] reads.
    [profiles] maps a profile name to the names of its packages. *)
Module ModuleMetadata.
Record t := mk {
  name : string;
  stream : string;
  version : Z;
  summary : string;
  profiles : list (string * list string);
  artifacts_rpms : list string }.
End ModuleMetadata.

Module RepoModuleVersion.
(** [repo] is kept as [repo.id]; [base] is the one [dnf.Base] of the
    process; [parent.parent] is the [RepoModule] registered under
    [name]. *)
Record t := mk {
  module_metadata : ModuleMetadata.t;
  repo : string }.

Definition version (self : t) : Z :=
  ModuleMetadata.version (module_metadata self).
Definition stream (self : t) : string :=
  ModuleMetadata.stream (module_metadata self).
Definition name (self : t) : string :=
  ModuleMetadata.name (module_metadata self).
Definition full_stream (self : t) : string :=
  name self +:+ "-" +:+ stream self.
Definition profiles (self : t) : list string :=
  Py.sorted (Py.keys (ModuleMetadata.profiles (module_metadata self))).

(** [__lt__] *)
Definition lt (self other : t) : Result bool :=
  if bool_decide (full_stream self = full_stream other)
  then Return (version self <? version other)%Z
  else Raise AssertionError.

(** [max(values)] with the comparison above: [item > maxitem] is
    evaluated as [maxitem.__lt__(item)]. *)
Fixpoint max_from (maxitem : t) (rest : list t) : Result t :=
  match rest with
  | [] => Return maxitem
  | item :: rest' =>
      b <-? lt maxitem item;
      max_from (if b then item else maxitem) rest'
  end.

Definition max (l : list t) : Result t :=
  match l with
  | [] => Raise ValueError
  | item :: rest => max_from item rest
  end.
End RepoModuleVersion.

Module RepoModuleStream.
Record t := mk {
  items : list (Z * RepoModuleVersion.t);
  stream : option string }.

Definition init : t := mk [] None.

Definition add (self : t) (repo_module_version : RepoModuleVersion.t) : t :=
  mk (Py.set (items self)
        (RepoModuleVersion.version repo_module_version) repo_module_version)
     (Some (RepoModuleVersion.stream repo_module_version)).

Definition latest (self : t) : Result RepoModuleVersion.t :=
  RepoModuleVersion.max (Py.values (items self)).
End RepoModuleStream.

Module RepoModule.
(** [installed_repo_module_version] is an attribute that exists only
    once [install] or [upgrade] has assigned it. *)
Record t := mk {
  items : list (string * RepoModuleStream.t);
  conf : option ModuleConf.t;
  defaults : option ModuleConf.t;
  name : option string;
  installed_profiles : list string;
  installed_version : option Z;
  installed_repo_module_version : option RepoModuleVersion.t }.

Definition init : t := mk [] None None None [] None None.

Definition set_items (m : t) x : t :=
  mk x (conf m) (defaults m) (name m) (installed_profiles m)
     (installed_version m) (installed_repo_module_version m).
Definition set_conf (m : t) x : t :=
  mk (items m) x (defaults m) (name m) (installed_profiles m)
     (installed_version m) (installed_repo_module_version m).
Definition set_name (m : t) x : t :=
  mk (items m) (conf m) (defaults m) x (installed_profiles m)
     (installed_version m) (installed_repo_module_version m).
Definition set_installed_profiles (m : t) x : t :=
  mk (items m) (conf m) (defaults m) (name m) x
     (installed_version m) (installed_repo_module_version m).
Definition set_installed_repo_module_version (m : t) x : t :=
  mk (items m) (conf m) (defaults m) (name m) (installed_profiles m)
     (installed_version m) x.

Definition add (self : t) (repo_module_version : RepoModuleVersion.t) : t :=
  let key := RepoModuleVersion.stream repo_module_version in
  let module_stream :=
    match Py.get (items self) key with
    | Some s => s
    | None => RepoModuleStream.init
    end in
  set_name
    (set_items self
       (Py.set (items self) key
          (RepoModuleStream.add module_stream repo_module_version)))
    (Some (RepoModuleVersion.name repo_module_version)).
End RepoModule.

Module ModuleTransactionProgress.
(** [repo_modules] holds references to [RepoModule] objects of the
    registry: the keys they are registered under. *)
Record t := mk {
  repo_modules : list string;
  saved : bool }.

Definition init : t := mk [] false.
End ModuleTransactionProgress.

Module RepoModuleDict.
Record t := mk {
  items : list (string * RepoModule.t);
  transaction_callback : ModuleTransactionProgress.t }.

Definition init : t := mk [] ModuleTransactionProgress.init.

Definition set_items (d : t) x : t := mk x (transaction_callback d).
Definition set_transaction_callback (d : t) x : t := mk (items d) x.

Definition add (self : t) (repo_module_version : RepoModuleVersion.t) : t :=
  let key := RepoModuleVersion.name repo_module_version in
  let module :=
    match Py.get (items self) key with
    | Some m => m
    | None => RepoModule.init
    end in
  set_items self
    (Py.set (items self) key (RepoModule.add module repo_module_version)).

(** [load_modules], given what the metadata loader of the repository
    returned. *)
Definition load_modules (self : t) (repo : string)
    (loaded : list ModuleMetadata.t) : t :=
  foldl (fun d md => add d (RepoModuleVersion.mk md repo)) self loaded.

(** [conf and conf.locked and conf.version is not None], with the
    version it then reads.  A [ModuleConf] object is always true. *)
Definition locked_version (repo_module : RepoModule.t) : option Z :=
  match RepoModule.conf repo_module with
  | Some conf =>
      if ModuleConf.locked conf then ModuleConf.version conf else None
  | None => None
  end.

Definition find_module_version (self : t) (name : string)
    (stream : option string) (version : option Z) (arch : option string)
  : Result (option RepoModuleVersion.t) :=
  except_KeyError
    (repo_module <-? Py.getitem (items self) name;
     let stream :=
       if negb (truthy_str stream) then
         match RepoModule.conf repo_module with
         | Some conf =>
             if ModuleConf.enabled conf then ModuleConf.stream conf
             else stream
         | None => stream
         end
       else stream in
     let stream :=
       if negb (truthy_str stream) then
         if bool_decide (name = "httpd") then Some "2.4" else Some "f26"
       else stream in
     if negb (truthy_str stream) then Return None
     else
       repo_module_stream <-?
         match stream with
         | Some s => Py.getitem (RepoModule.items repo_module) s
         | None => Raise KeyError
         end;
       repo_module_version <-?
         match locked_version repo_module with
         | Some v =>
             Py.getitem (RepoModuleStream.items repo_module_stream) v
         | None =>
             if truthy_int version then
               match version with
               | Some v =>
                   Py.getitem (RepoModuleStream.items repo_module_stream) v
               | None => Raise KeyError
               end
             else RepoModuleStream.latest repo_module_stream
         end;
       Return (Some repo_module_version))
    (Return None).
End RepoModuleDict.

(** [hawkey.NEVRA] *)
Module Nevra.
Record t := mk {
  name : string;
  epoch : option Z;
  version : option string;
  release : option string;
  arch : option string }.

Definition set_release (n : t) (x : option string) : t :=
  mk (name n) (epoch n) (version n) x (arch n).
End Nevra.

Module NSVAP.
Record t := mk {
  name : string;
  stream : option string;
  version : option Z;
  arch : option string;
  profile : option string }.

(** [__init__]: [version is not None and int(version) or None] *)
Definition init (name : string) (stream : option string)
    (version : option Z) (arch : option string) (profile : option string) : t :=
  mk name stream (if truthy_int version then version else None) arch profile.
End NSVAP.

(** ** Collaborators

    What [dnf/modules.py] imports and calls but does not define. *)
Class Collaborators := {
  (** [hawkey.Subject(s).nevra_possibilities(form=forms)]; no [form]
      keyword is passed when [forms] is empty. *)
  nevra_possibilities : string -> list Z -> list Nevra.t;
  (** [dnf.subject.Subject(s).get_nevra_possibilities(hawkey.FORM_NEVRA)] *)
  get_nevra_possibilities : string -> list Nevra.t;
  (** [nevra_obj.evr()] *)
  evr : Nevra.t -> string;
  (** [ModuleConf(section=name, parser=ConfigParser())] *)
  ModuleConf_new : option string -> ModuleConf.t;
  (** the answer of [base.output.userconfirm()] to the n-th prompt *)
  userconfirm : nat -> bool;
  (** [dnf.callback.TRANS_POST], [dnf.callback.PKG_VERIFY] *)
  TRANS_POST : Z;
  PKG_VERIFY : Z;
  (** the interpreter that runs the module *)
  interpreter :: Interpreter }.

(** ** The world: registry, configuration files, observable effects *)

Inductive Event :=
| LogInfo (msg : Message)
| LogWarning (msg : Message)
| LogError (msg : Message)
| UserConfirm (answer : bool)
| BaseInstall (nevr : string) (reponame : string)
| BaseUpgrade (nevr : string) (reponame : string)
| WriteConf (output_file : string) (conf : ModuleConf.t).

Record World := mkWorld {
  registry : RepoModuleDict.t;
  files : gmap string ModuleConf.t;
  events : list Event }.

Definition M (A : Type) : Type := World -> Result A * World.

Definition ret {A} (a : A) : M A := fun w => (Return a, w).

Definition raise {A} (e : Exception) : M A := fun w => (Raise e, w).

Definition bind {A B} (m : M A) (k : A -> M B) : M B :=
  fun w =>
    match m w with
    | (Return a, w') => k a w'
    | (Raise e, w') => (Raise e, w')
    end.

Definition lift {A} (r : Result A) : M A := fun w => (r, w).

Notation "'do' x <- m ; k" := (bind m (fun x => k))
  (at level 10, x name, m at level 100, k at level 200, only parsing).
Notation "'run' m ; k" := (bind m (fun _ => k))
  (at level 10, m at level 100, k at level 200, only parsing).

(** [for x in l: body(x)] *)
Fixpoint for_each {A} (l : list A) (body : A -> M unit) : M unit :=
  match l with
  | [] => ret tt
  | x :: l' => run body x; for_each l' body
  end.

Definition emit (e : Event) : M unit :=
  fun w => (Return tt, mkWorld (registry w) (files w) (events w ++ [e])).

Definition get_registry : M RepoModuleDict.t :=
  fun w => (Return (registry w), w).

Definition put_registry (d : RepoModuleDict.t) : M unit :=
  fun w => (Return tt, mkWorld d (files w) (events w)).

(** Dereference a [RepoModule] reference; a dangling one behaves as the
    [None] that an unset [parent] attribute holds. *)
Definition get_module (self : string) : M RepoModule.t :=
  do d <- get_registry;
  match Py.get (RepoModuleDict.items d) self with
  | Some m => ret m
  | None => raise AttributeError
  end.

Definition put_module (self : string) (m : RepoModule.t) : M unit :=
  do d <- get_registry;
  put_registry
    (RepoModuleDict.set_items d (Py.set (RepoModuleDict.items d) self m)).

(** [self.conf.<field>] on a [RepoModule] *)
Definition get_conf (self : string) : M ModuleConf.t :=
  do m <- get_module self;
  match RepoModule.conf m with
  | Some c => ret c
  | None => raise AttributeError
  end.

Definition put_conf (self : string) (c : ModuleConf.t) : M unit :=
  do m <- get_module self;
  put_module self (RepoModule.set_conf m (Some c)).

Definition is_confirm (e : Event) : bool :=
  match e with
  | UserConfirm _ => true
  | _ => false
  end.

Definition prompts (w : World) : nat := length (filter is_confirm (events w)).

Section Model.
Context `{Collaborators}.

(** [self.parent.base.output.userconfirm()] *)
Definition output_userconfirm : M bool :=
  fun w =>
    let answer := userconfirm (prompts w) in
    (Return answer,
     mkWorld (registry w) (files w) (events w ++ [UserConfirm answer])).

(** *** RepoModule *)

(** [write_conf_to_file]: the file is named after [conf.name] inside the
    modules directory and receives the configuration as it is now. *)
Definition RepoModule_write_conf_to_file (self : string) : M unit :=
  do conf <- get_conf self;
  let output_file := str_opt (ModuleConf.name conf) +:+ ".module" in
  fun w =>
    (Return tt,
     mkWorld (registry w) (<[output_file := conf]> (files w))
       (events w ++ [WriteConf output_file conf])).

(** [if self.conf is None: self.conf = ModuleConf(...); self.conf.name = self.name] *)
Definition RepoModule_ensure_conf (self : string) : M unit :=
  do m <- get_module self;
  match RepoModule.conf m with
  | Some _ => ret tt
  | None =>
      put_conf self
        (ModuleConf.set_name (ModuleConf_new (RepoModule.name m))
           (RepoModule.name m))
  end.

(** [enable] calls itself once, with [assumeyes] set; [depth] bounds the
    nesting of calls as the interpreter's recursion limit does. *)
Fixpoint RepoModule_enable_rec (depth : nat) (self : string)
    (stream : string) (assumeyes assumeno : bool) : M unit :=
  match depth with
  | O => raise RecursionError
  | S depth' =>
      do m <- get_module self;
      if negb (Py.mem (RepoModule.items m) stream) then
        raise (Error (format NO_STREAM_ERR
                        [AStr stream; arg_of_opt (RepoModule.name m)]))
      else
        run RepoModule_ensure_conf self;
        do conf <- get_conf self;
        run (if bool_decide (ModuleConf.stream conf <> None)
                && negb (bool_decide
                           (str_opt (ModuleConf.stream conf) = stream))
                && negb assumeyes
             then
               run emit (LogInfo (format DIFFERENT_STREAM_INFO
                                    [arg_of_opt (RepoModule.name m)]));
               if assumeno then
                 emit (LogInfo (format STREAM_NOT_ENABLED_ERR [AStr stream]))
               else
                 do answer <- output_userconfirm;
                 if answer then
                   RepoModule_enable_rec depth' self stream true assumeno
                 else
                   emit (LogInfo (format STREAM_NOT_ENABLED_ERR
                                    [AStr stream]))
             else ret tt);
        do conf <- get_conf self;
        run put_conf self (ModuleConf.set_stream conf (Some stream));
        do conf <- get_conf self;
        run put_conf self (ModuleConf.set_enabled conf true);
        RepoModule_write_conf_to_file self
  end.

Definition recursion_limit : nat := 1000.

Definition RepoModule_enable : string -> string -> bool -> bool -> M unit :=
  RepoModule_enable_rec recursion_limit.

Definition RepoModule_disable (self : string) : M unit :=
  run RepoModule_ensure_conf self;
  do conf <- get_conf self;
  run put_conf self (ModuleConf.set_enabled conf false);
  RepoModule_write_conf_to_file self.

(** *** RepoModuleVersion *)

(** [s.replace("0:", empty)]: every occurrence of the prefix is dropped. *)
Fixpoint remove_epoch (s : string) : string :=
  match s with
  | String "0" (String ":" r) => remove_epoch r
  | String c r => String c (remove_epoch r)
  | EmptyString => EmptyString
  end.

(** [artifacts.rpms] is a set: the list comprehension visits it in the
    order of [set_iter]. *)
Definition RepoModuleVersion_nevra (self : RepoModuleVersion.t) : list string :=
  remove_epoch <$>
    set_iter
      (ModuleMetadata.artifacts_rpms (RepoModuleVersion.module_metadata self)).

(** [self.module_metadata.profiles[profile].rpms] *)
Definition RepoModuleVersion_rpms (self : RepoModuleVersion.t)
    (profile : string) : Result (list string) :=
  Py.getitem
    (ModuleMetadata.profiles (RepoModuleVersion.module_metadata self)) profile.

(** The result is a set, kept as the list of its members in the order in
    which [add] inserted them; a loop over it goes through [set_iter]. *)
Definition RepoModuleVersion_profile_nevra (self : RepoModuleVersion.t)
    (profile : string) : Result (list string) :=
  rpms <-? RepoModuleVersion_rpms self profile;
  foldl
    (fun (acc : Result (list string)) nevra =>
       result <-? acc;
       match get_nevra_possibilities nevra with
       | [] => Raise IndexError
       | nevra_obj :: _ =>
           if negb (bool_decide (Nevra.name nevra_obj ∈ rpms)) then
             Return result
           else
             let item := Nevra.name nevra_obj +:+ "-" +:+ evr nevra_obj in
             Return (if bool_decide (item ∈ result) then result
                     else (result ++ [item])%list)
       end)
    (Return []) (RepoModuleVersion_nevra self).

(** The profile, when [profile in self.profiles]; the argument may be
    [None], the members are profile names. *)
Definition known_profile (self : RepoModuleVersion.t)
    (profile : option string) : option string :=
  match profile with
  | Some p =>
      if bool_decide (p ∈ RepoModuleVersion.profiles self) then Some p
      else None
  | None => None
  end.

(** [repo_module.parent.transaction_callback.repo_modules.append(repo_module)] *)
Definition register_repo_module (repo_module : string) : M unit :=
  do d <- get_registry;
  let cb := RepoModuleDict.transaction_callback d in
  put_registry
    (RepoModuleDict.set_transaction_callback d
       (ModuleTransactionProgress.mk
          (ModuleTransactionProgress.repo_modules cb ++ [repo_module])
          (ModuleTransactionProgress.saved cb))).

Definition RepoModuleVersion_install (self : RepoModuleVersion.t)
    (profile : option string) : M unit :=
  match known_profile self profile with
  | None =>
      raise (Error (format NO_PROFILE_ERR
                      [arg_of_opt profile;
                       AList (RepoModuleVersion.profiles self)]))
  | Some profile =>
      let repo_module := RepoModuleVersion.name self in
      do m <- get_module repo_module;
      run put_module repo_module
            (RepoModule.set_installed_repo_module_version m (Some self));
      do m <- get_module repo_module;
      run put_module repo_module
            (RepoModule.set_installed_profiles m
               (RepoModule.installed_profiles m ++ [profile]));
      do nevras <- lift (RepoModuleVersion_profile_nevra self profile);
      run for_each (set_iter nevras)
            (fun single_nevra =>
               emit (BaseInstall single_nevra (RepoModuleVersion.repo self)));
      register_repo_module repo_module
  end.

Definition RepoModuleVersion_upgrade (self : RepoModuleVersion.t)
    (profiles : list string) : M unit :=
  let repo_module := RepoModuleVersion.name self in
  do m <- get_module repo_module;
  run put_module repo_module
        (RepoModule.set_installed_repo_module_version m (Some self));
  run for_each profiles
        (fun profile =>
           match known_profile self (Some profile) with
           | None =>
               raise (Error (format NO_PROFILE_ERR
                               [AStr profile;
                                AList (RepoModuleVersion.profiles self)]))
           | Some profile =>
               do nevras <-
                 lift (RepoModuleVersion_profile_nevra self profile);
               for_each (set_iter nevras)
                 (fun single_nevra =>
                    emit (BaseUpgrade single_nevra
                            (RepoModuleVersion.repo self)))
           end);
  register_repo_module repo_module.

(** *** ModuleSubject *)

(** The [try] block of the loop of [get_nsvap_possibilities]; [None] is
    the [ValueError] that it catches. *)
Definition normalize_release (i : Nevra.t) : option Nevra.t :=
  match Nevra.release i with
  | Some r =>
      z ← Py.int r; s ← Py.str_int z; Some (Nevra.set_release i (Some s))
  | None => Some i
  end.

(** One round of that loop; [Return None] is [continue]. *)
Definition nsvap_of_possibility (profile : option string) (i : Nevra.t)
  : Result (option NSVAP.t) :=
  match normalize_release i with
  | None => Return None
  | Some i =>
      version <-?
        (if truthy_str (Nevra.release i) then
           match Py.int (str_opt (Nevra.release i)) with
           | Some z => Return (if truthy_int (Some z) then Some z else None)
           | None => Raise ValueError
           end
         else Return None);
      Return (Some (NSVAP.init (Nevra.name i) (Nevra.version i) version
                      (Nevra.arch i) profile))
  end.

Definition ModuleSubject_get_nsvap_possibilities (pkg_spec : string)
    (forms : list Z) : Result (list NSVAP.t) :=
  split <-?
    (if Py.contains "/" pkg_spec then
       match Py.rsplit1 "/" pkg_spec with
       | [nsva; profile] =>
           Return (nsva,
                   if negb (truthy_str (Some (Py.str_strip profile)))
                   then None else Some profile)
       | _ => Raise ValueError
       end
     else Return (pkg_spec, None));
  let '(nsva, profile) := split in
  let possibilities := nevra_possibilities nsva forms in
  foldl
    (fun (acc : Result (list NSVAP.t)) i =>
       result <-? acc;
       n <-? nsvap_of_possibility profile i;
       match n with
       | Some nsvap => Return (result ++ [nsvap])%list
       | None => Return result
       end)
    (Return []) possibilities.

(** The loop of [find_module_version] over the candidates. *)
Fixpoint first_match (repo_module_dict : RepoModuleDict.t)
    (candidates : list NSVAP.t)
  : Result (option RepoModuleVersion.t * option NSVAP.t) :=
  match candidates with
  | [] => Return (None, None)
  | nsvap :: rest =>
      module_version <-?
        RepoModuleDict.find_module_version repo_module_dict
          (NSVAP.name nsvap) (NSVAP.stream nsvap) (NSVAP.version nsvap)
          (NSVAP.arch nsvap);
      match module_version with
      | Some mv => Return (Some mv, Some nsvap)
      | None => first_match repo_module_dict rest
      end
  end.

Definition ModuleSubject_find_module_version (pkg_spec : string)
    (repo_module_dict : RepoModuleDict.t)
  : Result (option RepoModuleVersion.t * option NSVAP.t) :=
  candidates <-? ModuleSubject_get_nsvap_possibilities pkg_spec [];
  first_match repo_module_dict candidates.

(** *** RepoModuleDict *)

(** [self[name]] as a reference *)
Definition RepoModuleDict_getitem (name : string) : M string :=
  do d <- get_registry;
  run lift (Py.getitem (RepoModuleDict.items d) name);
  ret name.

Definition RepoModuleDict_enable (pkg_spec : string)
    (assumeyes assumeno : bool) : M unit :=
  do d <- get_registry;
  do found <- lift (ModuleSubject_find_module_version pkg_spec d);
  match fst found with
  | None => emit (LogError (format NO_MODULE_ERR [AStr pkg_spec]))
  | Some module_version =>
      do repo_module <-
        RepoModuleDict_getitem (RepoModuleVersion.name module_version);
      RepoModule_enable repo_module
        (RepoModuleVersion.stream module_version) assumeyes assumeno
  end.

Definition RepoModuleDict_disable (pkg_spec : string) : M unit :=
  do d <- get_registry;
  do found <- lift (ModuleSubject_find_module_version pkg_spec d);
  match fst found with
  | Some module_version =>
      RepoModule_disable (RepoModuleVersion.name module_version)
  | None =>
      match Py.get (RepoModuleDict.items d) pkg_spec with
      | Some _ => RepoModule_disable pkg_spec
      | None => emit (LogWarning (format NO_MODULE_ERR [AStr pkg_spec]))
      end
  end.

Definition RepoModuleDict_install (pkg_specs : list string)
    (autoenable : bool) : M unit :=
  for_each pkg_specs
    (fun pkg_spec =>
       do d <- get_registry;
       do found <- lift (ModuleSubject_find_module_version pkg_spec d);
       match found with
       | (None, _) => emit (LogError (format NO_MODULE_ERR [AStr pkg_spec]))
       | (Some module_version, None) => raise AttributeError
       | (Some module_version, Some nsvap) =>
           run (if autoenable
                then RepoModuleDict_enable (NSVAP.name nsvap) true false
                else ret tt);
           RepoModuleVersion_install module_version (NSVAP.profile nsvap)
       end).

Definition RepoModuleDict_upgrade (pkg_specs : list string) : M unit :=
  for_each pkg_specs
    (fun pkg_spec =>
       do d <- get_registry;
       do found <- lift (ModuleSubject_find_module_version pkg_spec d);
       match found with
       | (None, _) => emit (LogError (format NO_MODULE_ERR [AStr pkg_spec]))
       | (Some module_version, None) => raise AttributeError
       | (Some module_version, Some nsvap) =>
           do repo_module <- RepoModuleDict_getitem (NSVAP.name nsvap);
           do m <- get_module repo_module;
           let installed_profiles :=
             match RepoModule.conf m with
             | Some conf => ModuleConf.profiles conf
             | None => []
             end in
           match nonempty (NSVAP.profile nsvap) with
           | Some profile =>
               if negb (bool_decide (profile ∈ installed_profiles)) then
                 emit (LogError (format PROFILE_NOT_INSTALLED
                                   [AStr pkg_spec]))
               else RepoModuleVersion_upgrade module_version [profile]
           | None =>
               RepoModuleVersion_upgrade module_version installed_profiles
           end
       end).

Definition RepoModuleDict_upgrade_all : M unit :=
  do d <- get_registry;
  let modules :=
    omap
      (fun '(module_name, repo_module) =>
         match RepoModule.conf repo_module with
         | Some conf =>
             if ModuleConf.enabled conf then Some module_name else None
         | None => None
         end)
      (RepoModuleDict.items d) in
  RepoModuleDict_upgrade (Py.sorted modules).

(** *** ModuleTransactionProgress *)

Definition set_saved (b : bool) : M unit :=
  do d <- get_registry;
  put_registry
    (RepoModuleDict.set_transaction_callback d
       (ModuleTransactionProgress.mk
          (ModuleTransactionProgress.repo_modules
             (RepoModuleDict.transaction_callback d)) b)).

(** The body of the loop of [progress] for one tracked module. *)
Definition commit_repo_module (repo_module : string) : M unit :=
  do m <- get_module repo_module;
  do conf <- get_conf repo_module;
  run put_conf repo_module (ModuleConf.set_enabled conf true);
  do installed <-
    match RepoModule.installed_repo_module_version m with
    | Some v => ret v
    | None => raise AttributeError
    end;
  do conf <- get_conf repo_module;
  run put_conf repo_module
        (ModuleConf.set_version conf (Some (RepoModuleVersion.version installed)));
  do m <- get_module repo_module;
  do conf <- get_conf repo_module;
  let profiles :=
    (RepoModule.installed_profiles m ++ ModuleConf.profiles conf)%list in
  run put_module repo_module (RepoModule.set_installed_profiles m profiles);
  do conf <- get_conf repo_module;
  run put_conf repo_module
        (ModuleConf.set_profiles conf (Py.sorted_set profiles));
  RepoModule_write_conf_to_file repo_module.

Definition ModuleTransactionProgress_progress (package : string)
    (action : Z) (ti_done ti_total ts_done ts_total : Z) : M unit :=
  do d <- get_registry;
  let self := RepoModuleDict.transaction_callback d in
  if negb (ModuleTransactionProgress.saved self)
     && (bool_decide (action = TRANS_POST)
         || bool_decide (action = PKG_VERIFY))
  then
    run set_saved true;
    for_each (ModuleTransactionProgress.repo_modules self) commit_repo_module
  else ret tt.

End Model.

(** ** Definitions for the statements

    Worlds after an effect, well-formed registries and the parts of the
    code that the properties name. *)

(** The version stored in the registry under a (name, stream, version)
    triple, if any. *)
Definition stored_version (d : RepoModuleDict.t) (name stream : string)
    (version : Z) : option RepoModuleVersion.t :=
  m ← Py.get (RepoModuleDict.items d) name;
  s ← Py.get (RepoModule.items m) stream;
  Py.get (RepoModuleStream.items s) version.

(** Registries as [add] builds them: every version sits under its own
    name, stream and version, and no stream is empty.  Modules without
    streams (known from a configuration file only) are allowed. *)
Definition wf_stream (name stream : string) (s : RepoModuleStream.t) : Prop :=
  RepoModuleStream.items s <> [] /\
  forall v mv, (v, mv) ∈ RepoModuleStream.items s ->
    RepoModuleVersion.version mv = v /\
    RepoModuleVersion.stream mv = stream /\
    RepoModuleVersion.name mv = name.

Definition wf_module (name : string) (m : RepoModule.t) : Prop :=
  forall stream s, (stream, s) ∈ RepoModule.items m -> wf_stream name stream s.

Definition wf_registry (d : RepoModuleDict.t) : Prop :=
  forall name m, (name, m) ∈ RepoModuleDict.items d -> wf_module name m.

(** [mv] belongs to the module registered under [name], in a stream
    registered under the stream of [mv]. *)
Definition version_of_module (d : RepoModuleDict.t) (name : string)
    (mv : RepoModuleVersion.t) : Prop :=
  exists m st,
    Py.get (RepoModuleDict.items d) name = Some m /\
    Py.get (RepoModule.items m) (RepoModuleVersion.stream mv) = Some st /\
    RepoModuleVersion.name mv = name.

(** The world after an assignment to the [RepoModule] at [self]. *)
Definition upd_module (self : string) (m : RepoModule.t) (w : World) : World :=
  mkWorld
    (RepoModuleDict.set_items (registry w)
       (Py.set (RepoModuleDict.items (registry w)) self m))
    (files w) (events w).

(** The file of a configuration, and the world after it was written. *)
Definition conf_file (c : ModuleConf.t) : string :=
  str_opt (ModuleConf.name c) +:+ ".module".

Definition written (c : ModuleConf.t) (w : World) : World :=
  mkWorld (registry w) (<[conf_file c := c]> (files w))
    (events w ++ [WriteConf (conf_file c) c]).

(** The [RepoModule] behind a reference. *)
Definition module_of (w : World) (self : string) : option RepoModule.t :=
  Py.get (RepoModuleDict.items (registry w)) self.

(** The world after some observable events. *)
Definition logged (es : list Event) (w : World) : World :=
  mkWorld (registry w) (files w) (events w ++ es).

(** The configuration after [enable]. *)
Definition enabled_conf (c : ModuleConf.t) (stream : string) : ModuleConf.t :=
  ModuleConf.set_enabled (ModuleConf.set_stream c (Some stream)) true.

(** Strings of decimal digits, as [str(int)] prints them. *)
Definition is_digit (c : ascii) : bool :=
  let n := nat_of_ascii c in ((48 <=? n) && (n <=? 57))%nat.

Fixpoint digits_only (s : string) : bool :=
  match s with
  | EmptyString => true
  | String c r => is_digit c && digits_only r
  end.

(** Strings of the ASCII range. *)
Fixpoint ascii_only (s : string) : bool :=
  match s with
  | EmptyString => true
  | String c r => (N_of_ascii c <? 128)%N && ascii_only r
  end.




(** The [ModuleTransactionProgress] of the registry. *)
Definition tracker (w : World) : ModuleTransactionProgress.t :=
  RepoModuleDict.transaction_callback (registry w).

(** The configuration and the module after the commit of one module. *)
Definition committed_conf (m : RepoModule.t) (c : ModuleConf.t)
    (v : RepoModuleVersion.t) : ModuleConf.t :=
  ModuleConf.mk (ModuleConf.name c) (ModuleConf.stream c)
    (Some (RepoModuleVersion.version v)) true (ModuleConf.locked c)
    (Py.sorted_set (RepoModule.installed_profiles m ++ ModuleConf.profiles c)).

Definition committed_module (m : RepoModule.t) (c : ModuleConf.t)
    (v : RepoModuleVersion.t) : RepoModule.t :=
  RepoModule.mk (RepoModule.items m) (Some (committed_conf m c v))
    (RepoModule.defaults m) (RepoModule.name m)
    (RepoModule.installed_profiles m ++ ModuleConf.profiles c)
    (RepoModule.installed_version m) (Some v).

(** One round of the loop of [progress] on a module that has a
    configuration and a resolved version; no change otherwise. *)
Definition commit_step (w : World) (repo_module : string) : World :=
  match module_of w repo_module with
  | Some m =>
      match RepoModule.conf m, RepoModule.installed_repo_module_version m with
      | Some c, Some v =>
          written (committed_conf m c v)
            (upd_module repo_module (committed_module m c v) w)
      | _, _ => w
      end
  | None => w
  end.

(** Every tracked module has a configuration and a resolved version, as
    after [enable] followed by [install] or [upgrade]. *)
Definition tracked_ok (w : World) (l : list string) : Prop :=
  forall n, n ∈ l ->
    exists m c v, module_of w n = Some m /\ RepoModule.conf m = Some c /\
                  RepoModule.installed_repo_module_version m = Some v.

(** The world after [self.saved = True]. *)
Definition saved_world (w : World) : World :=
  mkWorld
    (RepoModuleDict.set_transaction_callback (registry w)
       (ModuleTransactionProgress.mk
          (ModuleTransactionProgress.repo_modules (tracker w)) true))
    (files w) (events w).

(** The writes of configuration files among the events. *)
Definition is_write (e : Event) : bool :=
  match e with
  | WriteConf _ _ => true
  | _ => false
  end.

Definition writes (w : World) : list Event := filter is_write (events w).

(** A checkpoint signal as the transaction engine delivers it. *)
Record Signal := mkSignal {
  sig_package : string;
  sig_action : Z;
  sig_ti_done : Z;
  sig_ti_total : Z;
  sig_ts_done : Z;
  sig_ts_total : Z }.

Section SpecModel.
Context `{Collaborators}.

(** What the parser keeps of one NEVRA: nothing when the release is not
    an integer, else name, stream and the version (zero counts as none). *)
Definition candidate (profile : option string) (i : Nevra.t) : option NSVAP.t :=
  match Nevra.release i with
  | None =>
      Some (NSVAP.mk (Nevra.name i) (Nevra.version i) None (Nevra.arch i)
              profile)
  | Some r =>
      z ← Py.int r;
      Some (NSVAP.mk (Nevra.name i) (Nevra.version i)
              (if (z =? 0)%Z then None else Some z) (Nevra.arch i) profile)
  end.

(** The configuration that [enable] and [disable] work on: the one the
    module has, or a new one named after the module. *)
Definition conf_or_new (m : RepoModule.t) : ModuleConf.t :=
  match RepoModule.conf m with
  | Some c => c
  | None =>
      ModuleConf.set_name (ModuleConf_new (RepoModule.name m))
        (RepoModule.name m)
  end.

(** The test that guards the confirmation branch. *)
Definition different_stream (c : ModuleConf.t) (stream : string)
    (assumeyes : bool) : bool :=
  bool_decide (ModuleConf.stream c <> None)
  && negb (bool_decide (str_opt (ModuleConf.stream c) = stream))
  && negb assumeyes.

(** [action == TRANS_POST or action == PKG_VERIFY] *)
Definition is_checkpoint (action : Z) : bool :=
  bool_decide (action = TRANS_POST) || bool_decide (action = PKG_VERIFY).

(** The world after [progress] was called for a signal, whatever the
    call returned or raised. *)
Definition signal (w : World) (s : Signal) : World :=
  (ModuleTransactionProgress_progress (sig_package s) (sig_action s)
     (sig_ti_done s) (sig_ti_total s) (sig_ts_done s) (sig_ts_total s) w).2.

Definition deliver (signals : list Signal) (w : World) : World :=
  foldl signal w signals.

End SpecModel.

(** ** A concrete registry

    Two modules as a repository would provide them, with stand-ins for the
    collaborators on the strings that occur below. *)
Module Demo.

Definition metadata (name stream : string) (version : Z)
    (profiles : list (string * list string)) : ModuleMetadata.t :=
  ModuleMetadata.mk name stream version EmptyString profiles
    ["bar-0:1.0-1.noarch"; "baz-0:2.0-1.noarch"; "qux-0:1.0-1.noarch"].

Definition foo_profiles : list (string * list string) :=
  [("web", ["bar"; "baz"]); ("db", ["qux"])].

Definition loaded : list ModuleMetadata.t :=
  [ metadata "foo" "1.0" 1 foo_profiles;
    metadata "foo" "1.0" 3 foo_profiles;
    metadata "foo" "2.0" 1 [("db", ["qux"])];
    metadata "httpd" "2.4" 1 foo_profiles;
    metadata "httpd" "2.4" 2 foo_profiles;
    metadata "httpd" "2.2" 1 foo_profiles ].

Definition foo_conf : ModuleConf.t :=
  ModuleConf.mk (Some "foo") (Some "1.0") (Some 3) true false ["web"].

(** What [read_all_modules] does for one configuration file. *)
Definition with_conf (d : RepoModuleDict.t) (name : string)
    (conf : ModuleConf.t) : RepoModuleDict.t :=
  let m :=
    match Py.get (RepoModuleDict.items d) name with
    | Some m => m
    | None => RepoModule.init
    end in
  RepoModuleDict.set_items d
    (Py.set (RepoModuleDict.items d) name
       (RepoModule.set_name (RepoModule.set_conf m (Some conf)) (Some name))).

Definition repo_modules : RepoModuleDict.t :=
  RepoModuleDict.load_modules RepoModuleDict.init "fedora" loaded.

(** [foo] enabled on stream 1.0, version 3 with profile web installed. *)
Definition registry : RepoModuleDict.t :=
  with_conf repo_modules "foo" foo_conf.

(** The same with [foo] locked on version 1. *)
Definition locked_registry : RepoModuleDict.t :=
  with_conf repo_modules "foo"
    (ModuleConf.mk (Some "foo") (Some "1.0") (Some 1) true true ["web"]).

Definition world (d : RepoModuleDict.t) : World := mkWorld d ∅ [].

Definition nevra (name : string) (version release arch : option string)
  : Nevra.t :=
  Nevra.mk name None version release arch.

(** Candidates in hawkey's order of forms, most specific first. *)
Definition subject (s : string) (forms : list Z) : list Nevra.t :=
  if bool_decide (s = "foo-1.0-3") then
    [ nevra "foo" (Some "1.0") (Some "3") None;
      nevra "foo-1.0" (Some "3") None None;
      nevra "foo-1.0-3" None None None ]
  else if bool_decide (s = "foo-1.0-rc1") then
    [ nevra "foo" (Some "1.0") (Some "rc1") None;
      nevra "foo-1.0" (Some "rc1") None None;
      nevra "foo-1.0-rc1" None None None ]
  else if bool_decide (s = "foo-2.0") then
    [ nevra "foo" (Some "2.0") None None;
      nevra "foo-2.0" None None None ]
  else [ nevra s None None None ].

Definition artifact (s : string) : list Nevra.t :=
  if bool_decide (s = "bar-1.0-1.noarch") then
    [ nevra "bar" (Some "1.0") (Some "1") (Some "noarch") ]
  else if bool_decide (s = "baz-2.0-1.noarch") then
    [ nevra "baz" (Some "2.0") (Some "1") (Some "noarch") ]
  else if bool_decide (s = "qux-1.0-1.noarch") then
    [ nevra "qux" (Some "1.0") (Some "1") (Some "noarch") ]
  else [].

Definition version_release (n : Nevra.t) : string :=
  str_opt (Nevra.version n) +:+ "-" +:+ str_opt (Nevra.release n).

(** One order in which a run may visit a set: descending. *)
Definition hash_order (l : list string) : list string :=
  @merge_sort string (fun a b => String.leb b a = true)
    (fun a b => decide (String.leb b a = true)) (remove_dups l).

(** A run with the default limit on digits and the digits of Unicode
    14.0. *)
Definition cpython : Interpreter := {|
  int_max_str_digits := 4300;
  unicode_decimal := Py.decimal_14;
  set_iter := hash_order;
  set_iter_NoDup := ltac:(intros l; unfold hash_order;
    rewrite merge_sort_Permutation; apply NoDup_remove_dups);
  set_iter_elem_of := ltac:(intros l x; unfold hash_order;
    rewrite merge_sort_Permutation; apply elem_of_remove_dups) |}.

Definition collaborators : Collaborators := {|
  nevra_possibilities := subject;
  get_nevra_possibilities := artifact;
  evr := version_release;
  ModuleConf_new := fun section =>
    ModuleConf.mk section None None false false [];
  userconfirm := fun _ => false;
  TRANS_POST := 103;
  PKG_VERIFY := 9;
  interpreter := cpython |}.

(** The world after [install(["foo/web"], autoenable=True)]. *)
Definition after_install : World :=
  (@RepoModuleDict_install collaborators ["foo/web"] true (world registry)).2.

Definition post_transaction : Signal := mkSignal "bar" 103 1 1 1 1.
Definition verify : Signal := mkSignal "bar" 9 1 1 1 1.
Definition other : Signal := mkSignal "bar" 1 1 1 1 1.

Definition foo_3 : RepoModuleVersion.t :=
  RepoModuleVersion.mk (metadata "foo" "1.0" 3 foo_profiles) "fedora".

End Demo.

(** ** Further methods and definitions *)

(** The order of [sorted] on strings. *)
Definition str_le (a b : string) : Prop := String.leb a b = true.

(** [NSVAP.__eq__]: the loop over [NSVAP_FIELDS], one round per field. *)
Definition NSVAP_eq (self other : NSVAP.t) : bool :=
  let result := true in
  let result := result && bool_decide (NSVAP.name self = NSVAP.name other) in
  let result :=
    result && bool_decide (NSVAP.stream self = NSVAP.stream other) in
  let result :=
    result && bool_decide (NSVAP.version self = NSVAP.version other) in
  let result := result && bool_decide (NSVAP.arch self = NSVAP.arch other) in
  let result :=
    result && bool_decide (NSVAP.profile self = NSVAP.profile other) in
  result.

(** One round of the loop of [read_all_modules].  The reader names every
    configuration after its file; a configuration without a name is outside
    the model ([None]). *)
Definition read_module (self : RepoModuleDict.t) (conf : ModuleConf.t)
  : option RepoModuleDict.t :=
  name ← ModuleConf.name conf;
  let repo_module :=
    match Py.get (RepoModuleDict.items self) name with
    | Some m => m
    | None => RepoModule.init
    end in
  Some (RepoModuleDict.set_items self
          (Py.set (RepoModuleDict.items self) name
             (RepoModule.set_name (RepoModule.set_conf repo_module (Some conf))
                (Some name)))).

(** [read_all_modules], given what the reader of the modules directory
    yields. *)
Definition RepoModuleDict_read_all_modules (self : RepoModuleDict.t)
    (module_reader : list ModuleConf.t) : option RepoModuleDict.t :=
  foldl (fun acc conf => d ← acc; read_module d conf) (Some self) module_reader.

(** The stream that [find_module_version] falls back to. *)
Definition default_stream (name : string) : string :=
  if bool_decide (name = "httpd") then "2.4" else "f26".

(** All versions of a list share one [full_stream]. *)
Definition same_full_stream (l : list RepoModuleVersion.t) : Prop :=
  forall x y, x ∈ l -> y ∈ l ->
    RepoModuleVersion.full_stream x = RepoModuleVersion.full_stream y.

(** The name, stream and version a metadata record is stored under. *)
Definition triple (mv : RepoModuleVersion.t) : string * string * Z :=
  (RepoModuleVersion.name mv, RepoModuleVersion.stream mv,
   RepoModuleVersion.version mv).

(** The last of the loaded records with a given name, stream and
    version, as a version of the repository. *)
Definition last_loaded (repo : string) (loaded : list ModuleMetadata.t)
    (t : string * string * Z) : option RepoModuleVersion.t :=
  last (filter (fun mv => triple mv = t)
          ((fun md => RepoModuleVersion.mk md repo) <$> loaded)).

(** The module behind [n] is ready for the commit, and the profiles that
    it records as installed, in memory or in its configuration, are those
    of [U]. *)
Definition profiles_known (U : string -> Prop) (w : World) (n : string)
  : Prop :=
  exists m c v,
    module_of w n = Some m /\ RepoModule.conf m = Some c /\
    RepoModule.installed_repo_module_version m = Some v /\
    forall x,
      x ∈ RepoModule.installed_profiles m \/ x ∈ ModuleConf.profiles c <->
      U x.

(** The configuration of the module behind [n] lists exactly the profiles
    of [U], in ascending order and once each. *)
Definition profiles_committed (U : string -> Prop) (w : World) (n : string)
  : Prop :=
  exists m c,
    module_of w n = Some m /\ RepoModule.conf m = Some c /\
    StronglySorted str_le (ModuleConf.profiles c) /\
    NoDup (ModuleConf.profiles c) /\
    forall x, x ∈ ModuleConf.profiles c <-> U x.

(** The last configuration that the reader yields for a name. *)
Definition conf_named (name : string) (module_reader : list ModuleConf.t)
  : option ModuleConf.t :=
  last (filter (fun c => ModuleConf.name c = Some name) module_reader).

(** The streams of a module of the registry; none for an unknown name. *)
Definition streams_of (d : RepoModuleDict.t) (name : string)
  : list (string * RepoModuleStream.t) :=
  match Py.get (RepoModuleDict.items d) name with
  | Some m => RepoModule.items m
  | None => []
  end.

(** [needle in s] for strings. *)
Fixpoint str_in (needle s : string) : bool :=
  String.prefix needle s ||
  match s with
  | EmptyString => false
  | String _ r => str_in needle r
  end.

(** [ModuleMetadataLoader.load].  [repo] is [repo._cachedir], or [None]
    for a loader without repository; [listdir] is [os.listdir] and
    [loads_all] reads the compressed file at a path and parses it with
    [modulemd.loads_all]. *)
Definition ModuleMetadataLoader_load (repo : option string)
    (listdir : string -> list string)
    (loads_all : string -> list ModuleMetadata.t)
  : Result (list ModuleMetadata.t) :=
  match repo with
  | None => Raise (Error (format LOAD_CACHE_ERR [ANone]))
  | Some cachedir =>
      let content_of_cachedir := listdir (cachedir +:+ "/repodata") in
      let modules_yaml_gz :=
        filter (fun repodata_file => str_in "modules" repodata_file = true)
          content_of_cachedir in
      match modules_yaml_gz with
      | [] => Raise (Error (format MISSING_YAML_ERR [AStr cachedir]))
      | first :: _ =>
          Return (loads_all (cachedir +:+ "/repodata/" +:+ first))
      end
  end.

(** ** Further concrete data *)
Module Demo2.

Definition foo_1 : RepoModuleVersion.t :=
  RepoModuleVersion.mk (Demo.metadata "foo" "1.0" 1 Demo.foo_profiles) "fedora".

Definition foo_5 : RepoModuleVersion.t :=
  RepoModuleVersion.mk (Demo.metadata "foo" "1.0" 5 Demo.foo_profiles) "fedora".

(** Stream 1.0 of [foo] with versions 1 and 3. *)
Definition stream_1_0 : RepoModuleStream.t :=
  RepoModuleStream.add (RepoModuleStream.add RepoModuleStream.init foo_1)
    Demo.foo_3.

(** The module [foo] of the registry of [Demo]. *)
Definition foo : RepoModule.t :=
  RepoModule.set_name
    (RepoModule.set_conf
       (RepoModule.add
          (RepoModule.add (RepoModule.add RepoModule.init foo_1) Demo.foo_3)
          (RepoModuleVersion.mk (Demo.metadata "foo" "2.0" 1 [("db", ["qux"])])
             "fedora"))
       (Some Demo.foo_conf))
    (Some "foo").

(** [foo] locked on a version 7 that no stream holds. *)
Definition locked_missing : RepoModuleDict.t :=
  Demo.with_conf Demo.repo_modules "foo"
    (ModuleConf.mk (Some "foo") (Some "1.0") (Some 7) true true ["web"]).

(** Two configuration files for [foo] and one for a module without
    metadata. *)
Definition module_reader : list ModuleConf.t :=
  [ ModuleConf.mk (Some "foo") (Some "2.0") None true false [];
    ModuleConf.mk (Some "bar") (Some "1") None true false [];
    Demo.foo_conf ].

(** A directory listing and a stand-in for the reader of metadata. *)
Definition repodata (path : string) : list string :=
  if bool_decide (path = "/var/cache/dnf/fedora/repodata") then
    ["repomd.xml"; "abc-modules.yaml.gz"; "def-modules.yaml.gz";
     "primary.xml.gz"]
  else [].

Definition read_modules (path : string) : list ModuleMetadata.t :=
  if bool_decide
       (path = "/var/cache/dnf/fedora/repodata/abc-modules.yaml.gz")
  then Demo.loaded else [].

(** Version 1 of stream 2.0 of [foo]. *)
Definition foo_2_0 : RepoModuleVersion.t :=
  RepoModuleVersion.mk (Demo.metadata "foo" "2.0" 1 [("db", ["qux"])]) "fedora".



End Demo2.


(** ** Properties *)

(** *** Ordered dictionaries *)

Section odict_facts.
Context {K V : Type} `{EqDecision K}.
Implicit Types (d : list (K * V)) (k : K) (v : V).

Lemma get_set_eq d k v : Py.get (Py.set d k v) k = Some v.
Proof.
  induction d as [|[k' v'] d IH]; simpl.
  - by rewrite decide_True.
  - destruct (decide (k = k')) as [->|Hne]; simpl.
    + by rewrite decide_True.
    + by rewrite decide_False.
Qed.

Lemma get_set_ne d k k' v : k <> k' -> Py.get (Py.set d k v) k' = Py.get d k'.
Proof.
  intros Hne. induction d as [|[k0 v0] d IH]; simpl.
  - by rewrite decide_False.
  - destruct (decide (k = k0)) as [->|Hk]; simpl.
    + by rewrite !(decide_False (P := k' = k0)).
    + by rewrite IH.
Qed.

Lemma set_set d k v v' : Py.set (Py.set d k v) k v' = Py.set d k v'.
Proof.
  induction d as [|[k0 v0] d IH]; simpl.
  - by rewrite decide_True.
  - destruct (decide (k = k0)) as [->|Hk]; simpl.
    + by rewrite decide_True.
    + by rewrite decide_False, IH.
Qed.

Lemma set_get_id d k v : Py.get d k = Some v -> Py.set d k v = d.
Proof.
  induction d as [|[k0 v0] d IH]; simpl; [done|].
  destruct (decide (k = k0)) as [->|Hk]; [by intros [= ->]|].
  intros Hg. by rewrite IH.
Qed.

Lemma get_elem_of d k v : Py.get d k = Some v -> (k, v) ∈ d.
Proof.
  induction d as [|[k0 v0] d IH]; simpl; [done|].
  destruct (decide (k = k0)) as [->|Hk].
  - intros [= ->]. left.
  - intros Hg. right. by apply IH.
Qed.

Lemma elem_of_set d k v k' v' :
  (k', v') ∈ Py.set d k v -> (k', v') = (k, v) \/ (k', v') ∈ d.
Proof.
  induction d as [|[k0 v0] d IH]; simpl.
  - intros Hin. left. by apply list_elem_of_singleton in Hin.
  - destruct (decide (k = k0)) as [->|Hk]; intros Hin.
    + apply elem_of_cons in Hin as [Heq|Hin]; [by left|].
      right. by right.
    + apply elem_of_cons in Hin as [Heq|Hin].
      * right. rewrite Heq. left.
      * destruct (IH Hin) as [?|?]; [by left|]. right. by right.
Qed.

Lemma set_nonempty d k v : Py.set d k v <> [].
Proof. destruct d as [|[k0 v0] d]; simpl; [done|]. by case_decide. Qed.

Lemma mem_true d k : Py.mem d k = true <-> is_Some (Py.get d k).
Proof.
  unfold Py.mem. destruct (Py.get d k); split; intros Hm; try done.
Qed.
End odict_facts.

(** *** Registries built by [add] are well formed *)

Lemma wf_init : wf_registry RepoModuleDict.init.
Proof. intros name m Hin. by apply elem_of_nil in Hin. Qed.

Lemma wf_stream_add name stream s mv :
  RepoModuleVersion.name mv = name ->
  RepoModuleVersion.stream mv = stream ->
  (RepoModuleStream.items s = [] \/ wf_stream name stream s) ->
  wf_stream name stream (RepoModuleStream.add s mv).
Proof.
  intros Hn Hs Hwf. split; simpl.
  - apply set_nonempty.
  - intros v mv' Hin. apply elem_of_set in Hin as [[= -> ->]|Hin]; [done|].
    destruct Hwf as [Hnil|[_ Hwf]]; [|by apply Hwf].
    rewrite Hnil in Hin. by apply elem_of_nil in Hin.
Qed.

Lemma wf_module_add name m mv :
  RepoModuleVersion.name mv = name ->
  wf_module name m -> wf_module name (RepoModule.add m mv).
Proof.
  intros Hn Hwf stream s Hin. unfold RepoModule.add in Hin. simpl in Hin.
  apply elem_of_set in Hin as [[= -> ->]|Hin]; [|by apply Hwf].
  apply wf_stream_add; [done..|].
  destruct (Py.get (RepoModule.items m) (RepoModuleVersion.stream mv)) eqn:Hg.
  - right. by apply Hwf, get_elem_of.
  - by left.
Qed.

Lemma wf_add d mv : wf_registry d -> wf_registry (RepoModuleDict.add d mv).
Proof.
  intros Hwf name m Hin. unfold RepoModuleDict.add in Hin. simpl in Hin.
  apply elem_of_set in Hin as [[= -> ->]|Hin]; [|by apply Hwf].
  apply wf_module_add; [done|].
  destruct (Py.get (RepoModuleDict.items d) (RepoModuleVersion.name mv)) eqn:Hg.
  - by apply Hwf, get_elem_of.
  - intros stream s Hs. by apply elem_of_nil in Hs.
Qed.

Lemma wf_load_modules d repo loaded :
  wf_registry d -> wf_registry (RepoModuleDict.load_modules d repo loaded).
Proof.
  unfold RepoModuleDict.load_modules. revert d.
  induction loaded as [|md l IH]; intros d Hwf; simpl; [done|].
  by apply IH, wf_add.
Qed.

Lemma wf_with_conf d name conf :
  wf_registry d -> wf_registry (Demo.with_conf d name conf).
Proof.
  intros Hwf n m Hin. unfold Demo.with_conf in Hin. simpl in Hin.
  apply elem_of_set in Hin as [[= -> ->]|Hin]; [|by apply Hwf].
  intros stream s Hs. simpl in Hs.
  destruct (Py.get (RepoModuleDict.items d) name) eqn:Hg.
  - by eapply Hwf; [apply get_elem_of|].
  - by apply elem_of_nil in Hs.
Qed.

Lemma wf_stored d name stream version mv :
  wf_registry d -> stored_version d name stream version = Some mv ->
  RepoModuleVersion.name mv = name /\
  RepoModuleVersion.stream mv = stream /\
  RepoModuleVersion.version mv = version.
Proof.
  intros Hwf Hs. unfold stored_version in Hs.
  destruct (Py.get (RepoModuleDict.items d) name) as [m|] eqn:Hm; [|done].
  simpl in Hs.
  destruct (Py.get (RepoModule.items m) stream) as [s|] eqn:Hst; [|done].
  simpl in Hs.
  apply get_elem_of in Hm, Hst, Hs.
  destruct (Hwf _ _ Hm _ _ Hst) as [_ Hv].
  destruct (Hv _ _ Hs) as (? & ? & ?). done.
Qed.

(** *** [latest] *)

Lemma max_from_total maxitem rest :
  (forall x, x ∈ rest ->
     RepoModuleVersion.full_stream maxitem = RepoModuleVersion.full_stream x) ->
  exists mv, RepoModuleVersion.max_from maxitem rest = Return mv /\
             mv ∈ maxitem :: rest.
Proof.
  revert maxitem. induction rest as [|item rest IH]; intros maxitem Hfs; simpl.
  - exists maxitem. split; [done|left].
  - unfold RepoModuleVersion.lt.
    rewrite bool_decide_true by (apply Hfs; left). simpl.
    destruct (IH (if (RepoModuleVersion.version maxitem <?
                      RepoModuleVersion.version item)%Z
                  then item else maxitem)) as (mv & Hmv & Hin).
    + intros x Hx. destruct (_ <? _)%Z.
      * rewrite <- (Hfs item) by left. apply Hfs. by right.
      * apply Hfs. by right.
    + exists mv. split; [done|].
      apply elem_of_cons in Hin as [->|Hin].
      * destruct (_ <? _)%Z; [right; left | left].
      * right. by right.
Qed.

Lemma latest_total name stream s :
  wf_stream name stream s ->
  exists v mv, RepoModuleStream.latest s = Return mv /\
               (v, mv) ∈ RepoModuleStream.items s.
Proof.
  intros [Hne Hwf]. unfold RepoModuleStream.latest, Py.values.
  destruct (RepoModuleStream.items s) as [|[v0 mv0] l] eqn:Hl; [done|].
  simpl.
  assert (Hfs : forall v x, (v, x) ∈ (v0, mv0) :: l ->
            RepoModuleVersion.full_stream x = name +:+ "-" +:+ stream).
  { intros v x Hx. destruct (Hwf _ _ Hx) as (_ & Hs & Hn).
    unfold RepoModuleVersion.full_stream. by rewrite Hs, Hn. }
  destruct (max_from_total mv0 l.*2) as (mv & Hmv & Hin).
  - intros x Hx. apply list_elem_of_fmap in Hx as ([v x'] & -> & Hx). simpl.
    rewrite (Hfs v0 mv0) by left. symmetry. apply (Hfs v). by right.
  - apply elem_of_cons in Hin as [->|Hin].
    + exists v0, mv0. split; [done|left].
    + apply list_elem_of_fmap in Hin as ([v x'] & -> & Hx).
      exists v, x'. split; [done|by right].
Qed.

(** *** [find_module_version] *)

Lemma truthy_str_Some s : s <> EmptyString -> truthy_str (Some s) = true.
Proof. intros Hs. simpl. by rewrite bool_decide_false. Qed.

Lemma truthy_int_Some v : v <> 0%Z -> truthy_int (Some v) = true.
Proof. intros Hv. simpl. by apply negb_true_iff, Z.eqb_neq. Qed.

Lemma find_unknown_module d name stream version arch :
  Py.get (RepoModuleDict.items d) name = None ->
  RepoModuleDict.find_module_version d name stream version arch = Return None.
Proof.
  intros Hg. unfold RepoModuleDict.find_module_version, Py.getitem.
  by rewrite Hg.
Qed.

(** With a stream given, neither the enabled stream nor the default is
    consulted. *)
Lemma find_explicit_stream d name m s version arch :
  Py.get (RepoModuleDict.items d) name = Some m ->
  s <> EmptyString ->
  RepoModuleDict.find_module_version d name (Some s) version arch =
  except_KeyError
    (repo_module_stream <-? Py.getitem (RepoModule.items m) s;
     repo_module_version <-?
       match RepoModuleDict.locked_version m with
       | Some v => Py.getitem (RepoModuleStream.items repo_module_stream) v
       | None =>
           if truthy_int version then
             match version with
             | Some v =>
                 Py.getitem (RepoModuleStream.items repo_module_stream) v
             | None => Raise KeyError
             end
           else RepoModuleStream.latest repo_module_stream
       end;
     Return (Some repo_module_version))
    (Return None).
Proof.
  intros Hg Hs. unfold RepoModuleDict.find_module_version.
  unfold Py.getitem at 1. rewrite Hg. simpl.
  repeat (rewrite (bool_decide_false (s = EmptyString)) by done; simpl). done.
Qed.

Lemma find_missing_stream d name m s version arch :
  Py.get (RepoModuleDict.items d) name = Some m ->
  s <> EmptyString ->
  Py.get (RepoModule.items m) s = None ->
  RepoModuleDict.find_module_version d name (Some s) version arch = Return None.
Proof.
  intros Hg Hs Hst. rewrite (find_explicit_stream d name m) by done.
  unfold Py.getitem. by rewrite Hst.
Qed.

Lemma find_locked d name m s st V version arch :
  Py.get (RepoModuleDict.items d) name = Some m ->
  s <> EmptyString ->
  Py.get (RepoModule.items m) s = Some st ->
  RepoModuleDict.locked_version m = Some V ->
  RepoModuleDict.find_module_version d name (Some s) version arch =
  Return (Py.get (RepoModuleStream.items st) V).
Proof.
  intros Hg Hs Hst Hl. rewrite (find_explicit_stream d name m) by done.
  unfold Py.getitem. rewrite Hst, Hl. simpl.
  by destruct (Py.get (RepoModuleStream.items st) V).
Qed.

Lemma find_unlocked d name m s st v arch :
  Py.get (RepoModuleDict.items d) name = Some m ->
  s <> EmptyString ->
  Py.get (RepoModule.items m) s = Some st ->
  RepoModuleDict.locked_version m = None ->
  v <> 0%Z ->
  RepoModuleDict.find_module_version d name (Some s) (Some v) arch =
  Return (Py.get (RepoModuleStream.items st) v).
Proof.
  intros Hg Hs Hst Hl Hv. rewrite (find_explicit_stream d name m) by done.
  unfold Py.getitem. rewrite Hst. cbn [rbind]. rewrite Hl.
  rewrite (truthy_int_Some v Hv).
  by destruct (Py.get (RepoModuleStream.items st) v).
Qed.

(** On a well-formed registry the lookup returns, and what it returns
    sits in a stream of the module that was asked for. *)
Lemma find_total d name stream version arch :
  wf_registry d ->
  exists r,
    RepoModuleDict.find_module_version d name stream version arch = Return r /\
    forall mv, r = Some mv -> version_of_module d name mv.
Proof.
  intros Hwf. unfold RepoModuleDict.find_module_version, Py.getitem.
  destruct (Py.get (RepoModuleDict.items d) name) as [m|] eqn:Hm;
    [|by exists None]. simpl rbind.
  set (s1 := if negb (truthy_str stream) then _ else stream).
  set (s2 := if negb (truthy_str s1) then _ else s1).
  destruct (truthy_str s2); simpl negb; cbv iota; [|by exists None].
  destruct s2 as [s|]; [|by exists None].
  destruct (Py.get (RepoModule.items m) s) as [st|] eqn:Hst;
    [|by exists None]. simpl rbind.
  apply get_elem_of in Hm as Hm', Hst as Hst'.
  destruct (Hwf _ _ Hm' _ _ Hst') as [Hne Hall].
  assert (Hin : forall v mv, (v, mv) ∈ RepoModuleStream.items st ->
            version_of_module d name mv).
  { intros v mv Hv. destruct (Hall _ _ Hv) as (_ & Hs & Hn).
    exists m, st. by rewrite Hs. }
  assert (Hget : forall v,
            exists r,
              except_KeyError
                (repo_module_version <-?
                   Py.getitem (RepoModuleStream.items st) v;
                 Return (Some repo_module_version)) (Return None) = Return r /\
              forall mv, r = Some mv -> version_of_module d name mv).
  { intros v. unfold Py.getitem.
    destruct (Py.get (RepoModuleStream.items st) v) as [mv|] eqn:HV.
    - exists (Some mv). split; [done|]. intros ? [= <-].
      eapply Hin. by apply get_elem_of.
    - by exists None. }
  destruct (RepoModuleDict.locked_version m) as [V|]; [apply Hget|].
  destruct (truthy_int version).
  - destruct version as [v|]; [apply Hget|by exists None].
  - destruct (latest_total name s st) as (v & mv & Hl & Hv); [done|].
    rewrite Hl. simpl. exists (Some mv). split; [done|].
    intros ? [= <-]. by eapply Hin.
Qed.

(** *** Running the primitives *)

Lemma module_of_upd self m w : module_of (upd_module self m w) self = Some m.
Proof. apply get_set_eq. Qed.

Lemma module_of_upd_ne self self' m w :
  self <> self' -> module_of (upd_module self m w) self' = module_of w self'.
Proof. apply get_set_ne. Qed.

Lemma upd_upd self m m' w :
  upd_module self m' (upd_module self m w) = upd_module self m' w.
Proof. unfold upd_module. simpl. by rewrite set_set. Qed.

Lemma upd_id self m w : module_of w self = Some m -> upd_module self m w = w.
Proof.
  intros Hg. unfold upd_module. rewrite (set_get_id _ _ _ Hg).
  by destruct w as [[] ? ?].
Qed.

Lemma module_of_written c w self : module_of (written c w) self = module_of w self.
Proof. done. Qed.

Lemma bind_Return {A B} (m : M A) (k : A -> M B) w a w' :
  m w = (Return a, w') -> bind m k w = k a w'.
Proof. intros Hm. unfold bind. by rewrite Hm. Qed.

Lemma bind_Raise {A B} (m : M A) (k : A -> M B) w e w' :
  m w = (Raise e, w') -> bind m k w = (Raise e, w').
Proof. intros Hm. unfold bind. by rewrite Hm. Qed.

Lemma bind_assoc {A B C} (m : M A) (k1 : A -> M B) (k2 : B -> M C) w :
  bind (bind m k1) k2 w = bind m (fun a => bind (k1 a) k2) w.
Proof. unfold bind. by destruct (m w) as [[a|e] w']. Qed.

Lemma run_get_module self w m :
  module_of w self = Some m -> get_module self w = (Return m, w).
Proof.
  intros Hg. unfold get_module, bind, get_registry.
  unfold module_of in Hg. by rewrite Hg.
Qed.

Lemma run_get_module_None self w :
  module_of w self = None -> get_module self w = (Raise AttributeError, w).
Proof.
  intros Hg. unfold get_module, bind, get_registry.
  unfold module_of in Hg. by rewrite Hg.
Qed.

Lemma run_put_module self m w :
  put_module self m w = (Return tt, upd_module self m w).
Proof. done. Qed.

Lemma run_get_conf self w m c :
  module_of w self = Some m -> RepoModule.conf m = Some c ->
  get_conf self w = (Return c, w).
Proof.
  intros Hg Hc. unfold get_conf.
  rewrite (bind_Return _ _ _ _ _ (run_get_module _ _ _ Hg)). by rewrite Hc.
Qed.

Lemma run_get_conf_None self w m :
  module_of w self = Some m -> RepoModule.conf m = None ->
  get_conf self w = (Raise AttributeError, w).
Proof.
  intros Hg Hc. unfold get_conf.
  rewrite (bind_Return _ _ _ _ _ (run_get_module _ _ _ Hg)). by rewrite Hc.
Qed.

Lemma run_put_conf self w m c :
  module_of w self = Some m ->
  put_conf self c w = (Return tt, upd_module self (RepoModule.set_conf m (Some c)) w).
Proof.
  intros Hg. unfold put_conf.
  by rewrite (bind_Return _ _ _ _ _ (run_get_module _ _ _ Hg)).
Qed.

Section Running.
Context `{Collaborators}.

Lemma run_write_conf self w m c :
  module_of w self = Some m -> RepoModule.conf m = Some c ->
  RepoModule_write_conf_to_file self w = (Return tt, written c w).
Proof.
  intros Hg Hc. unfold RepoModule_write_conf_to_file.
  by rewrite (bind_Return _ _ _ _ _ (run_get_conf _ _ _ _ Hg Hc)).
Qed.

Lemma run_ensure_conf self w m :
  module_of w self = Some m ->
  RepoModule_ensure_conf self w =
  (Return tt, upd_module self (RepoModule.set_conf m (Some (conf_or_new m))) w).
Proof.
  intros Hg. unfold RepoModule_ensure_conf, conf_or_new.
  rewrite (bind_Return _ _ _ _ _ (run_get_module _ _ _ Hg)).
  destruct (RepoModule.conf m) as [c|] eqn:Hc.
  - unfold ret. f_equal. symmetry. apply upd_id.
    rewrite Hg. f_equal. destruct m; simpl in *; by subst.
  - by apply run_put_conf.
Qed.

Lemma run_disable self w m :
  module_of w self = Some m ->
  let c := ModuleConf.set_enabled (conf_or_new m) false in
  RepoModule_disable self w =
  (Return tt, written c (upd_module self (RepoModule.set_conf m (Some c)) w)).
Proof.
  intros Hg c. unfold RepoModule_disable.
  rewrite (bind_Return _ _ _ _ _ (run_ensure_conf _ _ _ Hg)).
  erewrite bind_Return by (eapply run_get_conf; [apply module_of_upd|done]).
  erewrite bind_Return by (eapply run_put_conf; apply module_of_upd).
  rewrite upd_upd. simpl.
  eapply run_write_conf; [apply module_of_upd|done].
Qed.
End Running.

(** *** [RepoModule.enable] *)

Lemma run_emit e w : emit e w = (Return tt, logged [e] w).
Proof. done. Qed.

Section Enable.
Context `{Collaborators}.

Lemma run_userconfirm w :
  output_userconfirm w =
  (Return (userconfirm (prompts w)),
   logged [UserConfirm (userconfirm (prompts w))] w).
Proof. done. Qed.

(** The last three statements of [enable]. *)
Lemma run_enable_tail self stream w m c :
  module_of w self = Some m -> RepoModule.conf m = Some c ->
  (do conf <- get_conf self;
   run put_conf self (ModuleConf.set_stream conf (Some stream));
   do conf <- get_conf self;
   run put_conf self (ModuleConf.set_enabled conf true);
   RepoModule_write_conf_to_file self) w =
  (Return tt,
   written (enabled_conf c stream)
     (upd_module self
        (RepoModule.set_conf m (Some (enabled_conf c stream))) w)).
Proof.
  intros Hg Hc.
  erewrite bind_Return by (by eapply run_get_conf).
  erewrite bind_Return by (by eapply run_put_conf).
  erewrite bind_Return by (eapply run_get_conf; [apply module_of_upd|done]).
  erewrite bind_Return by (eapply run_put_conf; apply module_of_upd).
  rewrite upd_upd. simpl.
  eapply run_write_conf; [apply module_of_upd|done].
Qed.

Lemma run_enable_missing_module depth self stream assumeyes assumeno w :
  module_of w self = None ->
  RepoModule_enable_rec (S depth) self stream assumeyes assumeno w =
  (Raise AttributeError, w).
Proof.
  intros Hg. cbn [RepoModule_enable_rec].
  by rewrite (bind_Raise _ _ _ _ _ (run_get_module_None _ _ Hg)).
Qed.

Lemma run_enable_no_stream depth self stream assumeyes assumeno w m :
  module_of w self = Some m ->
  Py.mem (RepoModule.items m) stream = false ->
  RepoModule_enable_rec (S depth) self stream assumeyes assumeno w =
  (Raise (Error (format NO_STREAM_ERR
                   [AStr stream; arg_of_opt (RepoModule.name m)])), w).
Proof.
  intros Hg Hs. cbn [RepoModule_enable_rec].
  rewrite (bind_Return _ _ _ _ _ (run_get_module _ _ _ Hg)).
  by rewrite Hs.
Qed.

(** No other stream is recorded, or [assumeyes] is set: the stream is
    recorded and the file written, with no log entry and no prompt. *)
Lemma run_enable_settled depth self stream assumeyes assumeno w m :
  module_of w self = Some m ->
  Py.mem (RepoModule.items m) stream = true ->
  different_stream (conf_or_new m) stream assumeyes = false ->
  let c := enabled_conf (conf_or_new m) stream in
  RepoModule_enable_rec (S depth) self stream assumeyes assumeno w =
  (Return tt, written c (upd_module self (RepoModule.set_conf m (Some c)) w)).
Proof.
  intros Hg Hs Hd c. cbn [RepoModule_enable_rec].
  rewrite (bind_Return _ _ _ _ _ (run_get_module _ _ _ Hg)).
  rewrite Hs. cbn [negb].
  rewrite (bind_Return _ _ _ _ _ (run_ensure_conf _ _ _ Hg)).
  erewrite bind_Return by (eapply run_get_conf; [apply module_of_upd|done]).
  unfold different_stream in Hd. rewrite Hd.
  erewrite bind_Return by done.
  erewrite run_enable_tail by (first [apply module_of_upd|done]).
  by rewrite upd_upd.
Qed.

(** Whatever the flags and the answer, a call on a stream of the module
    returns with that stream recorded, enabled and written to the file. *)
Lemma run_enable_any depth self stream assumeyes assumeno w m :
  module_of w self = Some m ->
  Py.mem (RepoModule.items m) stream = true ->
  let c := enabled_conf (conf_or_new m) stream in
  exists w',
    RepoModule_enable_rec (S (S depth)) self stream assumeyes assumeno w =
    (Return tt, w') /\
    module_of w' self = Some (RepoModule.set_conf m (Some c)) /\
    files w' !! conf_file c = Some c /\
    (forall self', self <> self' -> module_of w' self' = module_of w self') /\
    RepoModuleDict.transaction_callback (registry w') =
    RepoModuleDict.transaction_callback (registry w).
Proof.
  intros Hg Hs c.
  destruct (different_stream (conf_or_new m) stream assumeyes) eqn:Hd.
  2:{ eexists. split; [by apply run_enable_settled|].
      split; [apply module_of_upd|].
      split; [apply lookup_insert_eq|].
      split; [intros; by apply module_of_upd_ne|done]. }
  remember (S depth) as depth' eqn:Hdepth.
  cbn [RepoModule_enable_rec].
  rewrite (bind_Return _ _ _ _ _ (run_get_module _ _ _ Hg)).
  rewrite Hs. cbn [negb].
  rewrite (bind_Return _ _ _ _ _ (run_ensure_conf _ _ _ Hg)).
  erewrite bind_Return by (eapply run_get_conf; [apply module_of_upd|done]).
  unfold different_stream in Hd. rewrite Hd.
  set (w0 := upd_module self _ w).
  set (m0 := RepoModule.set_conf m (Some (conf_or_new m))).
  assert (Hg0 : module_of w0 self = Some m0) by apply module_of_upd.
  assert (Hother0 : forall self', self <> self' ->
            module_of w0 self' = module_of w self')
    by (intros; by apply module_of_upd_ne).
  assert (Hdone : forall w1 : World,
            module_of w1 self = Some m0 \/
            module_of w1 self = Some (RepoModule.set_conf m (Some c)) ->
            (forall self', self <> self' ->
               module_of w1 self' = module_of w self') ->
            RepoModuleDict.transaction_callback (registry w1) =
            RepoModuleDict.transaction_callback (registry w) ->
            exists w',
              (do conf <- get_conf self;
               run put_conf self (ModuleConf.set_stream conf (Some stream));
               do conf <- get_conf self;
               run put_conf self (ModuleConf.set_enabled conf true);
               RepoModule_write_conf_to_file self) w1 = (Return tt, w') /\
              module_of w' self = Some (RepoModule.set_conf m (Some c)) /\
              files w' !! conf_file c = Some c /\
              (forall self', self <> self' ->
                 module_of w' self' = module_of w self') /\
              RepoModuleDict.transaction_callback (registry w') =
              RepoModuleDict.transaction_callback (registry w)).
  { intros w1 Hg1 Hother Hcb.
    assert (Hc : enabled_conf c stream = c) by done.
    destruct Hg1 as [Hg1|Hg1];
      (eexists; split; [by eapply run_enable_tail|]); simpl;
      rewrite ?Hc; fold c.
    - split; [apply get_set_eq|]. split; [apply lookup_insert_eq|].
      split; [|done]. intros self' Hne.
      rewrite <- (Hother self' Hne). by apply get_set_ne.
    - split; [apply get_set_eq|]. split; [apply lookup_insert_eq|].
      split; [|done]. intros self' Hne.
      rewrite <- (Hother self' Hne). by apply get_set_ne. }
  rewrite bind_assoc.
  erewrite bind_Return by apply run_emit.
  destruct assumeno.
  { erewrite bind_Return by apply run_emit.
    apply Hdone; [by left|done..]. }
  rewrite bind_assoc.
  erewrite bind_Return by apply run_userconfirm.
  destruct (userconfirm _).
  - subst depth'. erewrite bind_Return.
    2:{ eapply run_enable_settled; [exact Hg0|exact Hs|].
        unfold different_stream. apply andb_false_r. }
    apply Hdone; [right; apply module_of_upd| |done].
    intros self' Hne. rewrite module_of_written, module_of_upd_ne by done.
    exact (Hother0 self' Hne).
  - erewrite bind_Return by apply run_emit.
    apply Hdone; [by left|done..].
Qed.
End Enable.

(** *** [int(str(z))] *)

Lemma digits_string_of_uint u : digits_only (NilEmpty.string_of_uint u) = true.
Proof. induction u; simpl; auto. Qed.

Lemma digit_not_space c : is_digit c = true -> Py.int_space c = false.
Proof.
  unfold is_digit, Py.int_space. intros Hd.
  apply andb_true_iff in Hd as [H1 H2].
  apply Nat.leb_le in H1, H2.
  apply orb_false_iff. split.
  - apply andb_false_iff. right. apply Nat.leb_gt. lia.
  - apply Nat.eqb_neq. lia.
Qed.

Lemma digit_not_special c :
  is_digit c = true -> c <> "_"%char /\ c <> "-"%char /\ c <> "+"%char.
Proof.
  intros Hd. repeat split; intros ->; by vm_compute in Hd.
Qed.

Lemma rstrip_digits s :
  digits_only s = true -> Py.rstrip Py.int_space s = s.
Proof.
  induction s as [|c r IH]; simpl; [done|].
  intros Hd. apply andb_true_iff in Hd as [Hc Hr].
  rewrite (IH Hr). destruct r; [|done].
  by rewrite (digit_not_space c Hc).
Qed.

Lemma strip_digits s :
  digits_only s = true -> Py.strip Py.int_space s = s.
Proof.
  intros Hd. unfold Py.strip.
  assert (Py.lstrip Py.int_space s = s) as ->.
  { destruct s as [|c r]; [done|]. simpl in *.
    apply andb_true_iff in Hd as [Hc _]. by rewrite (digit_not_space c Hc). }
  by apply rstrip_digits.
Qed.

Lemma strip_minus_digits s :
  digits_only s = true ->
  Py.strip Py.int_space (String "-" s) = String "-" s.
Proof.
  intros Hd. unfold Py.strip.
  change (Py.lstrip Py.int_space (String "-" s)) with (String "-" s).
  change (Py.rstrip Py.int_space (String "-" s)) with
    (match Py.rstrip Py.int_space s with
     | EmptyString => String "-" EmptyString
     | r' => String "-" r'
     end).
  rewrite (rstrip_digits s Hd). by destruct s.
Qed.

Lemma digit_groups_digits s :
  digits_only s = true -> Py.digit_groups true s = Some s.
Proof.
  induction s as [|c r IH]; simpl; [done|].
  intros Hd. apply andb_true_iff in Hd as [Hc Hr].
  destruct (digit_not_special c Hc) as (Hu & _).
  rewrite bool_decide_false by done. by rewrite (IH Hr).
Qed.

(** The characters of a string of the ASCII range are its bytes. *)
Lemma chars_head b r : exists x cs, Py.chars (String b r) = String b x :: cs.
Proof.
  cbn [Py.chars]. destruct (Py.chars r) as [|[|b' c] cs]; [by eauto..|].
  destruct (Py.continuation b'); by eauto.
Qed.

Lemma chars_cons a r :
  ascii_only r = true ->
  Py.chars (String a r) = String a EmptyString :: Py.chars r.
Proof.
  destruct r as [|b r']; [done|]. intros [Hb _]%andb_true_iff.
  destruct (chars_head b r') as (x & cs & Heq).
  remember (String b r') as r eqn:Hr. cbn [Py.chars]. rewrite Heq.
  assert (Py.continuation b = false) as ->; [|done].
  unfold Py.continuation. apply N.ltb_lt in Hb.
  apply andb_false_iff. left. apply N.leb_gt. lia.
Qed.

Lemma digit_ascii c : is_digit c = true -> (N_of_ascii c <? 128)%N = true.
Proof. destruct c as [[] [] [] [] [] [] [] []]; by vm_compute. Qed.

Lemma digits_ascii s : digits_only s = true -> ascii_only s = true.
Proof.
  induction s as [|c r IH]; [done|]. cbn [digits_only ascii_only].
  intros [Hc Hr]%andb_true_iff. by rewrite (digit_ascii c Hc), (IH Hr).
Qed.

(** The digits of a number that [int] has read are not more than the
    digits it was read from. *)
Lemma nb_digits_norm (neg : bool) u :
  u <> Decimal.Nil ->
  (Decimal.nb_digits
     (match Decimal.norm (if neg then Decimal.Neg u else Decimal.Pos u) with
      | Decimal.Pos d | Decimal.Neg d => d
      end) <= Decimal.nb_digits u)%nat.
Proof.
  intros Hu. destruct neg; simpl.
  - pose proof (DecimalFacts.nb_digits_nzhead u) as Hn.
    destruct (Decimal.nzhead u); simpl in *; try lia.
    destruct u; simpl; [done|lia..].
  - by apply DecimalFacts.nb_digits_unorm.
Qed.

Lemma uint_of_string_nonnil s u :
  NilZero.uint_of_string s = Some u -> u <> Decimal.Nil.
Proof.
  destruct s as [|c r]; [done|]. simpl.
  destruct (NilEmpty.uint_of_string r); [|done].
  destruct c as [[] [] [] [] [] [] [] []]; simpl; try done;
    by intros [= <-].
Qed.

Section BuiltinFacts.
Context `{Interpreter}.

(** [int] reads a string of the ASCII range as it is. *)
Lemma to_ascii_ascii s : ascii_only s = true -> Py.to_ascii s = s.
Proof.
  unfold Py.to_ascii. induction s as [|a r IH]; [done|].
  intros Hs. pose proof Hs as [Ha Hr]%andb_true_iff.
  rewrite (chars_cons a r Hr), fmap_cons. cbn [string_of_list_ascii].
  rewrite (IH Hr). cbn [Py.ascii_of_char]. by rewrite Ha.
Qed.

Lemma int_of_digits_uint neg u :
  u <> Decimal.Nil ->
  Py.int_of_digits neg (NilEmpty.string_of_uint u) =
  if Py.over_limit (Decimal.nb_digits u) then None
  else Some (Z.of_int (if neg then Decimal.Neg u else Decimal.Pos u)).
Proof.
  intros Hu. unfold Py.int_of_digits.
  pose proof (digits_string_of_uint u) as Hd.
  assert (Hs : exists c r, NilEmpty.string_of_uint u = String c r)
    by (destruct u; simpl; eauto; done).
  destruct Hs as (c & r & Hs). rewrite Hs in *. simpl in Hd.
  apply andb_true_iff in Hd as [Hc Hr].
  destruct (digit_not_special c Hc) as (Hu' & _).
  cbn [Py.digit_groups]. rewrite bool_decide_false by done.
  rewrite (digit_groups_digits r Hr). simpl fmap. cbn [mbind option_bind].
  rewrite <- Hs.
  assert (NilZero.uint_of_string (NilEmpty.string_of_uint u) = Some u) as ->.
  { rewrite <- (NilZero.usu u Hu). by destruct u. }
  done.
Qed.

(** [int] reads what [str] has written. *)
Lemma int_str_int z s : Py.str_int z = Some s -> Py.int s = Some z.
Proof.
  unfold Py.str_int, Py.int.
  destruct (Py.over_limit _) eqn:Hlimit; [done|]. intros [= <-].
  destruct z as [|p|p].
  - change (Py.over_limit (Decimal.nb_digits (Decimal.D0 Decimal.Nil)) =
            false) in Hlimit.
    change (Py.int_of_digits false
              (NilEmpty.string_of_uint (Decimal.D0 Decimal.Nil)) = Some 0%Z).
    rewrite int_of_digits_uint by done. by rewrite Hlimit.
  - simpl Z.to_int in *. simpl NilZero.string_of_int.
    assert (Hp : Pos.to_uint p <> Decimal.Nil)
      by apply Unsigned.to_uint_nonnil.
    assert (NilZero.string_of_uint (Pos.to_uint p) =
            NilEmpty.string_of_uint (Pos.to_uint p)) as ->
      by (by destruct (Pos.to_uint p)).
    rewrite (to_ascii_ascii _ (digits_ascii _ (digits_string_of_uint _))).
    rewrite (strip_digits _ (digits_string_of_uint _)).
    pose proof (digits_string_of_uint (Pos.to_uint p)) as Hd.
    pose proof (int_of_digits_uint false _ Hp) as Hi.
    rewrite Hlimit in Hi.
    destruct (NilEmpty.string_of_uint (Pos.to_uint p)) as [|c r] eqn:Hs.
    + by destruct (Pos.to_uint p).
    + simpl in Hd. apply andb_true_iff in Hd as [Hc _].
      destruct (digit_not_special c Hc) as (_ & Hm & Hpl).
      assert (Hgo : match String c r with
                    | String "-" r0 => Py.int_of_digits true r0
                    | String "+" r0 => Py.int_of_digits false r0
                    | body => Py.int_of_digits false body
                    end = Py.int_of_digits false (String c r)).
      { destruct c as [[] [] [] [] [] [] [] []]; try done. }
      rewrite Hgo, Hi. f_equal.
      change (Z.of_int (Z.to_int (Z.pos p)) = Z.pos p). apply DecimalZ.of_to.
  - simpl Z.to_int in *. simpl NilZero.string_of_int.
    assert (Hp : Pos.to_uint p <> Decimal.Nil)
      by apply Unsigned.to_uint_nonnil.
    assert (NilZero.string_of_uint (Pos.to_uint p) =
            NilEmpty.string_of_uint (Pos.to_uint p)) as ->
      by (by destruct (Pos.to_uint p)).
    pose proof (digits_string_of_uint (Pos.to_uint p)) as Hd.
    rewrite to_ascii_ascii
      by (cbn [ascii_only]; by rewrite (digits_ascii _ Hd)).
    rewrite (strip_minus_digits _ Hd).
    rewrite (int_of_digits_uint true _ Hp), Hlimit. f_equal.
    change (Z.of_int (Z.to_int (Z.neg p)) = Z.neg p). apply DecimalZ.of_to.
Qed.

Lemma int_of_digits_str neg r z :
  Py.int_of_digits neg r = Some z -> is_Some (Py.str_int z).
Proof.
  unfold Py.int_of_digits, Py.str_int.
  destruct (Py.digit_groups false r) as [ds|]; [|done]. cbn.
  destruct (NilZero.uint_of_string ds) as [u|] eqn:Hu; [|done]. cbn.
  destruct (Py.over_limit (Decimal.nb_digits u)) eqn:Hlimit; [done|].
  intros [= <-]. rewrite DecimalZ.to_of.
  pose proof (nb_digits_norm neg u (uint_of_string_nonnil _ _ Hu)) as Hle.
  assert (Py.over_limit
            (Decimal.nb_digits
               (match Decimal.norm
                        (if neg then Decimal.Neg u else Decimal.Pos u) with
                | Decimal.Pos d | Decimal.Neg d => d
                end)) = false) as ->; [|done].
  unfold Py.over_limit in *.
  apply andb_false_iff in Hlimit as [Hz|Hl].
  - by rewrite Hz.
  - apply andb_false_iff. right. apply Nat.ltb_ge in Hl. apply Nat.ltb_ge.
    lia.
Qed.

(** [str] writes what [int] has read. *)
Lemma int_str s z : Py.int s = Some z -> is_Some (Py.str_int z).
Proof.
  unfold Py.int.
  destruct (Py.strip Py.int_space (Py.to_ascii s)) as [|c r];
    [apply int_of_digits_str|].
  destruct c as [[] [] [] [] [] [] [] []]; apply int_of_digits_str.
Qed.

Lemma str_int_nonempty z s : Py.str_int z = Some s -> s <> EmptyString.
Proof.
  intros Hs ->. apply int_str_int in Hs. by vm_compute in Hs.
Qed.
End BuiltinFacts.

(** *** The identifier parser *)

Lemma rsplit1_contains c s :
  Py.contains c s = true -> exists a b, Py.rsplit1 c s = [a; b].
Proof.
  induction s as [|x r IH]; simpl; [done|].
  intros Hc. destruct (Py.contains c r).
  - destruct IH as (a & b & ->); [done|]. eauto.
  - rewrite orb_false_r in Hc. rewrite Hc.
    destruct (Py.rsplit1 c r) as [|? [|? [|? ?]]]; eauto.
Qed.

Section Parser.
Context `{Collaborators}.

Lemma nsvap_of_possibility_candidate profile i :
  nsvap_of_possibility profile i = Return (candidate profile i).
Proof.
  unfold nsvap_of_possibility, normalize_release, candidate.
  destruct (Nevra.release i) as [r|] eqn:Hr; [|by rewrite Hr].
  destruct (Py.int r) as [z|] eqn:Hint; [|done]. cbn [mbind option_bind].
  destruct (int_str r z Hint) as [s Hs]. rewrite Hs. cbn.
  rewrite bool_decide_false by (by eapply str_int_nonempty). simpl.
  rewrite (int_str_int z s Hs). simpl. unfold NSVAP.init. simpl.
  destruct (z =? 0)%Z eqn:Hz; simpl; by rewrite ?Hz.
Qed.

Lemma candidates_fold profile l acc :
  foldl
    (fun (acc : Result (list NSVAP.t)) i =>
       result <-? acc;
       n <-? nsvap_of_possibility profile i;
       match n with
       | Some nsvap => Return (result ++ [nsvap])%list
       | None => Return result
       end)
    (Return acc) l =
  Return (acc ++ omap (candidate profile) l)%list.
Proof.
  revert acc. induction l as [|i l IH]; intros acc; simpl.
  - by rewrite app_nil_r.
  - rewrite nsvap_of_possibility_candidate. simpl.
    destruct (candidate profile i) as [n|]; rewrite IH; [|done].
    by rewrite <- app_assoc.
Qed.

(** The parser returns, and returns the kept candidates of hawkey's
    possibilities for the part in front of the last slash. *)
Lemma nsvap_possibilities_total pkg_spec forms :
  exists nsva profile,
    ModuleSubject_get_nsvap_possibilities pkg_spec forms =
    Return (omap (candidate profile) (nevra_possibilities nsva forms)) /\
    (Py.contains "/" pkg_spec = false -> nsva = pkg_spec /\ profile = None).
Proof.
  unfold ModuleSubject_get_nsvap_possibilities.
  destruct (Py.contains "/" pkg_spec) eqn:Hc.
  - destruct (rsplit1_contains _ _ Hc) as (a & b & ->). simpl rbind.
    eexists _, _. split; [apply (candidates_fold _ _ [])|done].
  - simpl rbind. exists pkg_spec, None.
    split; [apply (candidates_fold _ _ [])|done].
Qed.

Lemma candidate_profile profile i n :
  candidate profile i = Some n -> NSVAP.profile n = profile.
Proof.
  unfold candidate. destruct (Nevra.release i) as [r|].
  - destruct (Py.int r); [|done]. by intros [= <-].
  - by intros [= <-].
Qed.
End Parser.

(** *** Resolution of a specification *)


Section Resolution.
Context `{Collaborators}.

Lemma first_match_Some d l mv x :
  first_match d l = Return (Some mv, x) ->
  exists n, x = Some n /\ n ∈ l /\
    RepoModuleDict.find_module_version d (NSVAP.name n) (NSVAP.stream n)
      (NSVAP.version n) (NSVAP.arch n) = Return (Some mv).
Proof.
  induction l as [|n l IH]; simpl; [done|].
  destruct (RepoModuleDict.find_module_version d _ _ _ _) as [[mv'|]|e] eqn:Hf;
    simpl; [| |done].
  - intros [= -> <-]. exists n. split; [done|]. split; [left|done].
  - intros Hl. destruct (IH Hl) as (n' & -> & Hin & Hf').
    exists n'. split; [done|]. split; [by right|done].
Qed.

Lemma first_match_total d l :
  wf_registry d ->
  exists r, first_match d l = Return r /\
    forall mv, r.1 = Some mv ->
      exists n, r.2 = Some n /\ version_of_module d (NSVAP.name n) mv.
Proof.
  intros Hwf. induction l as [|n l IH]; simpl.
  - by exists (None, None).
  - destruct (find_total d (NSVAP.name n) (NSVAP.stream n)
                (NSVAP.version n) (NSVAP.arch n) Hwf) as (r & -> & Hr).
    simpl. destruct r as [mv|]; [|done].
    exists (Some mv, Some n). split; [done|]. simpl.
    intros ? [= <-]. exists n. split; [done|]. by apply Hr.
Qed.

Lemma subject_find_total pkg_spec d :
  wf_registry d ->
  exists r, ModuleSubject_find_module_version pkg_spec d = Return r /\
    forall mv, r.1 = Some mv ->
      exists n, r.2 = Some n /\ version_of_module d (NSVAP.name n) mv.
Proof.
  intros Hwf. unfold ModuleSubject_find_module_version.
  destruct (nsvap_possibilities_total pkg_spec []) as (? & ? & -> & _).
  simpl. by apply first_match_total.
Qed.

(** A specification without a slash resolves with no profile. *)
Lemma subject_find_no_slash pkg_spec d mv x :
  Py.contains "/" pkg_spec = false ->
  ModuleSubject_find_module_version pkg_spec d = Return (Some mv, x) ->
  exists n, x = Some n /\ NSVAP.profile n = None /\
    RepoModuleDict.find_module_version d (NSVAP.name n) (NSVAP.stream n)
      (NSVAP.version n) (NSVAP.arch n) = Return (Some mv).
Proof.
  intros Hc. unfold ModuleSubject_find_module_version.
  destruct (nsvap_possibilities_total pkg_spec []) as (a & p & -> & Hp).
  destruct (Hp Hc) as [-> ->]. simpl. intros Hf.
  destruct (first_match_Some _ _ _ _ Hf) as (n & -> & Hin & Hfind).
  exists n. split; [done|]. split; [|done].
  apply list_elem_of_omap in Hin as (i & _ & Hi).
  by apply candidate_profile in Hi.
Qed.

Lemma run_get_registry w : get_registry w = (Return (registry w), w).
Proof. done. Qed.

Lemma run_lift {A} (r : Result A) w : lift r w = (r, w).
Proof. done. Qed.

Lemma run_dict_getitem name w m :
  module_of w name = Some m ->
  RepoModuleDict_getitem name w = (Return name, w).
Proof.
  intros Hg. unfold RepoModuleDict_getitem.
  rewrite (bind_Return _ _ _ _ _ (run_get_registry w)).
  unfold module_of in Hg. unfold bind, lift, Py.getitem. by rewrite Hg.
Qed.

(** On a well-formed registry [enable] by specification returns. *)
Lemma run_dict_enable_total pkg_spec assumeyes assumeno w :
  wf_registry (registry w) ->
  exists w', RepoModuleDict_enable pkg_spec assumeyes assumeno w =
             (Return tt, w').
Proof.
  intros Hwf. unfold RepoModuleDict_enable.
  rewrite (bind_Return _ _ _ _ _ (run_get_registry w)).
  destruct (subject_find_total pkg_spec _ Hwf) as (r & Hr & Hmv).
  erewrite bind_Return by (rewrite run_lift, Hr; done).
  destruct r as [[mv|] x]; simpl in *; [|by eexists].
  destruct (Hmv mv eq_refl) as (n & _ & m & st & Hm & Hst & Hn).
  rewrite <- Hn in Hm.
  erewrite bind_Return by (by eapply run_dict_getitem).
  destruct (run_enable_any 998 (RepoModuleVersion.name mv)
              (RepoModuleVersion.stream mv) assumeyes assumeno w m Hm)
    as (w' & Hrun & _).
  { apply mem_true. by rewrite Hst. }
  by exists w'.
Qed.
End Resolution.

(** *** Install and upgrade *)





Section InstallUpgrade.
Context `{Collaborators}.

Lemma run_version_install_None mv w :
  RepoModuleVersion_install mv None w =
  (Raise (Error (format NO_PROFILE_ERR
                   [ANone; AList (RepoModuleVersion.profiles mv)])), w).
Proof. done. Qed.

Lemma run_install_head_no_profile pkg_spec rest autoenable w mv n :
  wf_registry (registry w) ->
  ModuleSubject_find_module_version pkg_spec (registry w) =
    Return (Some mv, Some n) ->
  NSVAP.profile n = None ->
  exists w',
    RepoModuleDict_install (pkg_spec :: rest) autoenable w =
    (Raise (Error (format NO_PROFILE_ERR
                     [ANone; AList (RepoModuleVersion.profiles mv)])), w').
Proof.
  intros Hwf Hfind Hp. unfold RepoModuleDict_install. cbn [for_each].
  rewrite bind_assoc.
  rewrite (bind_Return _ _ _ _ _ (run_get_registry w)).
  rewrite bind_assoc.
  erewrite bind_Return by (rewrite run_lift, Hfind; done).
  cbv iota beta. rewrite Hp. rewrite bind_assoc.
  destruct autoenable.
  - destruct (run_dict_enable_total (NSVAP.name n) true false w Hwf)
      as (w' & Hen).
    rewrite (bind_Return _ _ _ _ _ Hen).
    exists w'. by erewrite bind_Raise by apply run_version_install_None.
  - erewrite bind_Return by done.
    exists w. by erewrite bind_Raise by apply run_version_install_None.
Qed.




(** A profile that the version does not define stops the version-level
    [upgrade] with the no-such-profile error. *)
Lemma run_version_upgrade_unknown mv profile rest w m :
  module_of w (RepoModuleVersion.name mv) = Some m ->
  profile ∉ RepoModuleVersion.profiles mv ->
  RepoModuleVersion_upgrade mv (profile :: rest) w =
  (Raise (Error (format NO_PROFILE_ERR
                   [AStr profile; AList (RepoModuleVersion.profiles mv)])),
   upd_module (RepoModuleVersion.name mv)
     (RepoModule.set_installed_repo_module_version m (Some mv)) w).
Proof.
  intros Hg Hp. unfold RepoModuleVersion_upgrade.
  rewrite (bind_Return _ _ _ _ _ (run_get_module _ _ _ Hg)).
  erewrite bind_Return by apply run_put_module.
  cbn [for_each]. unfold known_profile at 1.
  rewrite (bool_decide_false _ Hp). done.
Qed.


End InstallUpgrade.

(** *** The transaction tracker *)

Lemma tracker_upd self m w : tracker (upd_module self m w) = tracker w.
Proof. done. Qed.

Lemma tracker_written c w : tracker (written c w) = tracker w.
Proof. done. Qed.

Lemma tracked_ok_commit_step w n l :
  tracked_ok w l -> tracked_ok (commit_step w n) l.
Proof.
  intros Hok n' Hin. destruct (Hok n' Hin) as (m' & c' & v' & Hm' & Hc' & Hv').
  unfold commit_step.
  destruct (module_of w n) as [m|] eqn:Hm; [|by eauto 6].
  destruct (RepoModule.conf m) as [c|] eqn:Hc; [|by eauto 6].
  destruct (RepoModule.installed_repo_module_version m) as [v|] eqn:Hv;
    [|by eauto 6].
  destruct (decide (n = n')) as [<-|Hne].
  - exists (committed_module m c v), (committed_conf m c v), v.
    split; [apply module_of_upd|done].
  - exists m', c', v'. split; [|done].
    rewrite module_of_written. by rewrite module_of_upd_ne.
Qed.

Lemma writes_commit_step w n :
  tracked_ok w [n] -> length (writes (commit_step w n)) = S (length (writes w)).
Proof.
  intros Hok. destruct (Hok n) as (m & c & v & Hm & Hc & Hv); [left|].
  unfold commit_step. rewrite Hm, Hc, Hv. unfold writes. simpl.
  rewrite filter_app, length_app. simpl. lia.
Qed.

Lemma writes_commit_all l w :
  tracked_ok w l ->
  length (writes (foldl commit_step w l)) = (length (writes w) + length l)%nat.
Proof.
  revert w. induction l as [|n l IH]; intros w Hok; simpl; [lia|].
  rewrite IH.
  - rewrite writes_commit_step; [lia|].
    intros n' Hin. apply Hok. apply list_elem_of_singleton in Hin as ->. left.
  - apply tracked_ok_commit_step. intros n' Hin. apply Hok. by right.
Qed.

Section Tracker.
Context `{Collaborators}.

Lemma run_commit_repo_module n w m c v :
  module_of w n = Some m -> RepoModule.conf m = Some c ->
  RepoModule.installed_repo_module_version m = Some v ->
  commit_repo_module n w = (Return tt, commit_step w n).
Proof.
  intros Hm Hc Hv. unfold commit_repo_module, commit_step.
  rewrite Hm, Hc, Hv.
  rewrite (bind_Return _ _ _ _ _ (run_get_module _ _ _ Hm)).
  erewrite bind_Return by (by eapply run_get_conf).
  erewrite bind_Return by (by eapply run_put_conf).
  rewrite Hv. erewrite bind_Return by done.
  erewrite bind_Return by (eapply run_get_conf; [apply module_of_upd|done]).
  erewrite bind_Return by (eapply run_put_conf; apply module_of_upd).
  rewrite upd_upd.
  erewrite bind_Return by (apply run_get_module, module_of_upd).
  erewrite bind_Return by (eapply run_get_conf; [apply module_of_upd|done]).
  erewrite bind_Return by apply run_put_module.
  rewrite upd_upd.
  erewrite bind_Return by (eapply run_get_conf; [apply module_of_upd|done]).
  erewrite bind_Return by (eapply run_put_conf; apply module_of_upd).
  rewrite upd_upd.
  erewrite run_write_conf by (first [apply module_of_upd|done]).
  unfold committed_module, committed_conf, RepoModule.set_conf,
    RepoModule.set_installed_profiles. simpl. by rewrite Hv.
Qed.

Lemma run_commit_all l w :
  tracked_ok w l ->
  for_each l commit_repo_module w = (Return tt, foldl commit_step w l).
Proof.
  revert w. induction l as [|n l IH]; intros w Hok; [done|].
  cbn [for_each foldl].
  destruct (Hok n) as (m & c & v & Hm & Hc & Hv); [left|].
  rewrite (bind_Return _ _ _ _ _ (run_commit_repo_module _ _ _ _ _ Hm Hc Hv)).
  apply IH. apply tracked_ok_commit_step. intros n' Hin. apply Hok. by right.
Qed.

(** The loop never touches the tracker, whether it returns or raises. *)
Lemma commit_repo_module_tracker n w :
  tracker (commit_repo_module n w).2 = tracker w.
Proof.
  unfold commit_repo_module.
  destruct (module_of w n) as [m|] eqn:Hm.
  2:{ by rewrite (bind_Raise _ _ _ _ _ (run_get_module_None _ _ Hm)). }
  rewrite (bind_Return _ _ _ _ _ (run_get_module _ _ _ Hm)).
  destruct (RepoModule.conf m) as [c|] eqn:Hc.
  2:{ by erewrite bind_Raise by (by eapply run_get_conf_None). }
  destruct (RepoModule.installed_repo_module_version m) as [v|] eqn:Hv.
  - fold (commit_repo_module n).
    pose proof (run_commit_repo_module n w m c v Hm Hc Hv) as Hrun.
    unfold commit_repo_module in Hrun.
    rewrite (bind_Return _ _ _ _ _ (run_get_module _ _ _ Hm)) in Hrun.
    rewrite Hv in Hrun. rewrite Hrun. simpl.
    unfold commit_step. by rewrite Hm, Hc, Hv.
  - erewrite bind_Return by (by eapply run_get_conf).
    erewrite bind_Return by (by eapply run_put_conf).
    by erewrite bind_Raise by done.
Qed.

Lemma commit_all_tracker l w :
  tracker (for_each l commit_repo_module w).2 = tracker w.
Proof.
  revert w. induction l as [|n l IH]; intros w; [done|].
  cbn [for_each]. unfold bind.
  pose proof (commit_repo_module_tracker n w) as Hn.
  destruct (commit_repo_module n w) as [[[]|e] w']; simpl in *.
  - by rewrite IH.
  - done.
Qed.

Lemma run_progress_saved s w :
  ModuleTransactionProgress.saved (tracker w) = true -> signal w s = w.
Proof.
  intros Hs. unfold signal, ModuleTransactionProgress_progress.
  rewrite (bind_Return _ _ _ _ _ (run_get_registry w)).
  unfold tracker in Hs. by rewrite Hs.
Qed.

Lemma run_progress_other s w :
  is_checkpoint (sig_action s) = false -> signal w s = w.
Proof.
  intros Hs. unfold signal, ModuleTransactionProgress_progress.
  rewrite (bind_Return _ _ _ _ _ (run_get_registry w)).
  unfold is_checkpoint in Hs. rewrite Hs. by rewrite andb_false_r.
Qed.

Lemma run_progress_commit package action ti_done ti_total ts_done ts_total w :
  ModuleTransactionProgress.saved (tracker w) = false ->
  is_checkpoint action = true ->
  ModuleTransactionProgress_progress package action ti_done ti_total ts_done
    ts_total w =
  for_each (ModuleTransactionProgress.repo_modules (tracker w))
    commit_repo_module (saved_world w).
Proof.
  intros Hs Ha. unfold ModuleTransactionProgress_progress.
  rewrite (bind_Return _ _ _ _ _ (run_get_registry w)).
  unfold tracker in Hs. rewrite Hs. unfold is_checkpoint in Ha. rewrite Ha.
  cbn [negb andb].
  by erewrite bind_Return by reflexivity.
Qed.

(** A tracked module without a configuration stops the commit at its
    turn: the flag is already set, and when it is the first tracked module
    nothing has been written. *)
Lemma run_progress_unconfigured package action ti_done ti_total ts_done
    ts_total w n rest m :
  ModuleTransactionProgress.saved (tracker w) = false ->
  is_checkpoint action = true ->
  ModuleTransactionProgress.repo_modules (tracker w) = n :: rest ->
  module_of w n = Some m ->
  RepoModule.conf m = None ->
  ModuleTransactionProgress_progress package action ti_done ti_total ts_done
    ts_total w = (Raise AttributeError, saved_world w).
Proof.
  intros Hs Ha Hn Hm Hc. rewrite run_progress_commit by done.
  rewrite Hn. cbn [for_each].
  assert (Hm' : module_of (saved_world w) n = Some m) by exact Hm.
  apply bind_Raise. unfold commit_repo_module.
  rewrite (bind_Return _ _ _ _ _ (run_get_module _ _ _ Hm')).
  by erewrite bind_Raise by (by eapply run_get_conf_None).
Qed.

Lemma deliver_saved signals w :
  ModuleTransactionProgress.saved (tracker w) = true -> deliver signals w = w.
Proof.
  intros Hs. unfold deliver. induction signals as [|s l IH]; [done|].
  simpl. by rewrite run_progress_saved.
Qed.

Lemma deliver_other signals w :
  Forall (fun s => is_checkpoint (sig_action s) = false) signals ->
  deliver signals w = w.
Proof.
  intros Hall. unfold deliver. induction Hall as [|s l Hs Hl IH]; [done|].
  simpl. by rewrite run_progress_other.
Qed.
End Tracker.

(** *** Enabling the recorded stream again *)

Lemma prompts_written c w : prompts (written c w) = prompts w.
Proof.
  unfold prompts, written. simpl. rewrite filter_app, length_app. simpl. lia.
Qed.

Lemma enabled_conf_same c stream :
  ModuleConf.stream c = Some stream -> ModuleConf.enabled c = true ->
  enabled_conf c stream = c.
Proof. destruct c. simpl. by intros -> ->. Qed.

Lemma set_conf_same m c :
  RepoModule.conf m = Some c -> RepoModule.set_conf m (Some c) = m.
Proof. destruct m. simpl. by intros ->. Qed.

Section EnableAgain.
Context `{Collaborators}.

Lemma conf_or_new_Some m c : RepoModule.conf m = Some c -> conf_or_new m = c.
Proof. unfold conf_or_new. by intros ->. Qed.

Lemma run_enable_same_stream depth self stream assumeyes assumeno w m c :
  module_of w self = Some m ->
  RepoModule.conf m = Some c ->
  ModuleConf.stream c = Some stream ->
  ModuleConf.enabled c = true ->
  Py.mem (RepoModule.items m) stream = true ->
  RepoModule_enable_rec (S depth) self stream assumeyes assumeno w =
  (Return tt, written c w).
Proof.
  intros Hm Hc Hs He Hmem.
  rewrite (run_enable_settled depth self stream assumeyes assumeno w m Hm Hmem).
  - rewrite (conf_or_new_Some m c Hc), (enabled_conf_same c stream Hs He).
    by rewrite (set_conf_same m c Hc), (upd_id self m w Hm).
  - unfold different_stream. rewrite (conf_or_new_Some m c Hc), Hs.
    cbn [str_opt]. rewrite (bool_decide_true (stream = stream)) by done.
    by destruct (bool_decide (Some stream <> None)).
Qed.

Lemma enable_unfold :
  RepoModule_enable = RepoModule_enable_rec (S (S 998)).
Proof. reflexivity. Qed.
End EnableAgain.

(** ** The claims *)

(** C2.  When the configuration of a module is locked on version [V],
    [find_module_version] with a stream of the module that holds a version
    [V] returns that version for every requested version [W]: the lock
    overrides the argument.  In a registry built by [add] the object
    returned has version [V]. *)
Theorem C2_lock_overrides_version d name m c V s st mv :
  Py.get (RepoModuleDict.items d) name = Some m ->
  RepoModule.conf m = Some c ->
  ModuleConf.locked c = true ->
  ModuleConf.version c = Some V ->
  s <> EmptyString ->
  Py.get (RepoModule.items m) s = Some st ->
  Py.get (RepoModuleStream.items st) V = Some mv ->
  forall W arch,
    RepoModuleDict.find_module_version d name (Some s) W arch =
      Return (Some mv) /\
    (wf_registry d -> RepoModuleVersion.version mv = V).
Proof.
  intros Hm Hc Hl Hv Hs Hst HV W arch. split.
  - rewrite (find_locked d name m s st V W arch Hm Hs Hst); [by rewrite HV|].
    unfold RepoModuleDict.locked_version. by rewrite Hc, Hl.
  - intros Hwf. apply (wf_stored d name s V mv Hwf).
    unfold stored_version. rewrite Hm. simpl. by rewrite Hst.
Qed.

(** C4, amended.  In a registry built by [add], for a query with a stream
    and a non-zero version on a module that is not locked on a version,
    [find_module_version] returns exactly what the registry stores under
    the triple: a version whose name, stream and version are those of the
    query, or [None] when nothing is stored.  No query makes it raise. *)
Theorem C4_find_version_unlocked d name s v arch :
  wf_registry d ->
  s <> EmptyString ->
  v <> 0%Z ->
  (forall m, Py.get (RepoModuleDict.items d) name = Some m ->
     RepoModuleDict.locked_version m = None) ->
  RepoModuleDict.find_module_version d name (Some s) (Some v) arch =
    Return (stored_version d name s v) /\
  (forall mv, stored_version d name s v = Some mv ->
     RepoModuleVersion.name mv = name /\
     RepoModuleVersion.stream mv = s /\
     RepoModuleVersion.version mv = v) /\
  (forall name' stream' version' arch',
     exists r,
       RepoModuleDict.find_module_version d name' stream' version' arch' =
       Return r).
Proof.
  intros Hwf Hs Hv Hlock. split; [|split].
  - unfold stored_version.
    destruct (Py.get (RepoModuleDict.items d) name) as [m|] eqn:Hm.
    + simpl. destruct (Py.get (RepoModule.items m) s) as [st|] eqn:Hst.
      * simpl. by apply (find_unlocked d name m); [..|apply Hlock|].
      * by apply (find_missing_stream d name m).
    + by apply find_unknown_module.
  - intros mv. by apply wf_stored.
  - intros name' stream' version' arch'.
    destruct (find_total d name' stream' version' arch' Hwf) as (r & Hr & _).
    by exists r.
Qed.

(** C5, amended.  For a module of the registry and a stream that the
    module does not have, [find_module_version] returns [None], which is
    also what it returns for a name that the registry does not know. *)
Theorem C5_missing_stream_is_not_found d name m s version arch :
  Py.get (RepoModuleDict.items d) name = Some m ->
  s <> EmptyString ->
  Py.get (RepoModule.items m) s = None ->
  RepoModuleDict.find_module_version d name (Some s) version arch =
    Return None /\
  forall name',
    Py.get (RepoModuleDict.items d) name' = None ->
    RepoModuleDict.find_module_version d name' (Some s) version arch =
    RepoModuleDict.find_module_version d name (Some s) version arch.
Proof.
  intros Hm Hs Hst. split.
  - by apply (find_missing_stream d name m).
  - intros name' Hn. rewrite (find_missing_stream d name m) by done.
    by apply find_unknown_module.
Qed.

Section Claims.
Context `{Collaborators}.

(** C7.  [enable] with the stream that is recorded and enabled changes
    neither the registry nor the number of confirmation prompts and
    writes the configuration as it was; and after any call of
    [enable] with a stream, a second call with that stream has the outcome
    of the first and leaves registry, configuration files and prompts as
    the first left them. *)
Theorem C7_enable_idempotent self stream
    (assumeyes assumeno assumeyes' assumeno' : bool) w :
  (forall m c,
     module_of w self = Some m ->
     RepoModule.conf m = Some c ->
     ModuleConf.stream c = Some stream ->
     ModuleConf.enabled c = true ->
     Py.mem (RepoModule.items m) stream = true ->
     exists w',
       RepoModule_enable self stream assumeyes assumeno w = (Return tt, w') /\
       registry w' = registry w /\
       prompts w' = prompts w /\
       files w' = <[conf_file c := c]> (files w)) /\
  (forall r1 w1,
     RepoModule_enable self stream assumeyes assumeno w = (r1, w1) ->
     exists w2,
       RepoModule_enable self stream assumeyes' assumeno' w1 = (r1, w2) /\
       registry w2 = registry w1 /\
       files w2 = files w1 /\
       prompts w2 = prompts w1).
Proof.
  rewrite enable_unfold. split.
  - intros m c Hm Hc Hs He Hmem. exists (written c w).
    split; [by eapply run_enable_same_stream|].
    split; [done|]. split; [apply prompts_written|done].
  - intros r1 w1 Hrun.
    destruct (module_of w self) as [m|] eqn:Hm.
    2:{ rewrite run_enable_missing_module in Hrun by done.
        injection Hrun as <- <-. exists w.
        by rewrite run_enable_missing_module. }
    destruct (Py.mem (RepoModule.items m) stream) eqn:Hmem.
    2:{ rewrite (run_enable_no_stream _ _ _ _ _ _ m) in Hrun by done.
        injection Hrun as <- <-. exists w.
        by rewrite (run_enable_no_stream _ _ _ _ _ _ m). }
    destruct (run_enable_any 998 self stream assumeyes assumeno w m Hm Hmem)
      as (w' & Hrun' & Hm' & Hf' & _).
    rewrite Hrun' in Hrun. injection Hrun as <- <-.
    set (c := enabled_conf (conf_or_new m) stream) in *.
    exists (written c w').
    split; [by eapply run_enable_same_stream|].
    split; [done|]. split; [|apply prompts_written].
    simpl. by apply insert_id.
Qed.

(** C8.  [disable] on a module that has a configuration changes the
    enabled flag only: stream, lock, version, profiles and name of the
    configuration and every other attribute of the module stay, other
    modules are untouched, and the configuration is written.  Enabling
    the recorded stream afterwards, without any prompt, finds version,
    profiles and lock as they were. *)
Theorem C8_disable_preserves_history self w m c :
  module_of w self = Some m ->
  RepoModule.conf m = Some c ->
  exists w1 c1,
    RepoModule_disable self w = (Return tt, w1) /\
    module_of w1 self = Some (RepoModule.set_conf m (Some c1)) /\
    files w1 !! conf_file c1 = Some c1 /\
    ModuleConf.enabled c1 = false /\
    ModuleConf.stream c1 = ModuleConf.stream c /\
    ModuleConf.locked c1 = ModuleConf.locked c /\
    ModuleConf.version c1 = ModuleConf.version c /\
    ModuleConf.profiles c1 = ModuleConf.profiles c /\
    ModuleConf.name c1 = ModuleConf.name c /\
    (forall self', self <> self' -> module_of w1 self' = module_of w self') /\
    (forall stream assumeyes assumeno,
       ModuleConf.stream c = Some stream ->
       Py.mem (RepoModule.items m) stream = true ->
       exists w2 c2,
         RepoModule_enable self stream assumeyes assumeno w1 =
           (Return tt, w2) /\
         module_of w2 self = Some (RepoModule.set_conf m (Some c2)) /\
         prompts w2 = prompts w1 /\
         ModuleConf.enabled c2 = true /\
         ModuleConf.stream c2 = Some stream /\
         ModuleConf.locked c2 = ModuleConf.locked c /\
         ModuleConf.version c2 = ModuleConf.version c /\
         ModuleConf.profiles c2 = ModuleConf.profiles c).
Proof.
  intros Hm Hc.
  pose proof (run_disable self w m Hm) as Hrun. simpl in Hrun.
  rewrite (conf_or_new_Some m c Hc) in Hrun.
  set (c1 := ModuleConf.set_enabled c false) in *.
  set (m1 := RepoModule.set_conf m (Some c1)) in *.
  exists (written c1 (upd_module self m1 w)), c1.
  split; [done|]. split; [apply module_of_upd|].
  split; [apply lookup_insert_eq|]. do 6 (split; [done|]).
  split; [intros self' Hne; by apply module_of_upd_ne|].
  intros stream assumeyes assumeno Hs Hmem.
  set (w1 := written c1 (upd_module self m1 w)).
  assert (Hm1 : module_of w1 self = Some m1) by apply module_of_upd.
  rewrite enable_unfold.
  rewrite (run_enable_settled _ self stream assumeyes assumeno w1 m1 Hm1 Hmem).
  2:{ unfold different_stream. simpl. rewrite Hs. simpl.
      rewrite (bool_decide_true (stream = stream)) by done.
      by destruct (bool_decide (Some stream <> None)). }
  eexists _, (enabled_conf c1 stream).
  split; [done|]. split; [apply module_of_upd|].
  split; [by rewrite prompts_written|]. done.
Qed.

(** C9.  The identifier parser returns for every string: the result is
    the list of hawkey's possibilities for the part in front of the last
    slash, without those whose release is present and is not an integer;
    a version in the result is the integer of such a release; every
    candidate carries the one profile that was split off, and there is none
    when the string has no slash. *)
Theorem C9_parser_filters_non_integer_versions pkg_spec forms :
  exists nsva profile result,
    ModuleSubject_get_nsvap_possibilities pkg_spec forms = Return result /\
    result = omap (candidate profile) (nevra_possibilities nsva forms) /\
    (forall i,
       candidate profile i = None <->
       exists r, Nevra.release i = Some r /\ Py.int r = None) /\
    (forall n, n ∈ result ->
       NSVAP.profile n = profile /\
       (NSVAP.version n = None \/
        exists i r z,
          i ∈ nevra_possibilities nsva forms /\
          Nevra.release i = Some r /\ Py.int r = Some z /\
          NSVAP.version n = Some z)) /\
    (Py.contains "/" pkg_spec = false -> nsva = pkg_spec /\ profile = None).
Proof.
  destruct (nsvap_possibilities_total pkg_spec forms)
    as (nsva & profile & Hrun & Hslash).
  exists nsva, profile, (omap (candidate profile) (nevra_possibilities nsva forms)).
  split; [done|]. split; [done|]. split; [|split; [|done]].
  - intros i. unfold candidate. destruct (Nevra.release i) as [r|].
    + destruct (Py.int r) as [z|] eqn:Hz; simpl; split; try done.
      * intros (r' & [= <-] & Hn). congruence.
      * intros _. by exists r.
    + split; [done|]. by intros (r' & ? & ?).
  - intros n Hin. apply list_elem_of_omap in Hin as (i & Hi & Hc).
    split; [by eapply candidate_profile|].
    unfold candidate in Hc. destruct (Nevra.release i) as [r|] eqn:Hr.
    + destruct (Py.int r) as [z|] eqn:Hz; [|done]. simpl in Hc.
      injection Hc as <-. simpl. destruct (z =? 0)%Z; [by left|].
      right. by exists i, r, z.
    + injection Hc as <-. by left.
Qed.

(** C10.  A specification without a slash resolves with no profile; the
    version-level [install] of no profile raises the no-such-profile
    error for every version, naming [None] and the profiles of the
    version; hence [install] of such a specification that resolves raises
    that error, with or without [autoenable]. *)
Theorem C10_install_without_profile_fails pkg_spec rest autoenable w mv x :
  wf_registry (registry w) ->
  Py.contains "/" pkg_spec = false ->
  ModuleSubject_find_module_version pkg_spec (registry w) =
    Return (Some mv, x) ->
  (exists n, x = Some n /\ NSVAP.profile n = None) /\
  (forall mv' w0,
     RepoModuleVersion_install mv' None w0 =
     (Raise (Error (format NO_PROFILE_ERR
                      [ANone; AList (RepoModuleVersion.profiles mv')])), w0)) /\
  exists w',
    RepoModuleDict_install (pkg_spec :: rest) autoenable w =
    (Raise (Error (format NO_PROFILE_ERR
                     [ANone; AList (RepoModuleVersion.profiles mv)])), w').
Proof.
  intros Hwf Hslash Hfind.
  destruct (subject_find_no_slash _ _ _ _ Hslash Hfind) as (n & -> & Hp & _).
  split; [by exists n|]. split; [apply run_version_install_None|].
  by eapply run_install_head_no_profile.
Qed.
End Claims.

Section ClaimsTransaction.
Context `{Collaborators}.

(** X30.  Over any sequence of signals the tracker commits at most once.
    Signals change nothing once the flag is set, and nothing while no
    post-transaction or verification signal has come; the first such
    signal sets the flag and runs the commit, and the world after the
    whole sequence is the world after that one call.  When every tracked
    module has a configuration and a resolved version, that call returns
    after the commit of every tracked module in turn, with one write of
    the configuration file for each entry. *)
Theorem X30_commit_once signals w :
  (ModuleTransactionProgress.saved (tracker w) = true ->
   deliver signals w = w) /\
  (Forall (fun s => is_checkpoint (sig_action s) = false) signals ->
   deliver signals w = w) /\
  (forall pre s post,
     ModuleTransactionProgress.saved (tracker w) = false ->
     signals = (pre ++ s :: post)%list ->
     Forall (fun s => is_checkpoint (sig_action s) = false) pre ->
     is_checkpoint (sig_action s) = true ->
     deliver signals w = signal w s /\
     ModuleTransactionProgress.saved (tracker (signal w s)) = true /\
     (tracked_ok w (ModuleTransactionProgress.repo_modules (tracker w)) ->
      ModuleTransactionProgress_progress (sig_package s) (sig_action s)
        (sig_ti_done s) (sig_ti_total s) (sig_ts_done s) (sig_ts_total s) w =
      (Return tt,
       foldl commit_step (saved_world w)
         (ModuleTransactionProgress.repo_modules (tracker w))) /\
      length (writes (deliver signals w)) =
      (length (writes w) +
       length (ModuleTransactionProgress.repo_modules (tracker w)))%nat)).
Proof.
  split; [apply deliver_saved|]. split; [apply deliver_other|].
  intros pre s post Hs -> Hpre Hck.
  assert (Hsaved : ModuleTransactionProgress.saved (tracker (signal w s)) = true).
  { unfold signal. rewrite run_progress_commit by done.
    by rewrite commit_all_tracker. }
  assert (Hdeliver : deliver (pre ++ s :: post)%list w = signal w s).
  { unfold deliver. rewrite foldl_app. cbn [foldl].
    fold (deliver pre w). rewrite (deliver_other pre w Hpre).
    fold (deliver post (signal w s)). by apply deliver_saved. }
  split; [done|]. split; [done|].
  intros Hok.
  assert (Hrun : ModuleTransactionProgress_progress (sig_package s)
                   (sig_action s) (sig_ti_done s) (sig_ti_total s)
                   (sig_ts_done s) (sig_ts_total s) w =
                 (Return tt,
                  foldl commit_step (saved_world w)
                    (ModuleTransactionProgress.repo_modules (tracker w)))).
  { rewrite run_progress_commit by done. by apply run_commit_all. }
  split; [done|].
  rewrite Hdeliver. unfold signal. rewrite Hrun. simpl.
  by rewrite writes_commit_all.
Qed.

End ClaimsTransaction.

(** ** Further properties *)

(** *** [latest] and [__lt__] *)

Lemma max_from_greatest maxitem rest mv :
  RepoModuleVersion.max_from maxitem rest = Return mv ->
  mv ∈ maxitem :: rest /\
  forall x, x ∈ maxitem :: rest ->
    (RepoModuleVersion.version x <= RepoModuleVersion.version mv)%Z.
Proof.
  revert maxitem. induction rest as [|item rest IH]; intros maxitem; simpl.
  - intros [= <-]. split; [left|].
    intros x Hx. apply list_elem_of_singleton in Hx as ->. lia.
  - unfold RepoModuleVersion.lt.
    destruct (bool_decide _); simpl; [|done].
    destruct (RepoModuleVersion.version maxitem <?
              RepoModuleVersion.version item)%Z eqn:Hlt; intros Hmax;
      destruct (IH _ Hmax) as [Hin Hge].
    + apply Z.ltb_lt in Hlt. split; [by right|].
      intros x Hx. apply elem_of_cons in Hx as [->|Hx]; [|by apply Hge].
      specialize (Hge item ltac:(left)). lia.
    + apply Z.ltb_ge in Hlt. split.
      * apply elem_of_cons in Hin as [->|Hin]; [left|by do 2 right].
      * intros x Hx. apply elem_of_cons in Hx as [->|Hx].
        { apply Hge. left. }
        apply elem_of_cons in Hx as [->|Hx].
        { specialize (Hge maxitem ltac:(left)). lia. }
        apply Hge. by right.
Qed.

Lemma max_from_outcome maxitem rest :
  match RepoModuleVersion.max_from maxitem rest with
  | Return _ =>
      forall x, x ∈ rest ->
        RepoModuleVersion.full_stream x = RepoModuleVersion.full_stream maxitem
  | Raise e =>
      e = AssertionError /\
      exists x, x ∈ rest /\
        RepoModuleVersion.full_stream x <> RepoModuleVersion.full_stream maxitem
  end.
Proof.
  revert maxitem. induction rest as [|item rest IH]; intros maxitem; simpl.
  - intros x Hx. by apply elem_of_nil in Hx.
  - unfold RepoModuleVersion.lt. case_bool_decide as Hfs; simpl.
    + set (m' := if (_ <? _)%Z then item else maxitem).
      assert (Hm' : RepoModuleVersion.full_stream m' =
                    RepoModuleVersion.full_stream maxitem)
        by (subst m'; by destruct (_ <? _)%Z).
      specialize (IH m').
      destruct (RepoModuleVersion.max_from m' rest) as [mv|e].
      * intros x Hx. apply elem_of_cons in Hx as [->|Hx]; [done|].
        rewrite <- Hm'. by apply IH.
      * destruct IH as (-> & x & Hx & Hne). split; [done|].
        exists x. split; [by right|]. by rewrite <- Hm'.
    + split; [done|]. exists item. split; [left|]. by intros Heq.
Qed.

Lemma latest_greatest name stream s :
  wf_stream name stream s ->
  exists v mv,
    RepoModuleStream.latest s = Return mv /\
    (v, mv) ∈ RepoModuleStream.items s /\
    RepoModuleVersion.version mv = v /\
    forall v' mv', (v', mv') ∈ RepoModuleStream.items s -> (v' <= v)%Z.
Proof.
  intros Hwf. destruct (latest_total name stream s Hwf) as (v & mv & Hl & Hin).
  destruct Hwf as [_ Hall]. destruct (Hall v mv Hin) as (Hv & _).
  exists v, mv. do 3 (split; [done|]).
  intros v' mv' Hin'. destruct (Hall v' mv' Hin') as (<- & _). rewrite <- Hv.
  unfold RepoModuleStream.latest, RepoModuleVersion.max, Py.values in Hl.
  destruct (RepoModuleStream.items s) as [|[v0 mv0] l] eqn:Hitems; [done|].
  simpl in Hl. apply max_from_greatest in Hl as [_ Hge].
  assert (Hmem : mv' ∈ ((v0, mv0) :: l).*2).
  { apply list_elem_of_fmap. by exists (RepoModuleVersion.version mv', mv'). }
  exact (Hge mv' Hmem).
Qed.

(** X1.  In a stream as [add] builds it, [latest] returns a version of the
    stream that no version of the stream exceeds. *)
Theorem X1_latest_is_newest name stream s :
  wf_stream name stream s ->
  exists v mv,
    RepoModuleStream.latest s = Return mv /\
    (v, mv) ∈ RepoModuleStream.items s /\
    RepoModuleVersion.version mv = v /\
    forall v' mv', (v', mv') ∈ RepoModuleStream.items s -> (v' <= v)%Z.
Proof. apply latest_greatest. Qed.

Lemma max_errors (l : list RepoModuleVersion.t) :
  (RepoModuleVersion.max l = Raise ValueError <-> l = []) /\
  (RepoModuleVersion.max l = Raise AssertionError <-> ~ same_full_stream l) /\
  (forall e, RepoModuleVersion.max l = Raise e ->
     e = ValueError \/ e = AssertionError).
Proof.
  destruct l as [|mv0 l]; simpl.
  { split; [done|]. split; [|intros e [= <-]; by left].
    split; [done|]. intros Hn. destruct Hn. intros x y Hx.
    by apply elem_of_nil in Hx. }
  pose proof (max_from_outcome mv0 l) as Hout.
  destruct (RepoModuleVersion.max_from mv0 l) as [mv|e].
  - split; [by split|]. split; [|done]. split; [done|].
    intros Hn. destruct Hn. intros x y Hx Hy.
    assert (Hfs : forall z, z ∈ mv0 :: l ->
              RepoModuleVersion.full_stream z =
              RepoModuleVersion.full_stream mv0).
    { intros z Hz. apply elem_of_cons in Hz as [->|Hz]; [done|by apply Hout]. }
    by rewrite (Hfs x Hx), (Hfs y Hy).
  - destruct Hout as (-> & x & Hx & Hne).
    split; [by split|]. split; [|intros e [= <-]; by right].
    split; [|done]. intros _ Hsame. apply Hne, Hsame; [by right|left].
Qed.

(** X2.  [latest] raises [ValueError] exactly on a stream without
    versions and [AssertionError] exactly when two versions of the stream
    differ in [full_stream]; it raises nothing else. *)
Theorem X2_latest_errors s :
  (RepoModuleStream.latest s = Raise ValueError <->
   RepoModuleStream.items s = []) /\
  (RepoModuleStream.latest s = Raise AssertionError <->
   ~ same_full_stream (Py.values (RepoModuleStream.items s))) /\
  (forall e, RepoModuleStream.latest s = Raise e ->
     e = ValueError \/ e = AssertionError).
Proof.
  unfold RepoModuleStream.latest.
  destruct (max_errors (Py.values (RepoModuleStream.items s)))
    as (Hv & Ha & He).
  split; [|done]. rewrite Hv. unfold Py.values.
  by destruct (RepoModuleStream.items s).
Qed.

(** *** [add] *)

Lemma stored_add d mv :
  stored_version (RepoModuleDict.add d mv) (RepoModuleVersion.name mv)
    (RepoModuleVersion.stream mv) (RepoModuleVersion.version mv) = Some mv.
Proof.
  unfold stored_version, RepoModuleDict.add. simpl.
  rewrite get_set_eq. simpl. rewrite get_set_eq. simpl. apply get_set_eq.
Qed.

Lemma stored_add_other d mv n s v :
  (n, s, v) <> triple mv ->
  stored_version (RepoModuleDict.add d mv) n s v = stored_version d n s v.
Proof.
  intros Hne. unfold stored_version, RepoModuleDict.add, triple in *. simpl.
  destruct (decide (RepoModuleVersion.name mv = n)) as [<-|Hn];
    [|by rewrite get_set_ne].
  rewrite get_set_eq. simpl.
  set (m0 := match Py.get (RepoModuleDict.items d) _ with
             | Some m => m | None => RepoModule.init end).
  assert (Hm0 : (m ← Py.get (RepoModuleDict.items d) (RepoModuleVersion.name mv);
                 s0 ← Py.get (RepoModule.items m) s;
                 Py.get (RepoModuleStream.items s0) v) =
                (s0 ← Py.get (RepoModule.items m0) s;
                 Py.get (RepoModuleStream.items s0) v)).
  { subst m0. by destruct (Py.get (RepoModuleDict.items d) _). }
  rewrite Hm0. clear Hm0.
  destruct (decide (RepoModuleVersion.stream mv = s)) as [<-|Hs];
    [|by rewrite get_set_ne].
  rewrite get_set_eq. simpl.
  assert (Hv : RepoModuleVersion.version mv <> v) by (intros <-; done).
  rewrite get_set_ne by done.
  by destruct (Py.get (RepoModule.items m0) _).
Qed.

Lemma conf_add d mv n :
  (Py.get (RepoModuleDict.items (RepoModuleDict.add d mv)) n
     ≫= RepoModule.conf) =
  (Py.get (RepoModuleDict.items d) n ≫= RepoModule.conf).
Proof.
  unfold RepoModuleDict.add. simpl.
  destruct (decide (RepoModuleVersion.name mv = n)) as [<-|Hn];
    [|by rewrite get_set_ne].
  rewrite get_set_eq. simpl.
  by destruct (Py.get (RepoModuleDict.items d) _).
Qed.

(** X3.  A version that was added is found again under its own name,
    stream and version, when the stream is not empty, the version is not
    zero and the module is not locked on a version. *)
Theorem X3_add_then_find d mv arch :
  RepoModuleVersion.stream mv <> EmptyString ->
  RepoModuleVersion.version mv <> 0%Z ->
  (forall m, Py.get (RepoModuleDict.items d) (RepoModuleVersion.name mv)
             = Some m -> RepoModuleDict.locked_version m = None) ->
  RepoModuleDict.find_module_version (RepoModuleDict.add d mv)
    (RepoModuleVersion.name mv) (Some (RepoModuleVersion.stream mv))
    (Some (RepoModuleVersion.version mv)) arch = Return (Some mv).
Proof.
  intros Hs Hv Hlock.
  set (m0 := match Py.get (RepoModuleDict.items d)
                     (RepoModuleVersion.name mv) with
             | Some m => m | None => RepoModule.init end).
  set (st0 := match Py.get (RepoModule.items m0)
                      (RepoModuleVersion.stream mv) with
              | Some s => s | None => RepoModuleStream.init end).
  rewrite (find_unlocked _ _ (RepoModule.add m0 mv) _
             (RepoModuleStream.add st0 mv)); [| |done| | |done].
  - simpl. by rewrite get_set_eq.
  - unfold RepoModuleDict.add. simpl. by rewrite get_set_eq.
  - unfold RepoModule.add. simpl. by rewrite get_set_eq.
  - unfold RepoModuleDict.locked_version. simpl.
    fold (RepoModuleDict.locked_version m0). subst m0.
    destruct (Py.get (RepoModuleDict.items d) _) eqn:Hg; [by apply Hlock|done].
Qed.

(** X4.  [add] changes what is stored under the triple of the added
    version only, and it changes no configuration and not the tracker. *)
Theorem X4_add_frame d mv :
  (forall n s v, (n, s, v) <> triple mv ->
     stored_version (RepoModuleDict.add d mv) n s v = stored_version d n s v) /\
  (forall n,
     (Py.get (RepoModuleDict.items (RepoModuleDict.add d mv)) n
        ≫= RepoModule.conf) =
     (Py.get (RepoModuleDict.items d) n ≫= RepoModule.conf)) /\
  RepoModuleDict.transaction_callback (RepoModuleDict.add d mv) =
  RepoModuleDict.transaction_callback d.
Proof.
  split; [intros; by apply stored_add_other|]. split; [apply conf_add|done].
Qed.

Lemma load_modules_snoc d repo loaded md :
  RepoModuleDict.load_modules d repo (loaded ++ [md]) =
  RepoModuleDict.add (RepoModuleDict.load_modules d repo loaded)
    (RepoModuleVersion.mk md repo).
Proof. unfold RepoModuleDict.load_modules. by rewrite foldl_app. Qed.

(** X5.  [load_modules] keeps a registry well formed; afterwards the
    registry stores under every name, stream and version the last of the
    loaded records with that name, stream and version, and what it stored
    before where no record was loaded. *)
Theorem X5_load_modules_stores repo loaded d :
  wf_registry d ->
  wf_registry (RepoModuleDict.load_modules d repo loaded) /\
  forall n s v,
    stored_version (RepoModuleDict.load_modules d repo loaded) n s v =
    match last_loaded repo loaded (n, s, v) with
    | Some mv => Some mv
    | None => stored_version d n s v
    end.
Proof.
  intros Hwf. split; [by apply wf_load_modules|]. intros n s v.
  unfold last_loaded.
  induction loaded as [|x l IH] using rev_ind; [done|].
  rewrite load_modules_snoc, fmap_app, filter_app. cbn [fmap list_fmap].
  destruct (decide (triple (RepoModuleVersion.mk x repo) = (n, s, v)))
    as [Heq|Hne].
  - rewrite filter_cons_True by exact Heq. rewrite filter_nil, last_snoc.
    injection Heq as <- <- <-. apply stored_add.
  - rewrite filter_cons_False by exact Hne. rewrite filter_nil, app_nil_r.
    rewrite stored_add_other by (intros Heq; by apply Hne). apply IH.
Qed.

(** *** The stream that [find_module_version] looks in *)

Lemma default_stream_nonempty name : default_stream name <> EmptyString.
Proof. unfold default_stream. by case_bool_decide. Qed.

(** X6.  Without a stream argument ([None] or the empty string), the
    lookup in a module that is enabled on a stream is the lookup in that
    stream. *)
Theorem X6_find_uses_enabled_stream d name m c s stream version arch :
  Py.get (RepoModuleDict.items d) name = Some m ->
  RepoModule.conf m = Some c ->
  ModuleConf.enabled c = true ->
  ModuleConf.stream c = Some s ->
  s <> EmptyString ->
  truthy_str stream = false ->
  RepoModuleDict.find_module_version d name stream version arch =
  RepoModuleDict.find_module_version d name (Some s) version arch.
Proof.
  intros Hm Hc He Hs Hne Hstream.
  rewrite (find_explicit_stream d name m s) by done.
  unfold RepoModuleDict.find_module_version.
  unfold Py.getitem at 1. rewrite Hm. cbn [rbind].
  rewrite Hstream, Hc, He, Hs. cbn [negb].
  rewrite (truthy_str_Some s Hne). cbn [negb].
  by rewrite (truthy_str_Some s Hne).
Qed.

(** X7.  Without a stream argument, when the module has no
    configuration, is disabled, or records no stream, the lookup is the
    lookup in the fixed default stream: 2.4 for httpd, f26 for every other
    name.  The stream recorded for a disabled module is not used. *)
Theorem X7_find_uses_default_stream d name m stream version arch :
  Py.get (RepoModuleDict.items d) name = Some m ->
  truthy_str stream = false ->
  match RepoModule.conf m with
  | Some c =>
      ModuleConf.enabled c = false \/ truthy_str (ModuleConf.stream c) = false
  | None => True
  end ->
  RepoModuleDict.find_module_version d name stream version arch =
  RepoModuleDict.find_module_version d name (Some (default_stream name))
    version arch.
Proof.
  intros Hm Hstream Hconf.
  rewrite (find_explicit_stream d name m (default_stream name))
    by (first [done | apply default_stream_nonempty]).
  unfold RepoModuleDict.find_module_version.
  unfold Py.getitem at 1. rewrite Hm. cbn [rbind].
  rewrite Hstream. cbn [negb].
  assert (Hrec : truthy_str
                   match RepoModule.conf m with
                   | Some conf =>
                       if ModuleConf.enabled conf then ModuleConf.stream conf
                       else stream
                   | None => stream
                   end = false).
  { destruct (RepoModule.conf m) as [c|]; [|done].
    destruct Hconf as [He|Hs]; [by rewrite He|].
    by destruct (ModuleConf.enabled c). }
  rewrite Hrec. cbn [negb]. fold (default_stream name).
  assert (Hdef : (if bool_decide (name = "httpd") then Some "2.4"
                  else Some "f26") = Some (default_stream name))
    by (unfold default_stream; by case_bool_decide).
  rewrite Hdef.
  by rewrite (truthy_str_Some _ (default_stream_nonempty name)).
Qed.

(** X8.  With no version argument, or version zero, and no lock, the
    lookup in a stream of a registry built by [add] returns a version of
    that stream with the greatest version number. *)
Theorem X8_find_returns_latest d name m s st version arch :
  wf_registry d ->
  Py.get (RepoModuleDict.items d) name = Some m ->
  s <> EmptyString ->
  Py.get (RepoModule.items m) s = Some st ->
  RepoModuleDict.locked_version m = None ->
  version = None \/ version = Some 0%Z ->
  exists mv,
    RepoModuleDict.find_module_version d name (Some s) version arch =
      Return (Some mv) /\
    (RepoModuleVersion.version mv, mv) ∈ RepoModuleStream.items st /\
    forall v' mv', (v', mv') ∈ RepoModuleStream.items st ->
      (v' <= RepoModuleVersion.version mv)%Z.
Proof.
  intros Hwf Hm Hs Hst Hlock Hversion.
  rewrite (find_explicit_stream d name m s) by done.
  unfold Py.getitem. rewrite Hst. cbn [rbind]. rewrite Hlock.
  assert (truthy_int version = false) as -> by (by destruct Hversion as [->| ->]).
  destruct (latest_greatest name s st) as (v & mv & Hl & Hin & Hv & Hmax).
  { eapply Hwf; by apply get_elem_of. }
  rewrite Hl. simpl. exists mv. split; [done|]. rewrite Hv. done.
Qed.

(** X9.  When the module is locked on a version that the stream does not
    hold, the lookup returns [None] for every version argument, also for
    one that the stream holds. *)
Theorem X9_find_locked_version_missing d name m s st V version arch :
  Py.get (RepoModuleDict.items d) name = Some m ->
  s <> EmptyString ->
  Py.get (RepoModule.items m) s = Some st ->
  RepoModuleDict.locked_version m = Some V ->
  Py.get (RepoModuleStream.items st) V = None ->
  RepoModuleDict.find_module_version d name (Some s) version arch = Return None.
Proof.
  intros Hm Hs Hst Hlock HV.
  by rewrite (find_locked d name m s st V version arch Hm Hs Hst Hlock), HV.
Qed.

(** *** The first candidate that resolves *)

Section FirstMatch.
Context `{Collaborators}.

(** X10.  The loop over the candidates stops at the first one that
    [find_module_version] resolves: the earlier candidates resolved to
    [None], and when no version is returned every candidate did. *)
Theorem X10_first_match_is_first d l r :
  first_match d l = Return r ->
  match r with
  | (Some mv, found) =>
      exists n l1 l2,
        found = Some n /\ l = (l1 ++ n :: l2)%list /\
        RepoModuleDict.find_module_version d (NSVAP.name n) (NSVAP.stream n)
          (NSVAP.version n) (NSVAP.arch n) = Return (Some mv) /\
        forall n', n' ∈ l1 ->
          RepoModuleDict.find_module_version d (NSVAP.name n')
            (NSVAP.stream n') (NSVAP.version n') (NSVAP.arch n') = Return None
  | (None, found) =>
      found = None /\
      forall n', n' ∈ l ->
        RepoModuleDict.find_module_version d (NSVAP.name n') (NSVAP.stream n')
          (NSVAP.version n') (NSVAP.arch n') = Return None
  end.
Proof.
  revert r. induction l as [|n l IH]; intros r; simpl.
  - intros [= <-]. split; [done|]. intros n' Hn'. by apply elem_of_nil in Hn'.
  - destruct (RepoModuleDict.find_module_version d _ _ _ _)
      as [[mv|]|e] eqn:Hf; simpl; [| |done].
    + intros [= <-]. exists n, [], l. split; [done|]. split; [done|].
      split; [done|]. intros n' Hn'. by apply elem_of_nil in Hn'.
    + intros Hr. specialize (IH r Hr). destruct r as [[mv|] found].
      * destruct IH as (n0 & l1 & l2 & -> & -> & Hf0 & Hall).
        exists n0, (n :: l1), l2. split; [done|]. split; [done|].
        split; [done|]. intros n' Hn'.
        apply elem_of_cons in Hn' as [->|Hn']; [done|by apply Hall].
      * destruct IH as (-> & Hall). split; [done|]. intros n' Hn'.
        apply elem_of_cons in Hn' as [->|Hn']; [done|by apply Hall].
Qed.
End FirstMatch.

(** *** What [enable] does, event by event *)

Lemma prompts_logged_info msg w : prompts (logged [LogInfo msg] w) = prompts w.
Proof.
  unfold prompts, logged. simpl. rewrite filter_app, length_app. simpl. lia.
Qed.

Section EnableEvents.
Context `{Collaborators}.

Lemma run_enable_events depth self stream assumeyes assumeno w m :
  module_of w self = Some m ->
  Py.mem (RepoModule.items m) stream = true ->
  let c0 := conf_or_new m in
  let c := enabled_conf c0 stream in
  let different :=
    LogInfo (format DIFFERENT_STREAM_INFO [arg_of_opt (RepoModule.name m)]) in
  let skipping := LogInfo (format STREAM_NOT_ENABLED_ERR [AStr stream]) in
  let write := WriteConf (conf_file c) c in
  exists w',
    RepoModule_enable_rec (S (S depth)) self stream assumeyes assumeno w =
      (Return tt, w') /\
    registry w' = registry (upd_module self (RepoModule.set_conf m (Some c)) w) /\
    files w' = <[conf_file c := c]> (files w) /\
    events w' =
    (events w ++
     if different_stream c0 stream assumeyes then
       if assumeno then [different; skipping; write]
       else if userconfirm (prompts w)
            then [different; UserConfirm true; write; write]
            else [different; UserConfirm false; skipping; write]
     else [write])%list.
Proof.
  intros Hg Hs c0 c different skipping write.
  destruct (different_stream c0 stream assumeyes) eqn:Hd.
  2:{ eexists. split; [by apply run_enable_settled|]. done. }
  remember (S depth) as depth' eqn:Hdepth.
  cbn [RepoModule_enable_rec].
  rewrite (bind_Return _ _ _ _ _ (run_get_module _ _ _ Hg)).
  rewrite Hs. cbn [negb].
  rewrite (bind_Return _ _ _ _ _ (run_ensure_conf _ _ _ Hg)).
  erewrite bind_Return by (eapply run_get_conf; [apply module_of_upd|done]).
  fold c0. unfold different_stream in Hd. rewrite Hd.
  set (m0 := RepoModule.set_conf m (Some c0)).
  set (w0 := upd_module self m0 w).
  assert (Hc : enabled_conf c stream = c) by done.
  rewrite bind_assoc.
  erewrite bind_Return by apply run_emit.
  destruct assumeno.
  { erewrite bind_Return by apply run_emit.
    eexists. split.
    { eapply run_enable_tail; [apply module_of_upd|done]. }
    unfold w0, upd_module, written, logged. simpl.
    rewrite set_set, <- !app_assoc. done. }
  rewrite bind_assoc.
  erewrite bind_Return by apply run_userconfirm.
  rewrite prompts_logged_info.
  assert (Hp : prompts w0 = prompts w) by done. rewrite Hp.
  destruct (userconfirm (prompts w)).
  - subst depth'. erewrite bind_Return.
    2:{ eapply run_enable_settled; [apply module_of_upd|exact Hs|].
        unfold different_stream. apply andb_false_r. }
    eexists. split.
    { eapply run_enable_tail; [apply module_of_upd|done]. }
    unfold w0, upd_module, written, logged. simpl.
    rewrite !set_set, <- !app_assoc. rewrite insert_insert_eq. done.
  - erewrite bind_Return by apply run_emit.
    eexists. split.
    { eapply run_enable_tail; [apply module_of_upd|done]. }
    unfold w0, upd_module, written, logged. simpl.
    rewrite set_set, <- !app_assoc. done.
Qed.

(** X11.  [enable] on a stream of the module returns with that stream
    recorded and enabled and the rest of the configuration kept (a new
    configuration is made for a module that has none); the file of the
    module holds that configuration; no other module and no other file
    changes.  The events are: the one write when no other stream was
    recorded or [assumeyes] is set; else the notice, then the skip message
    with [assumeno], or the question with the skip message after a no, or
    with two writes after a yes, and then the write. *)
Theorem X11_enable_outcome self stream assumeyes assumeno w m :
  module_of w self = Some m ->
  Py.mem (RepoModule.items m) stream = true ->
  let c0 := conf_or_new m in
  let c := enabled_conf c0 stream in
  let different :=
    LogInfo (format DIFFERENT_STREAM_INFO [arg_of_opt (RepoModule.name m)]) in
  let skipping := LogInfo (format STREAM_NOT_ENABLED_ERR [AStr stream]) in
  let write := WriteConf (conf_file c) c in
  exists w',
    RepoModule_enable self stream assumeyes assumeno w = (Return tt, w') /\
    module_of w' self = Some (RepoModule.set_conf m (Some c)) /\
    (forall self', self <> self' -> module_of w' self' = module_of w self') /\
    tracker w' = tracker w /\
    files w' = <[conf_file c := c]> (files w) /\
    events w' =
    (events w ++
     if different_stream c0 stream assumeyes then
       if assumeno then [different; skipping; write]
       else if userconfirm (prompts w)
            then [different; UserConfirm true; write; write]
            else [different; UserConfirm false; skipping; write]
     else [write])%list.
Proof.
  intros Hg Hs c0 c different skipping write. rewrite enable_unfold.
  destruct (run_enable_events 998 self stream assumeyes assumeno w m Hg Hs)
    as (w' & Hrun & Hreg & Hfiles & Hev).
  exists w'. split; [done|].
  unfold module_of, tracker. rewrite Hreg. simpl.
  split; [apply get_set_eq|]. split; [intros; by apply get_set_ne|done].
Qed.

(** X12.  [enable] never asks when [assumeyes] or [assumeno] is set, and
    asks at most once otherwise. *)
Theorem X12_enable_prompts self stream assumeyes assumeno w r w' :
  RepoModule_enable self stream assumeyes assumeno w = (r, w') ->
  (assumeyes = true \/ assumeno = true -> prompts w' = prompts w) /\
  (prompts w <= prompts w' <= prompts w + 1)%nat.
Proof.
  rewrite enable_unfold. intros Hrun.
  destruct (module_of w self) as [m|] eqn:Hm.
  2:{ rewrite run_enable_missing_module in Hrun by done.
      injection Hrun as <- <-. split; [done|lia]. }
  destruct (Py.mem (RepoModule.items m) stream) eqn:Hmem.
  2:{ rewrite (run_enable_no_stream _ _ _ _ _ _ m) in Hrun by done.
      injection Hrun as <- <-. split; [done|lia]. }
  destruct (run_enable_events 998 self stream assumeyes assumeno w m Hm Hmem)
    as (w1 & Hrun1 & _ & _ & Hev).
  rewrite Hrun1 in Hrun. injection Hrun as <- <-.
  unfold prompts. rewrite Hev, filter_app, length_app.
  destruct (different_stream (conf_or_new m) stream assumeyes) eqn:Hd.
  2:{ simpl. split; [intros; lia|lia]. }
  assert (assumeyes = false) as ->.
  { unfold different_stream in Hd. destruct assumeyes; [|done].
    by rewrite andb_false_r in Hd. }
  destruct assumeno; [simpl; split; [intros; lia|lia]|].
  destruct (userconfirm _); simpl; (split; [intros [?|?]; done|lia]).
Qed.

(** X13.  [enable] on a stream that the module does not have raises the
    no-such-stream error, naming the stream and the module, and changes
    nothing: no configuration is made, no file is written. *)
Theorem X13_enable_unknown_stream self stream assumeyes assumeno w m :
  module_of w self = Some m ->
  Py.get (RepoModule.items m) stream = None ->
  RepoModule_enable self stream assumeyes assumeno w =
  (Raise (Error (format NO_STREAM_ERR
                   [AStr stream; arg_of_opt (RepoModule.name m)])), w).
Proof.
  intros Hm Hs. rewrite enable_unfold.
  apply run_enable_no_stream; [done|]. unfold Py.mem. by rewrite Hs.
Qed.

(** X14.  On a registry built by [add], [enable] by specification never
    raises.  A specification that does not resolve leaves one error in
    the log and nothing else; one that resolves to a version enables the
    stream of that version on its module. *)
Theorem X14_enable_by_spec pkg_spec assumeyes assumeno w :
  wf_registry (registry w) ->
  exists found,
    ModuleSubject_find_module_version pkg_spec (registry w) = Return found /\
    match found.1 with
    | None =>
        RepoModuleDict_enable pkg_spec assumeyes assumeno w =
        (Return tt, logged [LogError (format NO_MODULE_ERR [AStr pkg_spec])] w)
    | Some mv =>
        RepoModuleDict_enable pkg_spec assumeyes assumeno w =
        RepoModule_enable (RepoModuleVersion.name mv)
          (RepoModuleVersion.stream mv) assumeyes assumeno w /\
        exists w',
          RepoModuleDict_enable pkg_spec assumeyes assumeno w = (Return tt, w')
    end.
Proof.
  intros Hwf.
  destruct (subject_find_total pkg_spec _ Hwf) as (r & Hr & Hmv).
  exists r. split; [done|]. unfold RepoModuleDict_enable.
  rewrite (bind_Return _ _ _ _ _ (run_get_registry w)).
  erewrite bind_Return by (rewrite run_lift, Hr; done).
  destruct r as [[mv|] x]; simpl in *; [|done].
  destruct (Hmv mv eq_refl) as (n & _ & m & st & Hm & Hst & Hn).
  rewrite <- Hn in Hm.
  erewrite bind_Return by (by eapply run_dict_getitem).
  split; [done|].
  destruct (run_enable_any 998 (RepoModuleVersion.name mv)
              (RepoModuleVersion.stream mv) assumeyes assumeno w m Hm)
    as (w' & Hrun & _).
  { apply mem_true. by rewrite Hst. }
  by exists w'.
Qed.
End EnableEvents.

(** *** [sorted] and [sorted(set(...))] *)

Lemma string_compare_le_trans s1 s2 s3 :
  String.compare s1 s2 <> Gt -> String.compare s2 s3 <> Gt ->
  String.compare s1 s3 <> Gt.
Proof.
  revert s2 s3. induction s1 as [|a s1 IH]; intros [|b s2] [|c s3];
    simpl; try done.
  unfold Ascii.compare.
  destruct (N.compare_spec (N_of_ascii a) (N_of_ascii b)) as [Hab|Hab|Hab];
    destruct (N.compare_spec (N_of_ascii b) (N_of_ascii c)) as [Hbc|Hbc|Hbc];
    destruct (N.compare_spec (N_of_ascii a) (N_of_ascii c)) as [Hac|Hac|Hac];
    try done; try lia.
  apply IH.
Qed.

Lemma str_le_trans a b c : str_le a b -> str_le b c -> str_le a c.
Proof.
  unfold str_le, String.leb. intros Hab Hbc.
  pose proof (string_compare_le_trans a b c) as Ht.
  destruct (String.compare a b); destruct (String.compare b c);
    destruct (String.compare a c); try done; exfalso; by apply Ht.
Qed.

Lemma str_le_total a b : str_le a b \/ str_le b a.
Proof. apply String.leb_total. Qed.


Lemma insert_sorted_perm x l : Py.insert_sorted x l ≡ₚ x :: l.
Proof.
  induction l as [|y l IH]; simpl; [done|].
  destruct (String.leb x y); [done|]. rewrite IH. apply Permutation_swap.
Qed.

Lemma sorted_perm l : Py.sorted l ≡ₚ l.
Proof.
  induction l as [|x l IH]; simpl; [done|].
  rewrite insert_sorted_perm. by rewrite IH.
Qed.

Lemma insert_sorted_sorted x l :
  StronglySorted str_le l -> StronglySorted str_le (Py.insert_sorted x l).
Proof.
  induction 1 as [|y l Hl IH Hy]; simpl.
  - repeat constructor.
  - destruct (String.leb x y) eqn:Hxy.
    + constructor; [by constructor|]. constructor; [done|].
      eapply Forall_impl; [exact Hy|]. intros z Hz. by eapply str_le_trans.
    + constructor; [done|]. rewrite insert_sorted_perm.
      constructor; [|done].
      destruct (str_le_total x y) as [Hle|Hle]; [|done].
      unfold str_le in Hle. congruence.
Qed.

Lemma sorted_sorted l : StronglySorted str_le (Py.sorted l).
Proof.
  induction l as [|x l IH]; simpl; [constructor|].
  by apply insert_sorted_sorted.
Qed.


Lemma elem_of_sorted_set l x : x ∈ Py.sorted_set l <-> x ∈ l.
Proof. unfold Py.sorted_set. by rewrite sorted_perm, elem_of_remove_dups. Qed.

Lemma NoDup_sorted_set l : NoDup (Py.sorted_set l).
Proof. unfold Py.sorted_set. rewrite sorted_perm. apply NoDup_remove_dups. Qed.

Lemma commit_step_other w n n' :
  n' <> n -> module_of (commit_step w n') n = module_of w n.
Proof.
  intros Hne. unfold commit_step.
  destruct (module_of w n') as [m|]; [|done].
  destruct (RepoModule.conf m); [|done].
  destruct (RepoModule.installed_repo_module_version m); [|done].
  rewrite module_of_written. by apply module_of_upd_ne.
Qed.

(** One commit of a module sorts the union of its profiles into the
    configuration and keeps the union. *)
Lemma commit_step_profiles U w n :
  profiles_known U w n ->
  profiles_known U (commit_step w n) n /\
  profiles_committed U (commit_step w n) n.
Proof.
  intros (m & c & v & Hm & Hc & Hv & HU).
  assert (Hstep : module_of (commit_step w n) n =
                  Some (committed_module m c v)).
  { unfold commit_step. rewrite Hm, Hc, Hv. rewrite module_of_written.
    apply module_of_upd. }
  split.
  - exists (committed_module m c v), (committed_conf m c v), v.
    do 3 (split; [done|]). intros x. simpl.
    rewrite elem_of_sorted_set, elem_of_app, <- HU. tauto.
  - exists (committed_module m c v), (committed_conf m c v).
    do 2 (split; [done|]). simpl.
    split; [apply sorted_sorted|]. split; [apply NoDup_sorted_set|].
    intros x. by rewrite elem_of_sorted_set, elem_of_app, <- HU.
Qed.

Lemma commit_all_known U l w n :
  profiles_known U w n -> profiles_known U (foldl commit_step w l) n.
Proof.
  revert w. induction l as [|n' l IH]; intros w Hk; [done|].
  cbn [foldl]. apply IH. destruct (decide (n' = n)) as [->|Hne].
  - by apply commit_step_profiles.
  - destruct Hk as (m & c & v & Hm & Hrest). exists m, c, v.
    split; [|done]. by rewrite commit_step_other.
Qed.



Section TrackerProfiles.
Context `{Collaborators}.


End TrackerProfiles.

(** *** Operations by specification *)

Section BySpec.
Context `{Collaborators}.

(** X15.  On a registry built by [add], [disable] by specification
    disables the module of the version that the specification resolves
    to, or else the module registered under the specification itself:
    the configuration of that module (a new one if it had none) gets
    enabled false and is written, and nothing else changes.  When neither
    exists the call leaves one warning in the log. *)
Theorem X15_disable_by_spec pkg_spec w :
  wf_registry (registry w) ->
  exists found,
    ModuleSubject_find_module_version pkg_spec (registry w) = Return found /\
    let target :=
      match found.1 with
      | Some mv => RepoModuleVersion.name mv
      | None => pkg_spec
      end in
    match module_of w target with
    | Some m =>
        let c := ModuleConf.set_enabled (conf_or_new m) false in
        RepoModuleDict_disable pkg_spec w =
        (Return tt,
         written c (upd_module target (RepoModule.set_conf m (Some c)) w))
    | None =>
        found.1 = None /\
        RepoModuleDict_disable pkg_spec w =
        (Return tt,
         logged [LogWarning (format NO_MODULE_ERR [AStr pkg_spec])] w)
    end.
Proof.
  intros Hwf.
  destruct (subject_find_total pkg_spec _ Hwf) as (r & Hr & Hmv).
  exists r. split; [done|]. unfold RepoModuleDict_disable.
  rewrite (bind_Return _ _ _ _ _ (run_get_registry w)).
  erewrite bind_Return by (rewrite run_lift, Hr; done).
  destruct r as [[mv|] x]; simpl in *.
  - destruct (Hmv mv eq_refl) as (n & _ & m & st & Hm & Hst & Hn).
    rewrite <- Hn in Hm. unfold module_of. rewrite Hm.
    by apply run_disable.
  - unfold module_of.
    destruct (Py.get (RepoModuleDict.items (registry w)) pkg_spec)
      as [m|] eqn:Hm; [by apply run_disable|done].
Qed.

(** X16.  A specification that resolves to no version does not stop
    [install] or [upgrade]: the error is logged and the remaining
    specifications are processed. *)
Theorem X16_unresolved_spec_is_skipped pkg_spec rest autoenable w found :
  ModuleSubject_find_module_version pkg_spec (registry w) =
    Return (None, found) ->
  RepoModuleDict_install (pkg_spec :: rest) autoenable w =
  RepoModuleDict_install rest autoenable
    (logged [LogError (format NO_MODULE_ERR [AStr pkg_spec])] w) /\
  RepoModuleDict_upgrade (pkg_spec :: rest) w =
  RepoModuleDict_upgrade rest
    (logged [LogError (format NO_MODULE_ERR [AStr pkg_spec])] w).
Proof.
  intros Hfind. split.
  - unfold RepoModuleDict_install. cbn [for_each]. rewrite bind_assoc.
    rewrite (bind_Return _ _ _ _ _ (run_get_registry w)). rewrite bind_assoc.
    erewrite bind_Return by (rewrite run_lift, Hfind; done).
    by erewrite bind_Return by apply run_emit.
  - unfold RepoModuleDict_upgrade. cbn [for_each]. rewrite bind_assoc.
    rewrite (bind_Return _ _ _ _ _ (run_get_registry w)). rewrite bind_assoc.
    erewrite bind_Return by (rewrite run_lift, Hfind; done).
    by erewrite bind_Return by apply run_emit.
Qed.



End BySpec.

(** *** The profile of a specification *)

Lemma rsplit1_absent c s : Py.contains c s = false -> Py.rsplit1 c s = [s].
Proof.
  induction s as [|x r IH]; simpl; [done|].
  intros Hc. apply orb_false_iff in Hc as [Hx Hr].
  rewrite (IH Hr). by rewrite Hx.
Qed.

Lemma rsplit1_last c a b :
  Py.contains c b = false -> Py.rsplit1 c (a +:+ String c b) = [a; b].
Proof.
  intros Hb. induction a as [|x a IH]; simpl.
  - rewrite (rsplit1_absent c b Hb). by rewrite bool_decide_true.
  - by rewrite IH.
Qed.

Lemma contains_app c a b : Py.contains c (a +:+ String c b) = true.
Proof.
  induction a as [|x a IH]; simpl.
  - by rewrite bool_decide_true.
  - rewrite IH. apply orb_true_r.
Qed.

Section ParserProfile.
Context `{Collaborators}.

(** X21.  For a specification [nsva/profile] whose profile has no slash,
    hawkey is asked about [nsva] and every candidate carries the profile;
    a profile of white space only counts as no profile. *)
Theorem X21_profile_is_split_off nsva profile forms :
  Py.contains "/" profile = false ->
  ModuleSubject_get_nsvap_possibilities (nsva +:+ String "/" profile) forms =
  Return
    (omap
       (candidate
          (if bool_decide (Py.str_strip profile = EmptyString)
           then None else Some profile))
       (nevra_possibilities nsva forms)).
Proof.
  intros Hp. unfold ModuleSubject_get_nsvap_possibilities.
  rewrite contains_app, (rsplit1_last _ _ _ Hp). cbn [rbind truthy_str].
  rewrite negb_involutive. apply (candidates_fold _ _ []).
Qed.
End ParserProfile.

(** X22.  [NSVAP.__eq__] holds exactly for identifiers with the same
    name, stream, version, architecture and profile. *)
Theorem X22_nsvap_eq a b : NSVAP_eq a b = true <-> a = b.
Proof.
  destruct a, b. unfold NSVAP_eq. simpl.
  rewrite !andb_true_iff, !bool_decide_eq_true. split.
  - by intros ((((-> & ->) & ->) & ->) & ->).
  - by intros [= -> -> -> -> ->].
Qed.

(** *** [upgrade_all] *)

Section UpgradeAll.
Context `{Collaborators}.

(** X23.  [upgrade_all] upgrades by name, in ascending order of the
    names, exactly the modules whose configuration is enabled. *)
Theorem X23_upgrade_all_selects_enabled w :
  exists modules,
    RepoModuleDict_upgrade_all w = RepoModuleDict_upgrade modules w /\
    StronglySorted str_le modules /\
    forall n,
      n ∈ modules <->
      exists m c,
        (n, m) ∈ RepoModuleDict.items (registry w) /\
        RepoModule.conf m = Some c /\ ModuleConf.enabled c = true.
Proof.
  eexists. split; [reflexivity|]. split; [apply sorted_sorted|].
  intros n. rewrite sorted_perm, list_elem_of_omap. split.
  - intros ([n' m] & Hin & Hsel).
    destruct (RepoModule.conf m) as [c|] eqn:Hc; [|done].
    destruct (ModuleConf.enabled c) eqn:He; [|done].
    injection Hsel as ->. by exists m, c.
  - intros (m & c & Hin & Hc & He). exists (n, m). split; [done|].
    by rewrite Hc, He.
Qed.
End UpgradeAll.

(** *** The packages of a profile *)

Lemma foldl_Raise {A B} (f : Result A -> B -> Result A) e l :
  (forall x, f (Raise e) x = Raise e) -> foldl f (Raise e) l = Raise e.
Proof. intros Hf. induction l as [|x l IH]; simpl; [done|]. by rewrite Hf. Qed.

Section ProfileNevra.
Context `{Collaborators}.

(** X24.  For a profile of the version, when every artifact parses,
    [profile_nevra] returns without duplicates exactly the name-evr of the
    artifacts (epoch prefix dropped) whose first parse has a name among
    the packages of the profile.  An unknown profile raises [KeyError], and
    an artifact without a parse raises [IndexError], whatever the profile
    lists. *)
Theorem X24_profile_nevra mv profile :
  (Py.get (ModuleMetadata.profiles (RepoModuleVersion.module_metadata mv))
     profile = None ->
   RepoModuleVersion_profile_nevra mv profile = Raise KeyError) /\
  (forall rpms,
     Py.get (ModuleMetadata.profiles (RepoModuleVersion.module_metadata mv))
       profile = Some rpms ->
     ((exists nevra, nevra ∈ RepoModuleVersion_nevra mv /\
                     get_nevra_possibilities nevra = []) ->
      RepoModuleVersion_profile_nevra mv profile = Raise IndexError) /\
     ((forall nevra, nevra ∈ RepoModuleVersion_nevra mv ->
                     get_nevra_possibilities nevra <> []) ->
      exists result,
        RepoModuleVersion_profile_nevra mv profile = Return result /\
        NoDup result /\
        forall x,
          x ∈ result <->
          exists nevra nevra_obj rest,
            nevra ∈ RepoModuleVersion_nevra mv /\
            get_nevra_possibilities nevra = nevra_obj :: rest /\
            Nevra.name nevra_obj ∈ rpms /\
            x = Nevra.name nevra_obj +:+ "-" +:+ evr nevra_obj)).
Proof.
  unfold RepoModuleVersion_profile_nevra, RepoModuleVersion_rpms, Py.getitem.
  split; [by intros ->|]. intros rpms ->. cbn [rbind].
  match goal with |- context [foldl ?g _ _] => set (f := g) end.
  assert (Hraise : forall e x, f (Raise e) x = Raise e) by done.
  assert (Hstep : forall acc y,
            f (Return acc) y =
            match get_nevra_possibilities y with
            | [] => Raise IndexError
            | nevra_obj :: _ =>
                if negb (bool_decide (Nevra.name nevra_obj ∈ rpms)) then
                  Return acc
                else
                  Return
                    (if bool_decide
                          (Nevra.name nevra_obj +:+ "-" +:+ evr nevra_obj
                           ∈ acc)
                     then acc
                     else (acc ++
                           [Nevra.name nevra_obj +:+ "-" +:+ evr nevra_obj])%list)
            end) by done.
  clearbody f.
  generalize (RepoModuleVersion_nevra mv). intros l. split.
  - intros (nevra & Hin & Hnone).
    assert (Hgen : forall acc, foldl f (Return acc) l = Raise IndexError).
    { induction l as [|y l IH]; intros acc; [by apply elem_of_nil in Hin|].
      cbn [foldl]. rewrite Hstep.
      apply elem_of_cons in Hin as [<-|Hin].
      - rewrite Hnone. by apply foldl_Raise.
      - destruct (get_nevra_possibilities y) as [|obj ?];
          [by apply foldl_Raise|].
        destruct (negb _); [by apply IH|]. by apply IH. }
    apply Hgen.
  - intros Hall.
    assert (Hgen : forall acc, NoDup acc ->
              exists result,
                foldl f (Return acc) l = Return result /\ NoDup result /\
                forall x,
                  x ∈ result <->
                  x ∈ acc \/
                  exists nevra nevra_obj rest,
                    nevra ∈ l /\
                    get_nevra_possibilities nevra = nevra_obj :: rest /\
                    Nevra.name nevra_obj ∈ rpms /\
                    x = Nevra.name nevra_obj +:+ "-" +:+ evr nevra_obj).
    { induction l as [|y l IH]; intros acc Hnd.
      { exists acc. split; [done|]. split; [done|]. intros x. split; [by left|].
        intros [?|(? & ? & ? & Hx & _)]; [done|by apply elem_of_nil in Hx]. }
      cbn [foldl]. rewrite Hstep.
      destruct (get_nevra_possibilities y) as [|obj rest] eqn:Hy.
      { destruct (Hall y); [left|done]. }
      assert (Hall' : forall nevra, nevra ∈ l ->
                get_nevra_possibilities nevra <> [])
        by (intros; apply Hall; by right).
      case_bool_decide as Hname; simpl.
      - set (item := Nevra.name obj +:+ "-" +:+ evr obj).
        set (acc' := if bool_decide (item ∈ acc) then acc
                     else (acc ++ [item])%list).
        assert (Hnd' : NoDup acc').
        { subst acc'. case_bool_decide as Hi; [done|].
          apply NoDup_app. split; [done|]. split; [|apply NoDup_singleton].
          intros x Hx Hx'. apply list_elem_of_singleton in Hx' as ->. done. }
        assert (Hacc' : forall x, x ∈ acc' <-> x ∈ acc \/ x = item).
        { intros x. subst acc'. case_bool_decide as Hi.
          - split; [by left|]. intros [?| ->]; done.
          - rewrite elem_of_app, list_elem_of_singleton. done. }
        destruct (IH Hall' acc' Hnd') as (result & Hr & Hndr & Hmem).
        exists result. split; [done|]. split; [done|].
        intros x. rewrite Hmem, Hacc'. split.
        + intros [[?| ->]|(nv & o & r & Hin & Hp & Hn & Hx)].
          * by left.
          * right. exists y, obj, rest. split; [left|done].
          * right. exists nv, o, r. split; [by right|done].
        + intros [?|(nv & o & r & Hin & Hp & Hn & Hx)]; [by do 2 left|].
          apply elem_of_cons in Hin as [->|Hin].
          * rewrite Hy in Hp. injection Hp as <- <-. left. by right.
          * right. by exists nv, o, r.
      - destruct (IH Hall' acc Hnd) as (result & Hr & Hndr & Hmem).
        exists result. split; [done|]. split; [done|].
        intros x. rewrite Hmem. split.
        + intros [?|(nv & o & r & Hin & Hp & Hn & Hx)]; [by left|].
          right. exists nv, o, r. split; [by right|done].
        + intros [?|(nv & o & r & Hin & Hp & Hn & Hx)]; [by left|].
          apply elem_of_cons in Hin as [->|Hin].
          * rewrite Hy in Hp. injection Hp as <- <-. done.
          * right. by exists nv, o, r. }
    destruct (Hgen [] (NoDup_nil_2)) as (result & Hr & Hnd & Hmem).
    exists result. split; [done|]. split; [done|].
    intros x. rewrite Hmem. split; [|by right].
    intros [Hx|?]; [by apply elem_of_nil in Hx|done].
Qed.
End ProfileNevra.

(** *** [read_all_modules] *)

Lemma read_all_modules_snoc d reader conf :
  RepoModuleDict_read_all_modules d (reader ++ [conf]) =
  (d' ← RepoModuleDict_read_all_modules d reader; read_module d' conf).
Proof. unfold RepoModuleDict_read_all_modules. by rewrite foldl_app. Qed.

Lemma wf_read_module d conf d' :
  wf_registry d -> read_module d conf = Some d' -> wf_registry d'.
Proof.
  intros Hwf. unfold read_module.
  destruct (ModuleConf.name conf) as [name|]; [|done]. simpl.
  intros [= <-] n m Hin. simpl in Hin.
  apply elem_of_set in Hin as [[= -> ->]|Hin]; [|by apply Hwf].
  intros stream s Hs. simpl in Hs.
  destruct (Py.get (RepoModuleDict.items d) name) eqn:Hg.
  - by eapply Hwf; [apply get_elem_of|].
  - by apply elem_of_nil in Hs.
Qed.

(** X25.  [read_all_modules] on configurations that all have a name
    keeps a registry well formed and keeps the streams of every module;
    afterwards a module exists for every name that was read, and the
    configuration of a module is the last one read under its name, or
    the one it had when none was read. *)
Theorem X25_read_all_modules d module_reader :
  Forall (fun c => is_Some (ModuleConf.name c)) module_reader ->
  exists d',
    RepoModuleDict_read_all_modules d module_reader = Some d' /\
    (wf_registry d -> wf_registry d') /\
    RepoModuleDict.transaction_callback d' =
    RepoModuleDict.transaction_callback d /\
    forall n,
      streams_of d' n = streams_of d n /\
      (Py.get (RepoModuleDict.items d') n ≫= RepoModule.conf) =
      match conf_named n module_reader with
      | Some c => Some c
      | None => Py.get (RepoModuleDict.items d) n ≫= RepoModule.conf
      end /\
      (is_Some (Py.get (RepoModuleDict.items d') n) <->
       is_Some (Py.get (RepoModuleDict.items d) n) \/
       is_Some (conf_named n module_reader)).
Proof.
  induction module_reader as [|conf l IH] using rev_ind; intros Hall.
  - exists d. split; [done|]. split; [done|]. split; [done|].
    intros n. split; [done|]. split; [done|].
    unfold conf_named. simpl. split; [by left|]. by intros [?|[? ?]].
  - apply Forall_app in Hall as [Hl Hconf].
    apply Forall_singleton in Hconf as [name Hname].
    destruct (IH Hl) as (d1 & Hread & Hwf & Hcb & Hn).
    rewrite read_all_modules_snoc, Hread. simpl.
    unfold read_module at 1. rewrite Hname. simpl.
    eexists. split; [done|]. split.
    { intros Hwfd. eapply (wf_read_module d1 conf); [by apply Hwf|].
      unfold read_module. by rewrite Hname. }
    split; [done|]. intros n. destruct (Hn n) as (Hstreams & Hc & Hex).
    unfold conf_named in *. rewrite filter_app, last_app.
    unfold streams_of in *. simpl.
    destruct (decide (name = n)) as [->|Hne].
    + rewrite get_set_eq. simpl.
      rewrite (filter_cons_True (fun c => ModuleConf.name c = Some n))
        by done. simpl.
      split; [|split; [done|]].
      * rewrite <- Hstreams.
        by destruct (Py.get (RepoModuleDict.items d1) n).
      * split; [by right|by eexists].
    + rewrite get_set_ne by done.
      rewrite (filter_cons_False (fun c => ModuleConf.name c = Some n))
        by (rewrite Hname; by intros [= ?]).
      simpl. done.
Qed.

(** *** The metadata loader *)

(** X26.  The loader without a repository raises the cannot-load error.
    With one, it reads the first entry of the repodata directory whose name
    contains "modules", and it raises the missing-file error, naming the
    cache directory, exactly when no entry does. *)
Theorem X26_loader_picks_first_modules_file cachedir listdir loads_all :
  ModuleMetadataLoader_load None listdir loads_all =
    Raise (Error (format LOAD_CACHE_ERR [ANone])) /\
  (ModuleMetadataLoader_load (Some cachedir) listdir loads_all =
     Raise (Error (format MISSING_YAML_ERR [AStr cachedir])) <->
   forall f, f ∈ listdir (cachedir +:+ "/repodata") ->
     str_in "modules" f = false) /\
  (forall before f after,
     listdir (cachedir +:+ "/repodata") = (before ++ f :: after)%list ->
     (forall g, g ∈ before -> str_in "modules" g = false) ->
     str_in "modules" f = true ->
     ModuleMetadataLoader_load (Some cachedir) listdir loads_all =
     Return (loads_all (cachedir +:+ "/repodata/" +:+ f))).
Proof.
  split; [done|]. unfold ModuleMetadataLoader_load. split.
  - destruct (filter _ _) as [|first rest] eqn:Hf.
    + split; [|done]. intros _ f Hin.
      destruct (str_in "modules" f) eqn:Hs; [|done].
      assert (f ∈ filter (fun g => str_in "modules" g = true)
                    (listdir (cachedir +:+ "/repodata")))
        by (by apply list_elem_of_filter).
      rewrite Hf in *. by apply elem_of_nil in H.
    + split; [done|]. intros Hall.
      assert (Hin : first ∈ filter (fun g => str_in "modules" g = true)
                              (listdir (cachedir +:+ "/repodata")))
        by (rewrite Hf; left).
      apply list_elem_of_filter in Hin as [Ht Hin].
      rewrite (Hall first Hin) in Ht. done.
  - intros before f after -> Hbefore Hf. rewrite filter_app.
    assert (filter (fun g => str_in "modules" g = true) before = []) as ->.
    { clear -Hbefore. induction before as [|g l IH]; [done|].
      rewrite filter_cons_False by (rewrite (Hbefore g); [done|left]).
      apply IH. intros g' Hg'. apply Hbefore. by right. }
    simpl. by rewrite (filter_cons_True _ f) by done.
Qed.

(** X27.  [load_modules] changes no configuration and not the tracker. *)
Theorem X27_load_modules_keeps_conf d repo loaded :
  (forall n,
     (Py.get (RepoModuleDict.items (RepoModuleDict.load_modules d repo loaded))
        n ≫= RepoModule.conf) =
     (Py.get (RepoModuleDict.items d) n ≫= RepoModule.conf)) /\
  RepoModuleDict.transaction_callback
    (RepoModuleDict.load_modules d repo loaded) =
  RepoModuleDict.transaction_callback d.
Proof.
  induction loaded as [|md l IH] using rev_ind; [done|].
  rewrite load_modules_snoc. destruct IH as [IHc IHt]. split.
  - intros n. by rewrite conf_add.
  - done.
Qed.

(** *** [upgrade] and [install] by specification *)

Section UpgradeInstall.
Context `{Collaborators}.



End UpgradeInstall.

(** ** The claims on the concrete registry *)

#[local] Existing Instance Demo.collaborators.

(** [int] and [strip] on white space and digits outside the ASCII
    range: a no-break space (U+00A0), an em space (U+2003), the
    Arabic-Indic digits three and four (U+0663, U+0664), and a file
    separator (U+001C), which [strip] removes and [int] does not skip. *)
Lemma int_and_strip_read_code_points :
  Py.int (String "194" (String "160" "7")) = Some 7%Z /\
  Py.int (String "217" (String "163" EmptyString)) = Some 3%Z /\
  Py.int (String "217" (String "163"
            (String "_" (String "217" (String "164"
               (String "226" (String "128" (String "131" EmptyString))))))))
    = Some 34%Z /\
  Py.int (String "028" "5") = None /\
  Py.int "1__0" = None /\
  Py.int " -12 " = Some (-12)%Z /\
  Py.str_strip (String "194" (String "160" (String "028" EmptyString)))
    = EmptyString /\
  Py.str_strip (String "194" (String "160" " web ")) = "web".
Proof. by vm_compute. Qed.

Lemma wf_demo_registry : wf_registry Demo.registry.
Proof. apply wf_with_conf, wf_load_modules, wf_init. Qed.

(** C1 (the code does otherwise).  [foo] is enabled on stream 1.0 and
    [enable] is called for stream 2.0, with [assumeno] or with the
    confirmation denied: the call logs that the stream is skipped and then
    records stream 2.0 in the configuration and in the file. *)
Theorem C1_enable_assume_no_switches_stream :
  let w := Demo.world Demo.registry in
  let different := LogInfo (format DIFFERENT_STREAM_INFO [AStr "foo"]) in
  let skipping := LogInfo (format STREAM_NOT_ENABLED_ERR [AStr "2.0"]) in
  let switched := ModuleConf.set_stream Demo.foo_conf (Some "2.0") in
  (module_of w "foo" ≫= RepoModule.conf) = Some Demo.foo_conf /\
  ModuleConf.stream Demo.foo_conf = Some "1.0" /\
  ModuleConf.enabled Demo.foo_conf = true /\
  (let r := RepoModule_enable "foo" "2.0" false true w in
   r.1 = Return tt /\
   (module_of r.2 "foo" ≫= RepoModule.conf) = Some switched /\
   files r.2 !! "foo.module" = Some switched /\
   events r.2 = [different; skipping; WriteConf "foo.module" switched]) /\
  (let r := RepoModule_enable "foo" "2.0" false false w in
   r.1 = Return tt /\
   (module_of r.2 "foo" ≫= RepoModule.conf) = Some switched /\
   files r.2 !! "foo.module" = Some switched /\
   events r.2 =
     [different; UserConfirm false; skipping;
      WriteConf "foo.module" switched]).
Proof. vm_compute. repeat split. Qed.

(** C3 (the code does otherwise).  [httpd] has no configuration, and
    [install] of its profile web, without [autoenable], registers it with
    the tracker.  The post-transaction signal then sets the flag and
    raises [AttributeError] where the loop reads [conf.enabled]: nothing
    is written, and every later signal finds the flag set, so that the
    tracked module is never written.  With [foo] tracked in front of
    [httpd] the loop writes [foo] and stops in the same way. *)
Theorem C3_commit_raises_without_conf :
  (let w := Demo.world Demo.repo_modules in
   let r := RepoModuleDict_install ["httpd/web"] false w in
   let p := ModuleTransactionProgress_progress "bar" 103 1 1 1 1 r.2 in
   (module_of w "httpd" ≫= RepoModule.conf) = None /\
   r.1 = Return tt /\
   tracker r.2 = ModuleTransactionProgress.mk ["httpd"] false /\
   p.1 = Raise AttributeError /\
   tracker p.2 = ModuleTransactionProgress.mk ["httpd"] true /\
   writes p.2 = [] /\
   files p.2 = ∅ /\
   deliver [Demo.post_transaction; Demo.verify; Demo.post_transaction] r.2 =
   p.2) /\
  (let w := Demo.world Demo.registry in
   let r := RepoModuleDict_install ["foo/db"; "httpd/web"] false w in
   let p := ModuleTransactionProgress_progress "bar" 103 1 1 1 1 r.2 in
   r.1 = Return tt /\
   tracker r.2 = ModuleTransactionProgress.mk ["foo"; "httpd"] false /\
   p.1 = Raise AttributeError /\
   tracker p.2 = ModuleTransactionProgress.mk ["foo"; "httpd"] true /\
   writes p.2 =
   [WriteConf "foo.module"
      (ModuleConf.mk (Some "foo") (Some "1.0") (Some 3) true false
         ["db"; "web"])] /\
   files p.2 !! "httpd.module" = None /\
   deliver [Demo.post_transaction; Demo.verify] r.2 = p.2).
Proof. vm_compute. repeat split. Qed.


(** C4, as stated, fails: the registry holds version 3 of stream 1.0 of
    [foo], and with [foo] locked on version 1 the lookup of that triple
    does not return a version 3. *)
Lemma C4_counterexample_locked :
  stored_version Demo.locked_registry "foo" "1.0" 3 <> None /\
  ~ exists mv,
      RepoModuleDict.find_module_version Demo.locked_registry "foo"
        (Some "1.0") (Some 3%Z) None = Return (Some mv) /\
      RepoModuleVersion.name mv = "foo" /\
      RepoModuleVersion.stream mv = "1.0" /\
      RepoModuleVersion.version mv = 3%Z.
Proof.
  split; [by vm_compute|].
  intros (mv & Hf & _ & _ & Hv). vm_compute in Hf.
  injection Hf as <-. by vm_compute in Hv.
Qed.

(** C5, as stated, fails: module [foo] exists and has no stream 9.9,
    module [nosuch] does not exist, and both lookups return the same
    [None]. *)
Lemma C5_counterexample_same_outcome :
  (exists m,
     Py.get (RepoModuleDict.items Demo.registry) "foo" = Some m /\
     Py.get (RepoModule.items m) "9.9" = None) /\
  Py.get (RepoModuleDict.items Demo.registry) "nosuch" = None /\
  RepoModuleDict.find_module_version Demo.registry "foo" (Some "9.9") None None
  = Return None /\
  RepoModuleDict.find_module_version Demo.registry "nosuch" (Some "9.9")
    None None
  = RepoModuleDict.find_module_version Demo.registry "foo" (Some "9.9")
      None None.
Proof. split; [eexists; split; reflexivity|]. by vm_compute. Qed.

Lemma C2_witness :
  RepoModuleDict.find_module_version Demo.locked_registry "foo" (Some "1.0")
    (Some 3%Z) None =
  Return (Some (RepoModuleVersion.mk
                  (Demo.metadata "foo" "1.0" 1 Demo.foo_profiles) "fedora")).
Proof.
  refine (proj1 (C2_lock_overrides_version Demo.locked_registry "foo"
                   _ _ 1%Z "1.0" _ _ _ _ _ _ _ _ _ (Some 3%Z) None));
    first [reflexivity | done].
Defined.

Lemma C4_witness :
  RepoModuleDict.find_module_version Demo.registry "foo" (Some "1.0")
    (Some 3%Z) None = Return (Some Demo.foo_3).
Proof.
  refine (proj1 (C4_find_version_unlocked Demo.registry "foo" "1.0" 3 None
                   wf_demo_registry _ _ _)); [done..|].
  intros m Hm. vm_compute in Hm. injection Hm as <-. reflexivity.
Defined.

Lemma C5_witness :
  RepoModuleDict.find_module_version Demo.registry "foo" (Some "9.9") None None
  = Return None.
Proof.
  refine (proj1 (C5_missing_stream_is_not_found Demo.registry "foo" _ "9.9"
                   None None _ _ _)); first [reflexivity | done].
Defined.

Lemma C7_witness :
  exists w',
    RepoModule_enable "foo" "1.0" false false (Demo.world Demo.registry) =
      (Return tt, w') /\
    registry w' = Demo.registry /\
    prompts w' = 0%nat /\
    files w' = <["foo.module" := Demo.foo_conf]> ∅.
Proof.
  refine (proj1 (C7_enable_idempotent "foo" "1.0" false false false false
                   (Demo.world Demo.registry)) _ Demo.foo_conf _ _ _ _ _);
    reflexivity.
Defined.

Lemma C8_witness :
  exists w1 c1,
    RepoModule_disable "foo" (Demo.world Demo.registry) = (Return tt, w1) /\
    (module_of w1 "foo" ≫= RepoModule.conf) = Some c1 /\
    ModuleConf.enabled c1 = false /\
    ModuleConf.version c1 = Some 3%Z /\
    ModuleConf.profiles c1 = ["web"].
Proof.
  destruct (C8_disable_preserves_history "foo" (Demo.world Demo.registry)
              _ Demo.foo_conf eq_refl eq_refl)
    as (w1 & c1 & Hrun & Hm & _ & He & _ & _ & Hv & Hp & _).
  exists w1, c1. rewrite Hm. done.
Defined.

Lemma C9_witness :
  exists result,
    ModuleSubject_get_nsvap_possibilities "foo-1.0-rc1" [] = Return result /\
    Forall (fun n => NSVAP.profile n = None) result.
Proof.
  destruct (C9_parser_filters_non_integer_versions "foo-1.0-rc1" [])
    as (nsva & profile & result & Hrun & _ & _ & Hall & Hslash).
  destruct (Hslash eq_refl) as [_ ->].
  exists result. split; [done|]. apply Forall_forall. intros n Hn.
  by destruct (Hall n Hn).
Defined.

Lemma C10_witness :
  exists w',
    RepoModuleDict_install ["foo"] true (Demo.world Demo.registry) =
    (Raise (Error (format NO_PROFILE_ERR [ANone; AList ["db"; "web"]])), w').
Proof.
  refine (proj2 (proj2 (C10_install_without_profile_fails "foo" [] true
                          (Demo.world Demo.registry) Demo.foo_3 _
                          wf_demo_registry eq_refl _))).
  reflexivity.
Defined.


(** ** The further properties on the concrete registry *)

Lemma wf_demo_stream : wf_stream "foo" "1.0" Demo2.stream_1_0.
Proof. apply wf_stream_add; [done..|]. right. apply wf_stream_add; [done..|]. by left. Qed.

Lemma X1_witness :
  exists mv,
    RepoModuleStream.latest Demo2.stream_1_0 = Return mv /\
    RepoModuleVersion.version mv = 3%Z.
Proof.
  destruct (X1_latest_is_newest "foo" "1.0" Demo2.stream_1_0 wf_demo_stream)
    as (v & mv & Hl & Hin & Hv & Hmax).
  exists mv. split; [done|]. rewrite Hv.
  assert (H3 : (3 <= v)%Z).
  { apply (Hmax 3%Z Demo.foo_3). vm_compute. right. left. }
  vm_compute in Hin.
  apply elem_of_cons in Hin as [[= -> _]|Hin]; [lia|].
  apply elem_of_cons in Hin as [[= -> _]|Hin]; [done|].
  by apply elem_of_nil in Hin.
Defined.

Lemma X3_witness :
  RepoModuleDict.find_module_version
    (RepoModuleDict.add Demo.registry Demo2.foo_5) "foo" (Some "1.0")
    (Some 5%Z) None = Return (Some Demo2.foo_5).
Proof.
  refine (X3_add_then_find Demo.registry Demo2.foo_5 None _ _ _); [done..|].
  intros m Hm. vm_compute in Hm. injection Hm as <-. reflexivity.
Defined.

Lemma X5_witness :
  stored_version
    (RepoModuleDict.load_modules RepoModuleDict.init "fedora"
       [Demo.metadata "foo" "2.0" 1 Demo.foo_profiles;
        Demo.metadata "foo" "2.0" 1 [("db", ["qux"])]])
    "foo" "2.0" 1 = Some Demo2.foo_2_0.
Proof.
  destruct (X5_load_modules_stores "fedora"
              [Demo.metadata "foo" "2.0" 1 Demo.foo_profiles;
               Demo.metadata "foo" "2.0" 1 [("db", ["qux"])]]
              RepoModuleDict.init wf_init) as [_ Hstored].
  rewrite Hstored. by vm_compute.
Defined.

Lemma X6_witness :
  RepoModuleDict.find_module_version Demo.registry "foo" None None None =
  RepoModuleDict.find_module_version Demo.registry "foo" (Some "1.0") None None.
Proof.
  refine (X6_find_uses_enabled_stream Demo.registry "foo" Demo2.foo
            Demo.foo_conf "1.0" None None None _ _ _ _ _ _);
    first [by vm_compute | done].
Defined.

Lemma X7_witness :
  RepoModuleDict.find_module_version Demo.registry "httpd" None None None =
  RepoModuleDict.find_module_version Demo.registry "httpd" (Some "2.4")
    None None.
Proof.
  destruct (Py.get (RepoModuleDict.items Demo.registry) "httpd")
    as [m|] eqn:Hm; [|by vm_compute in Hm].
  refine (X7_find_uses_default_stream Demo.registry "httpd" m None None None
            Hm eq_refl _).
  vm_compute in Hm. by injection Hm as <-.
Defined.

Lemma X8_witness :
  exists mv,
    RepoModuleDict.find_module_version Demo.registry "foo" (Some "1.0")
      (Some 0%Z) None = Return (Some mv) /\
    (3 <= RepoModuleVersion.version mv)%Z.
Proof.
  destruct (X8_find_returns_latest Demo.registry "foo" Demo2.foo "1.0"
              Demo2.stream_1_0 (Some 0%Z) None wf_demo_registry)
    as (mv & Hf & _ & Hmax); [by vm_compute|done|by vm_compute|done|by right|].
  exists mv. split; [done|]. apply (Hmax 3%Z Demo.foo_3).
  vm_compute. right. left.
Defined.

Lemma X9_witness :
  RepoModuleDict.find_module_version Demo2.locked_missing "foo" (Some "1.0")
    (Some 3%Z) None = Return None.
Proof.
  destruct (Py.get (RepoModuleDict.items Demo2.locked_missing) "foo")
    as [m|] eqn:Hm; [|by vm_compute in Hm].
  refine (X9_find_locked_version_missing Demo2.locked_missing "foo" m "1.0"
            Demo2.stream_1_0 7%Z (Some 3%Z) None Hm _ _ _ _);
    vm_compute in Hm; injection Hm as <-; first [done | by vm_compute].
Defined.

Lemma X10_witness :
  exists n,
    (ModuleSubject_find_module_version "foo-1.0-3" Demo.registry) =
      Return (Some Demo.foo_3, Some n) /\
    RepoModuleDict.find_module_version Demo.registry (NSVAP.name n)
      (NSVAP.stream n) (NSVAP.version n) (NSVAP.arch n) =
    Return (Some Demo.foo_3).
Proof.
  assert (Hl : ModuleSubject_get_nsvap_possibilities "foo-1.0-3" [] =
               Return [NSVAP.mk "foo" (Some "1.0") (Some 3%Z) None None;
                       NSVAP.mk "foo-1.0" (Some "3") None None None;
                       NSVAP.mk "foo-1.0-3" None None None None])
    by (by vm_compute).
  assert (Hr : first_match Demo.registry
                 [NSVAP.mk "foo" (Some "1.0") (Some 3%Z) None None;
                  NSVAP.mk "foo-1.0" (Some "3") None None None;
                  NSVAP.mk "foo-1.0-3" None None None None] =
               Return (Some Demo.foo_3,
                       Some (NSVAP.mk "foo" (Some "1.0") (Some 3%Z) None None)))
    by (by vm_compute).
  destruct (X10_first_match_is_first _ _ _ Hr)
    as (n & l1 & l2 & [= <-] & _ & Hf & _).
  eexists. split; [|exact Hf].
  unfold ModuleSubject_find_module_version. by rewrite Hl.
Defined.

Lemma X11_witness :
  exists w',
    RepoModule_enable "foo" "2.0" false false (Demo.world Demo.registry) =
      (Return tt, w') /\
    events w' =
    [LogInfo (format DIFFERENT_STREAM_INFO [AStr "foo"]);
     UserConfirm false;
     LogInfo (format STREAM_NOT_ENABLED_ERR [AStr "2.0"]);
     WriteConf "foo.module" (ModuleConf.set_stream Demo.foo_conf (Some "2.0"))].
Proof.
  destruct (X11_enable_outcome "foo" "2.0" false false
              (Demo.world Demo.registry) Demo2.foo)
    as (w' & Hrun & _ & _ & _ & _ & Hev); [by vm_compute..|].
  exists w'. split; [done|]. rewrite Hev. by vm_compute.
Defined.

Lemma X12_witness :
  prompts (RepoModule_enable "foo" "2.0" false true
             (Demo.world Demo.registry)).2 = 0%nat.
Proof.
  destruct (RepoModule_enable "foo" "2.0" false true
              (Demo.world Demo.registry)) as [r w'] eqn:Hrun.
  destruct (X12_enable_prompts _ _ _ _ _ _ _ Hrun) as [Hno _].
  simpl. rewrite Hno; [done|by right].
Defined.

Lemma X13_witness :
  RepoModule_enable "foo" "9.9" true false (Demo.world Demo.registry) =
  (Raise (Error (format NO_STREAM_ERR [AStr "9.9"; AStr "foo"])),
   Demo.world Demo.registry).
Proof.
  refine (X13_enable_unknown_stream "foo" "9.9" true false
            (Demo.world Demo.registry) Demo2.foo _ _); by vm_compute.
Defined.

Lemma X14_witness :
  RepoModuleDict_enable "nosuch" false false (Demo.world Demo2.locked_missing)
  = (Return tt,
     logged [LogError (format NO_MODULE_ERR [AStr "nosuch"])]
       (Demo.world Demo2.locked_missing)).
Proof.
  destruct (X14_enable_by_spec "nosuch" false false
              (Demo.world Demo2.locked_missing))
    as (found & Hfind & Hout).
  { apply wf_with_conf, wf_load_modules, wf_init. }
  vm_compute in Hfind. injection Hfind as <-. exact Hout.
Defined.

Lemma X15_witness :
  exists w',
    RepoModuleDict_disable "foo" (Demo.world Demo.registry) = (Return tt, w') /\
    (module_of w' "foo" ≫= RepoModule.conf) =
    Some (ModuleConf.set_enabled Demo.foo_conf false).
Proof.
  destruct (X15_disable_by_spec "foo" (Demo.world Demo.registry)
              wf_demo_registry) as (found & Hfind & Hout).
  vm_compute in Hfind. injection Hfind as <-.
  cbn [fst] in Hout.
  change (RepoModuleVersion.name _) with "foo" in Hout.
  assert (Hm : module_of (Demo.world Demo.registry) "foo" = Some Demo2.foo)
    by (by vm_compute).
  rewrite Hm in Hout. eexists. split; [exact Hout|].
  rewrite module_of_written, module_of_upd. done.
Defined.

Lemma X16_witness :
  RepoModuleDict_upgrade ["nosuch"; "foo"] (Demo.world Demo.registry) =
  RepoModuleDict_upgrade ["foo"]
    (logged [LogError (format NO_MODULE_ERR [AStr "nosuch"])]
       (Demo.world Demo.registry)).
Proof.
  refine (proj2 (X16_unresolved_spec_is_skipped "nosuch" ["foo"] false
                   (Demo.world Demo.registry) None _)).
  by vm_compute.
Defined.





Lemma X21_witness :
  ModuleSubject_get_nsvap_possibilities "foo-1.0-3/web" [] =
  Return [NSVAP.mk "foo" (Some "1.0") (Some 3%Z) None (Some "web");
          NSVAP.mk "foo-1.0" (Some "3") None None (Some "web");
          NSVAP.mk "foo-1.0-3" None None None (Some "web")] /\
  ModuleSubject_get_nsvap_possibilities
    ("foo-1.0-3" +:+ String "/" (String "194" (String "160" EmptyString))) [] =
  Return [NSVAP.mk "foo" (Some "1.0") (Some 3%Z) None None;
          NSVAP.mk "foo-1.0" (Some "3") None None None;
          NSVAP.mk "foo-1.0-3" None None None None].
Proof.
  rewrite (X21_profile_is_split_off "foo-1.0-3" "web" [] eq_refl).
  rewrite (X21_profile_is_split_off "foo-1.0-3"
             (String "194" (String "160" EmptyString)) [] eq_refl).
  by vm_compute.
Defined.

Lemma X25_witness :
  exists d',
    RepoModuleDict_read_all_modules Demo.repo_modules Demo2.module_reader =
      Some d' /\
    (Py.get (RepoModuleDict.items d') "foo" ≫= RepoModule.conf) =
      Some Demo.foo_conf /\
    is_Some (Py.get (RepoModuleDict.items d') "bar").
Proof.
  destruct (X25_read_all_modules Demo.repo_modules Demo2.module_reader)
    as (d' & Hread & _ & _ & Hn).
  { repeat constructor; by eexists. }
  exists d'. split; [done|].
  destruct (Hn "foo") as (_ & Hc & _). destruct (Hn "bar") as (_ & _ & Hex).
  split; [by rewrite Hc|]. apply Hex. right. by eexists.
Defined.

Lemma X26_witness :
  ModuleMetadataLoader_load (Some "/var/cache/dnf/fedora") Demo2.repodata
    Demo2.read_modules = Return Demo.loaded.
Proof.
  destruct (X26_loader_picks_first_modules_file "/var/cache/dnf/fedora"
              Demo2.repodata Demo2.read_modules) as (_ & _ & Hfirst).
  rewrite (Hfirst ["repomd.xml"] "abc-modules.yaml.gz"
             ["def-modules.yaml.gz"; "primary.xml.gz"]).
  - by vm_compute.
  - by vm_compute.
  - intros g Hg. apply list_elem_of_singleton in Hg as ->. by vm_compute.
  - by vm_compute.
Defined.



Lemma X30_witness :
  deliver [Demo.other; Demo.post_transaction; Demo.verify;
           Demo.post_transaction] Demo.after_install =
  signal Demo.after_install Demo.post_transaction /\
  length (writes (deliver [Demo.other; Demo.post_transaction; Demo.verify;
                           Demo.post_transaction] Demo.after_install)) =
  (length (writes Demo.after_install) + 1)%nat.
Proof.
  destruct (proj2 (proj2 (X30_commit_once
                            [Demo.other; Demo.post_transaction; Demo.verify;
                             Demo.post_transaction] Demo.after_install))
              [Demo.other] Demo.post_transaction
              [Demo.verify; Demo.post_transaction])
    as (Hdeliver & _ & Hcommit).
  - by vm_compute.
  - reflexivity.
  - by repeat constructor.
  - reflexivity.
  - split; [exact Hdeliver|].
    refine (proj2 (Hcommit _)).
    intros n Hn. vm_compute in Hn.
    apply list_elem_of_singleton in Hn as ->.
    destruct (module_of Demo.after_install "foo") as [m|] eqn:Hm;
      [|by vm_compute in Hm].
    exists m. vm_compute in Hm. injection Hm as <-.
    eexists _, _. repeat split; reflexivity.
Defined.

